(** * The API gateway router: rule ordering and request routing

    A shallow embedding of [ApiGatewayRouter] (router.ts): the rule record,
    the comparator handed to [Array.prototype.sort], the scan of
    [routeRequest] and the two mutators, followed by the properties of the
    routing specification.

    Conventions of the embedding.
    - A JavaScript string is a [string]; one [ascii] stands for one code
      unit, so [String.length] is the [.length] of the source.
    - An optional field [f?: T] is an [option T]; [None] is [undefined].
    - [priority] is an integer ([Z]); the specification asks for integers.
    - [String.prototype.toUpperCase] belongs to the runtime, not to the
      repository: it is a parameter of the development (class
      [CaseMapping]).  An ASCII instance is used for concrete runs only.
    - The class keeps one mutable field; its methods are computations in a
      state monad over the router object. *)

From Stdlib Require Import String Ascii List ZArith QArith Bool Lia.
From Stdlib Require Import Permutation Sorted.
From Stdlib Require Import Floats.
Import ListNotations.

Local Open Scope string_scope.
Local Open Scope Z_scope.

(** ** Data model *)

Module RoutingRule.
Record t : Type := mk {
  id : string;
  pathPrefix : option string;
  exactPath : option string;
  method : option string;
  targetService : string;
  priority : option Z
}.
End RoutingRule.
Abbreviation RoutingRule := RoutingRule.t.

(** [headers] and [body] are never read by the router and are left out. *)
Module IncomingRequest.
Record t : Type := mk {
  path : string;
  method : string
}.
End IncomingRequest.
Abbreviation IncomingRequest := IncomingRequest.t.

Module RoutingResult.
Record t : Type := mk {
  targetService : string;
  targetPath : string
}.
End RoutingResult.
Abbreviation RoutingResult := RoutingResult.t.

(** ** JavaScript primitives used by the router *)

(** Truthiness of a [string | undefined]: [undefined] and [''] are falsy. *)
Definition truthy (v : option string) : bool :=
  match v with
  | None => false
  | Some s => negb (s =? "")%string
  end.

(** [a || b] on values of type [string | undefined]. *)
Definition js_or (a b : option string) : option string :=
  if truthy a then a else b.

(** [v ?? d] on a [number | undefined]. *)
Definition nullish (v : option Z) (d : Z) : Z :=
  match v with
  | None => d
  | Some n => n
  end.

(** The string an expression ending in [|| ''] evaluates to. *)
Definition str_of (v : option string) : string :=
  match v with
  | None => ""
  | Some s => s
  end.

(** [s.length] as a number. *)
Definition len (s : string) : Z := Z.of_nat (String.length s).

(** [s.startsWith(p)]. *)
Definition startsWith (s p : string) : bool := String.prefix p s.

(** [s.substring(n)]: the code units of [s] from index [n] to the end. *)
Definition substring_from (s : string) (n : nat) : string :=
  String.substring n (String.length s - n) s.

(** The runtime's case mapping. *)
Class CaseMapping : Type := { toUpperCase : string -> string }.

(** ASCII letters [a]-[z] go to [A]-[Z]; every other code unit is kept.
    This is what [toUpperCase] does on ASCII strings. *)
Definition ascii_upper (c : ascii) : ascii :=
  let n := nat_of_ascii c in
  if ((97 <=? n) && (n <=? 122))%nat then ascii_of_nat (n - 32) else c.

Fixpoint string_upper (s : string) : string :=
  match s with
  | EmptyString => EmptyString
  | String c s' => String (ascii_upper c) (string_upper s')
  end.

Definition AsciiCase : CaseMapping := {| toUpperCase := string_upper |}.

(** [Array.prototype.sort(comparefn)].  ECMAScript fixes the result for a
    consistent comparator: the elements in ascending order of [comparefn],
    elements that compare equal in their original order.  The model is the
    stable insertion sort; [array_sort_unique] below shows that no other
    list meets that description. *)
Section ArraySort.
Context {A : Type} (comparefn : A -> A -> Z).

Fixpoint insert_stable (x : A) (l : list A) : list A :=
  match l with
  | [] => [x]
  | y :: l' =>
      if comparefn x y <=? 0 then x :: y :: l'
      else y :: insert_stable x l'
  end.

Definition array_sort (l : list A) : list A :=
  fold_right insert_stable [] l.

End ArraySort.

(** A consistent comparator in the sense of ECMAScript: [comparefn a b = 0]
    is an equivalence and [comparefn a b < 0] a strict order on its classes. *)
Class Consistent {A : Type} (comparefn : A -> A -> Z) : Prop := {
  cmp_refl : forall a, comparefn a a = 0;
  cmp_flip : forall a b, comparefn a b < 0 <-> 0 < comparefn b a;
  cmp_trans : forall a b c,
    comparefn a b <= 0 -> comparefn b c <= 0 -> comparefn a c <= 0
}.

(** ** The router *)

(** The comparator of [_sortRules]. *)
Definition compareRules (a b : RoutingRule) : Z :=
  (* 1. Priority (descending) *)
  let priorityA := nullish (RoutingRule.priority a) 0 in
  let priorityB := nullish (RoutingRule.priority b) 0 in
  if negb (priorityB =? priorityA) then priorityB - priorityA
  else
    (* 2. Specificity: exact path over path prefix *)
    let aIsExact := truthy (RoutingRule.exactPath a) in
    let bIsExact := truthy (RoutingRule.exactPath b) in
    if aIsExact && negb bIsExact then -1
    else if negb aIsExact && bIsExact then 1
    else
      (* 3. Path length (descending) *)
      let pathA :=
        str_of (js_or (js_or (RoutingRule.exactPath a) (RoutingRule.pathPrefix a)) (Some "")) in
      let pathB :=
        str_of (js_or (js_or (RoutingRule.exactPath b) (RoutingRule.pathPrefix b)) (Some "")) in
      if negb (len pathB =? len pathA) then len pathB - len pathA
      else
        (* 4. Fallback *)
        0.

(** The object: its only field is the private array [_rules]. *)
Record ApiGatewayRouter : Type := { _rules : list RoutingRule }.

(** Methods run against [this] and return a value and the updated object. *)
Definition Method (A : Type) : Type := ApiGatewayRouter -> A * ApiGatewayRouter.

Definition ret {A : Type} (a : A) : Method A := fun this => (a, this).

Definition bind {A B : Type} (m : Method A) (k : A -> Method B) : Method B :=
  fun this => let (a, this') := m this in k a this'.

Definition read_rules : Method (list RoutingRule) :=
  fun this => (_rules this, this).

Definition assign_rules (l : list RoutingRule) : Method unit :=
  fun _ => (tt, {| _rules := l |}).

Declare Scope method_scope.
Delimit Scope method_scope with method.
Notation "x <- m ;; k" := (bind m (fun x => k))
  (at level 61, m at next level, right associativity) : method_scope.
Notation "m ;; k" := (bind m (fun _ => k))
  (at level 61, right associativity) : method_scope.

Definition exec {A : Type} (m : Method A) (this : ApiGatewayRouter) : ApiGatewayRouter :=
  snd (m this).

Definition eval {A : Type} (m : Method A) (this : ApiGatewayRouter) : A :=
  fst (m this).

(** [this._rules.sort(...)]: the array is sorted in place. *)
Definition _sortRules : Method unit :=
  (l <- read_rules ;;
   assign_rules (array_sort compareRules l))%method.

(** [this._rules = [...newRules]; this._sortRules()]. *)
Definition updateRules (newRules : list RoutingRule) : Method unit :=
  (assign_rules newRules ;;
   _sortRules)%method.

(** [new ApiGatewayRouter(rules)]. *)
Definition constructor (rules : list RoutingRule) : ApiGatewayRouter :=
  exec (updateRules rules) {| _rules := [] |}.

(** The getter [rules]. *)
Definition rules : Method (list RoutingRule) := read_rules.

(** Lines 107-110: the test guarding [continue]. *)
Definition methodMismatch `{CaseMapping} (rule : RoutingRule) (request : IncomingRequest) : bool :=
  truthy (RoutingRule.method rule)
  && negb (toUpperCase (str_of (RoutingRule.method rule))
           =? toUpperCase (IncomingRequest.method request))%string.

(** Lines 126-134: the forwarded path once the prefix matched. *)
Definition stripPrefix (requestPath prefix : string) : string :=
  let strippedPath := substring_from requestPath (String.length prefix) in
  if (strippedPath =? "")%string then "/"
  else if negb (startsWith strippedPath "/") then "/" ++ strippedPath
  else strippedPath.

(** Lines 112-136: the values of [pathMatches] and [targetPathForService]
    when control reaches [if (pathMatches)]. *)
Definition pathTest (rule : RoutingRule) (request : IncomingRequest) : bool * string :=
  let path := IncomingRequest.path request in
  if truthy (RoutingRule.exactPath rule) then
    if (path =? str_of (RoutingRule.exactPath rule))%string then (true, path)
    else (false, path)
  else if truthy (RoutingRule.pathPrefix rule) then
    if startsWith path (str_of (RoutingRule.pathPrefix rule)) then
      (true, stripPrefix path (str_of (RoutingRule.pathPrefix rule)))
    else (false, path)
  else (false, path).

(** The [for ... of] loop of [routeRequest] over the remaining rules. *)
Fixpoint scan `{CaseMapping} (rules : list RoutingRule) (request : IncomingRequest)
  : option RoutingResult :=
  match rules with
  | [] => None
  | rule :: rest =>
      if methodMismatch rule request then scan rest request
      else
        let (pathMatches, targetPathForService) := pathTest rule request in
        if pathMatches then
          Some {| RoutingResult.targetService := RoutingRule.targetService rule;
                  RoutingResult.targetPath := targetPathForService |}
        else scan rest request
  end.

Definition routeRequest `{CaseMapping} (request : IncomingRequest)
  : Method (option RoutingResult) :=
  (l <- read_rules ;;
   ret (scan l request))%method.

(** ** The ordering criteria, in the words of the specification *)

(** Criterion 1: the priority, a missing one read as 0. *)
Definition priorityOf (r : RoutingRule) : Z :=
  match RoutingRule.priority r with
  | Some p => p
  | None => 0
  end.

(** Criterion 2, the specificity class: the rule carries a non-empty
    [exactPath]. *)
Definition exactClass (r : RoutingRule) : bool :=
  match RoutingRule.exactPath r with
  | Some (String _ _) => true
  | _ => false
  end.

(** Criterion 3 compares the length of this string: the [exactPath] of a
    rule of the exact class, otherwise the [pathPrefix] when there is one,
    otherwise the empty string. *)
Definition rankPath (r : RoutingRule) : string :=
  match RoutingRule.exactPath r, RoutingRule.pathPrefix r with
  | Some (String c e), _ => String c e
  | _, Some p => p
  | _, None => ""
  end.

(** Two rules that no criterion tells apart. *)
Definition tied (a b : RoutingRule) : bool :=
  (priorityOf a =? priorityOf b)
  && Bool.eqb (exactClass a) (exactClass b)
  && (String.length (rankPath a) =? String.length (rankPath b))%nat.

(** [a] is not ranked below [b] by criteria 1 to 3. *)
Definition ranksBefore (a b : RoutingRule) : Prop :=
  priorityOf b <= priorityOf a
  /\ (priorityOf a = priorityOf b -> exactClass b = true -> exactClass a = true)
  /\ (priorityOf a = priorityOf b -> exactClass a = exactClass b ->
      (String.length (rankPath b) <= String.length (rankPath a))%nat).

(** The comparator as a function of the three criteria. *)
Definition verdict (pa : Z) (ea : bool) (la : Z) (pb : Z) (eb : bool) (lb : Z) : Z :=
  if pb =? pa then
    if ea && negb eb then -1
    else if negb ea && eb then 1
    else lb - la
  else pb - pa.

(** ** Matching, in the words of the specification *)

(** The rule passes both the method filter and the path test. *)
Definition passes `{CaseMapping} (rule : RoutingRule) (request : IncomingRequest) : bool :=
  negb (methodMismatch rule request) && fst (pathTest rule request).

(** The target service of the rule and the forwarded path it computes. *)
Definition resultOf (rule : RoutingRule) (request : IncomingRequest) : RoutingResult :=
  {| RoutingResult.targetService := RoutingRule.targetService rule;
     RoutingResult.targetPath := snd (pathTest rule request) |}.

(** The forwarded path for the remainder left once the prefix is removed:
    ["/"] for the empty remainder, the remainder itself when it starts
    with ["/"], and ["/"] followed by the remainder otherwise. *)
Definition slashed (remainder : string) : string :=
  match remainder with
  | EmptyString => "/"
  | String "/" _ => remainder
  | String _ _ => "/" ++ remainder
  end.

(** The rule with its [pathPrefix] field replaced. *)
Definition with_pathPrefix (rule : RoutingRule) (p : option string) : RoutingRule :=
  {| RoutingRule.id := RoutingRule.id rule;
     RoutingRule.pathPrefix := p;
     RoutingRule.exactPath := RoutingRule.exactPath rule;
     RoutingRule.method := RoutingRule.method rule;
     RoutingRule.targetService := RoutingRule.targetService rule;
     RoutingRule.priority := RoutingRule.priority rule |}.

(** What sorting and scanning observe of a rule is the same for both. *)
Definition sameRouting `{CaseMapping} (r r' : RoutingRule) : Prop :=
  priorityOf r = priorityOf r'
  /\ exactClass r = exactClass r'
  /\ rankPath r = rankPath r'
  /\ RoutingRule.targetService r = RoutingRule.targetService r'
  /\ forall request,
       methodMismatch r request = methodMismatch r' request
       /\ pathTest r request = pathTest r' request.

(** [r'] is [r], or [r] with another [pathPrefix] beside its non-empty
    [exactPath]. *)
Definition prefixChanged (r r' : RoutingRule) : Prop :=
  r' = r \/ (exactClass r = true /\ exists p, r' = with_pathPrefix r p).

(** A caller routing one request after the other on the same router. *)
Fixpoint routeAll `{CaseMapping} (requests : list IncomingRequest)
  : Method (list (option RoutingResult)) :=
  match requests with
  | [] => ret []
  | request :: more =>
      (result <- routeRequest request ;;
       results <- routeAll more ;;
       ret (result :: results))%method
  end.

(** An optional string field and the same field with an empty string
    replaced by an absent value (or left as it is). *)
Inductive blankDropped : option string -> option string -> Prop :=
| blank_kept (v : option string) : blankDropped v v
| blank_dropped : blankDropped (Some "") None.

(** [r'] is [r] with some of its empty [method], [exactPath] and
    [pathPrefix] fields made absent. *)
Record blanksDropped (r r' : RoutingRule) : Prop := {
  same_id : RoutingRule.id r = RoutingRule.id r';
  same_targetService : RoutingRule.targetService r = RoutingRule.targetService r';
  same_priority : RoutingRule.priority r = RoutingRule.priority r';
  drop_pathPrefix : blankDropped (RoutingRule.pathPrefix r) (RoutingRule.pathPrefix r');
  drop_exactPath : blankDropped (RoutingRule.exactPath r) (RoutingRule.exactPath r');
  drop_method : blankDropped (RoutingRule.method r) (RoutingRule.method r')
}.

(** ** The repository's test-suite, replayed on the model *)

Module Tests.

Definition rule (id : string) (pathPrefix exactPath method : option string)
  (targetService : string) (priority : Z) : RoutingRule :=
  RoutingRule.mk id pathPrefix exactPath method targetService (Some priority).

Definition mockRules : list RoutingRule :=
  [ rule "rule-users-prefix" (Some "/users") None None "userService" 10;
    rule "rule-health-exact" None (Some "/health") (Some "GET") "healthService" 20;
    rule "rule-products-prefix" (Some "/products") None None "productService" 5;
    rule "rule-admin-post" None (Some "/admin") (Some "POST") "adminService" 15;
    rule "rule-admin-get-prefix" (Some "/admin") None (Some "GET") "adminDashboardService" 10;
    rule "rule-root-default" (Some "/") None None "defaultService" 0 ].

Definition route (rs : list RoutingRule) (path method : string) : option (string * string) :=
  match eval (routeRequest (H := AsciiCase) (IncomingRequest.mk path method)) (constructor rs) with
  | None => None
  | Some r => Some (RoutingResult.targetService r, RoutingResult.targetPath r)
  end.

Definition rootRules : list RoutingRule :=
  [ rule "root-exact" None (Some "/") (Some "GET") "exactRootService" 20;
    rule "root-prefix" (Some "/") None None "prefixRootService" 10 ].

Definition newRules : list RoutingRule :=
  [ rule "new-rule-test" (Some "/test") None None "testServiceUpdated" 100;
    rule "new-rule-default" (Some "/") None None "newDefaultService" 0 ].

End Tests.

(** ** Rules with empty-string fields, and a path without a leading slash *)

Module Edge.

(** [{ id: 'blank-exact', exactPath: '', targetService: 'a' }] *)
Definition blankExact : RoutingRule :=
  RoutingRule.mk "blank-exact" None (Some "") None "a" None.

(** [{ id: 'abc-prefix', pathPrefix: '/abc', targetService: 'b' }] *)
Definition abcPrefix : RoutingRule :=
  RoutingRule.mk "abc-prefix" (Some "/abc") None None "b" None.

(** [{ id: 'both', pathPrefix: '/users', exactPath: '', targetService: 'u' }] *)
Definition blankExactWithPrefix : RoutingRule :=
  RoutingRule.mk "both" (Some "/users") (Some "") None "u" None.

(** [{ id: 'blank-method', pathPrefix: '/', method: '', targetService: 'm' }] *)
Definition blankMethod : RoutingRule :=
  RoutingRule.mk "blank-method" (Some "/") None (Some "") "m" None.

(** [{ id: 'root-prefix', pathPrefix: '/', targetService: 'root' }] *)
Definition rootPrefix : RoutingRule :=
  RoutingRule.mk "root-prefix" (Some "/") None None "root" None.

(** [{ id: 'admin', pathPrefix: '/admin', exactPath: '/admin/config', targetService: 'adm' }] *)
Definition exactWithPrefix : RoutingRule :=
  RoutingRule.mk "admin" (Some "/admin") (Some "/admin/config") None "adm" None.

End Edge.

(** ** Callers of the router and rules that cannot match *)

(** A rule with neither a non-empty [exactPath] nor a non-empty
    [pathPrefix]: both branches of the path test are skipped. *)
Definition dead (rule : RoutingRule) : bool :=
  negb (truthy (RoutingRule.exactPath rule))
  && negb (truthy (RoutingRule.pathPrefix rule)).

(** [handleRouteRequest] of the simulator component, as far as the router
    is concerned: the request is built from the two text inputs, the method
    upper-cased, and routed on the router the component holds. *)
Definition handleRouteRequest `{CaseMapping} (requestPath requestMethod : string)
  : Method (option RoutingResult) :=
  let request :=
    {| IncomingRequest.path := requestPath;
       IncomingRequest.method := toUpperCase requestMethod |} in
  routeRequest request.

(** ** JavaScript values used by the services *)

(** A finite JavaScript number given exactly, as a rational number; [NaN]
    and the infinities are left out.  The requests and rows of the property
    service and the amount of a payment are of this type. *)
Definition number : Type := Q.

(** [a < b] and [a <= b] on numbers. *)
Definition num_lt (a b : number) : bool := negb (Qle_bool b a).
Definition num_le (a b : number) : bool := Qle_bool a b.

(** Truthiness of a [number | undefined]: [undefined] and [0] are falsy. *)
Definition num_truthy (v : option number) : bool :=
  match v with
  | None => false
  | Some n => negb (Qeq_bool n 0%Q)
  end.

(** [v || d] on a [number | undefined]. *)
Definition num_or (v : option number) (d : number) : number :=
  match v with
  | None => d
  | Some n => if Qeq_bool n 0%Q then d else n
  end.

(** A JavaScript number as the engine holds it: an IEEE 754 double, with
    [NaN], the infinities, the two zeros and the rounding of its
    arithmetic.  The search filters, on which [searchProperties] computes
    the end of a range, and the numbers of a booking request, which
    [validateBookingData] compares with 0, are doubles. *)
Definition double : Type := PrimFloat.float.

(** [a <= b] and [a < b] on doubles; false when either side is [NaN]. *)
Definition dbl_le (a b : double) : bool := PrimFloat.leb a b.
Definition dbl_lt (a b : double) : bool := PrimFloat.ltb a b.

(** [Number.isNaN(d)]. *)
Definition isNaN (d : double) : bool := PrimFloat.is_nan d.

(** [d === 0]: true of both zeros. *)
Definition isZero (d : double) : bool := PrimFloat.eqb d 0%float.

(** Truthiness of a [number | undefined] held as a double: [undefined],
    the zeros and [NaN] are falsy. *)
Definition dbl_truthy (v : option double) : bool :=
  match v with
  | None => false
  | Some d => negb (isZero d || isNaN d)
  end.

(** [v || d] on a [number | undefined] held as a double. *)
Definition dbl_or (v : option double) (d : double) : double :=
  match v with
  | None => d
  | Some n => if isZero n || isNaN n then d else n
  end.

(** Truthiness of a [string]. *)
Definition nonEmpty (s : string) : bool := negb (s =? "")%string.

(** [array.includes(s)] on an array of strings. *)
Definition includes (array : list string) (s : string) : bool :=
  existsb (String.eqb s) array.

(** The code units below 256 that [trim] strips: tab, line feed, vertical
    tab, form feed, carriage return, space and no-break space. *)
Definition isWhiteSpace (c : ascii) : bool :=
  let n := nat_of_ascii c in
  (((9 <=? n) && (n <=? 13)) || (n =? 32) || (n =? 160))%nat.

Fixpoint trimStart (s : string) : string :=
  match s with
  | EmptyString => EmptyString
  | String c s' => if isWhiteSpace c then trimStart s' else s
  end.

Fixpoint trimEnd (s : string) : string :=
  match s with
  | EmptyString => EmptyString
  | String c s' =>
      match trimEnd s' with
      | EmptyString => if isWhiteSpace c then EmptyString else String c EmptyString
      | t => String c t
      end
  end.

(** [s.trim()]. *)
Definition trim (s : string) : string := trimEnd (trimStart s).

(** The string has a code unit that [trim] does not strip. *)
Definition hasText (s : string) : Prop :=
  exists c, In c (list_ascii_of_string s) /\ isWhiteSpace c = false.

(** What a [catch] clause receives: an [Error] with its message, or any
    other value. *)
Inductive Thrown : Type :=
| ThrownError (message : string)
| ThrownOther.

(** The engine's message for the [TypeError] raised on reading a property
    of [null]. *)
Class JsEngine : Type := { nullReadMessage : string }.

(** ** The database client *)

(** A call chain on the Supabase client, [from(table)] followed by the
    builder methods in the order they are called. *)
Module Supabase.

(** A value handed to the client: a number is carried as the request
    holds it, exactly ([VNumber]) or as a double ([VDouble]). *)
Inductive Value : Type :=
| VUndefined
| VString (s : string)
| VNumber (n : number)
| VDouble (d : double)
| VBoolean (b : bool)
| VStrings (l : list string).

Inductive Step : Type :=
| Select (columns : option string)
| Insert (row : list (string * Value))
| Update (object : list (string * Value))
| Delete
| Eq (column : string) (value : Value)
| Gte (column : string) (value : Value)
| Lte (column : string) (value : Value)
| In_ (column : string) (values : list string)
| Limit (count : double)
| Range (first last : double)
| Order (column : string) (ascending : bool)
| Single.

Record Query : Type := { from : string; steps : list Step }.

(** What an awaited chain gives: a rejection, or [{ data, error }] with
    [error] either [null] or an object carrying a message. *)
Inductive Outcome (D : Type) : Type :=
| Rejected (thrown : Thrown)
| Resolved (data : D) (error : option string).
Arguments Rejected {D} thrown.
Arguments Resolved {D} data error.

(** An [async] method: it returns, or awaits a chain and goes on with what
    the chain gave.  [AwaitSingle] is a chain ending in [single()], whose
    data is a row or [null]; [AwaitRows] a chain whose data is an array of
    rows or [null]; [AwaitVoid] a chain of which only [error] is read. *)
Inductive Service (Row A : Type) : Type :=
| Return (a : A)
| AwaitSingle (q : Query) (k : Outcome (option Row) -> Service Row A)
| AwaitRows (q : Query) (k : Outcome (option (list Row)) -> Service Row A)
| AwaitVoid (q : Query) (k : Outcome unit -> Service Row A).
Arguments Return {Row A} a.
Arguments AwaitSingle {Row A} q k.
Arguments AwaitRows {Row A} q k.
Arguments AwaitVoid {Row A} q k.

(** The first chain the method awaits, if it awaits any. *)
Definition queryOf {Row A : Type} (p : Service Row A) : option Query :=
  match p with
  | Return _ => None
  | AwaitSingle q _ | AwaitRows q _ | AwaitVoid q _ => Some q
  end.

(** A database: what it gives for each awaited chain. *)
Record Database (Row : Type) : Type := {
  onSingle : Query -> Outcome (option Row);
  onRows : Query -> Outcome (option (list Row));
  onVoid : Query -> Outcome unit
}.
Arguments onSingle {Row} d q.
Arguments onRows {Row} d q.
Arguments onVoid {Row} d q.

(** The value the promise of the method resolves to against a database. *)
Fixpoint run {Row A : Type} (db : Database Row) (p : Service Row A) : A :=
  match p with
  | Return a => a
  | AwaitSingle q k => run db (k (onSingle db q))
  | AwaitRows q k => run db (k (onRows db q))
  | AwaitVoid q k => run db (k (onVoid db q))
  end.

(** The value stored under a key of an object literal. *)
Fixpoint get (key : string) (object : list (string * Value)) : option Value :=
  match object with
  | [] => None
  | (k, v) :: rest => if (k =? key)%string then Some v else get key rest
  end.

End Supabase.

(** ** The property service *)

Module PropertyService.
Import Supabase.

Module Property.
Record t : Type := mk {
  id : string;
  ownerId : string;
  title : string;
  description : option string;
  address : string;
  city : string;
  state : string;
  zipCode : string;
  country : string;
  latitude : option number;
  longitude : option number;
  propertyType : string;
  bedrooms : number;
  bathrooms : number;
  squareFeet : option number;
  lotSize : option number;
  yearBuilt : option number;
  pricePerNight : number;
  securityDeposit : option number;
  cleaningFee : option number;
  maxGuests : number;
  amenities : list string;
  houseRules : option string;
  status : string;
  isFeatured : bool;
  createdAt : string;
  updatedAt : string
}.
End Property.

Module CreatePropertyRequest.
Record t : Type := mk {
  ownerId : string;
  title : string;
  description : option string;
  address : string;
  city : string;
  state : string;
  zipCode : string;
  country : option string;
  latitude : option number;
  longitude : option number;
  propertyType : string;
  bedrooms : number;
  bathrooms : number;
  squareFeet : option number;
  lotSize : option number;
  yearBuilt : option number;
  pricePerNight : number;
  securityDeposit : option number;
  cleaningFee : option number;
  maxGuests : number;
  amenities : option (list string);
  houseRules : option string
}.
End CreatePropertyRequest.

Module UpdatePropertyRequest.
Record t : Type := mk {
  title : option string;
  description : option string;
  address : option string;
  city : option string;
  state : option string;
  zipCode : option string;
  country : option string;
  latitude : option number;
  longitude : option number;
  propertyType : option string;
  bedrooms : option number;
  bathrooms : option number;
  squareFeet : option number;
  lotSize : option number;
  yearBuilt : option number;
  pricePerNight : option number;
  securityDeposit : option number;
  cleaningFee : option number;
  maxGuests : option number;
  amenities : option (list string);
  houseRules : option string;
  status : option string;
  isFeatured : option bool
}.
End UpdatePropertyRequest.

Module PropertySearchFilters.
Record t : Type := mk {
  city : option string;
  state : option string;
  country : option string;
  minPrice : option double;
  maxPrice : option double;
  bedrooms : option double;
  bathrooms : option double;
  propertyType : option string;
  amenities : option (list string);
  minSquareFeet : option double;
  maxSquareFeet : option double;
  isFeatured : option bool;
  status : option string;
  limit : option double;
  offset : option double
}.
End PropertySearchFilters.

(** A row of the [properties] table as the client hands it over.  The
    source types it [any]; the columns are typed here as the [Property]
    interface types the fields they are copied to, with [amenities]
    possibly [null]. *)
Module DbProperty.
Record t : Type := mk {
  id : string;
  owner_id : string;
  title : string;
  description : option string;
  address : string;
  city : string;
  state : string;
  zip_code : string;
  country : string;
  latitude : option number;
  longitude : option number;
  property_type : string;
  bedrooms : number;
  bathrooms : number;
  square_feet : option number;
  lot_size : option number;
  year_built : option number;
  price_per_night : number;
  security_deposit : option number;
  cleaning_fee : option number;
  max_guests : number;
  amenities : option (list string);
  house_rules : option string;
  status : string;
  is_featured : bool;
  created_at : string;
  updated_at : string
}.
End DbProperty.

(** [ServiceResponse]; its [data] field is never set by this service. *)
Module ServiceResponse.
Record t : Type := mk {
  success : bool;
  property : option Property.t;
  properties : option (list Property.t);
  error : option string
}.
End ServiceResponse.

(** [{ isValid: boolean; error?: string }] *)
Record Validation : Type := { isValid : bool; error : option string }.

Definition invalid (message : string) : Validation :=
  {| isValid := false; error := Some message |}.

Definition valid : Validation := {| isValid := true; error := None |}.

(** [{ success: false, error }] *)
Definition failure (error : option string) : ServiceResponse.t :=
  ServiceResponse.mk false None None error.

(** The [catch] clause of every method. *)
Definition caught (thrown : Thrown) : ServiceResponse.t :=
  failure (Some match thrown with
                | ThrownError message => message
                | ThrownOther => "An unexpected error occurred"
                end).

(** A response is a success without an error, or a failure with a message
    and nothing else. *)
Definition consistent (response : ServiceResponse.t) : Prop :=
  (ServiceResponse.success response = true -> ServiceResponse.error response = None)
  /\ (ServiceResponse.success response = false ->
      (exists message, ServiceResponse.error response = Some message)
      /\ ServiceResponse.property response = None
      /\ ServiceResponse.properties response = None).

Definition propertyTypes : list string :=
  ["house"; "apartment"; "condo"; "townhouse"; "villa"; "other"].

Definition statuses : list string :=
  ["active"; "inactive"; "draft"; "archived"].

Definition validatePropertyData (propertyData : CreatePropertyRequest.t) : Validation :=
  let blank (s : string) := negb (nonEmpty s) || (String.length (trim s) =? 0)%nat in
  if negb (nonEmpty (CreatePropertyRequest.ownerId propertyData)) then
    invalid "Owner ID is required"
  else if blank (CreatePropertyRequest.title propertyData) then
    invalid "Title is required"
  else if blank (CreatePropertyRequest.address propertyData) then
    invalid "Address is required"
  else if blank (CreatePropertyRequest.city propertyData) then
    invalid "City is required"
  else if blank (CreatePropertyRequest.state propertyData) then
    invalid "State is required"
  else if blank (CreatePropertyRequest.zipCode propertyData) then
    invalid "ZIP code is required"
  else if negb (includes propertyTypes (CreatePropertyRequest.propertyType propertyData)) then
    invalid "Invalid property type"
  else if num_lt (CreatePropertyRequest.bedrooms propertyData) 0%Q then
    invalid "Bedrooms must be non-negative"
  else if num_lt (CreatePropertyRequest.bathrooms propertyData) 0%Q then
    invalid "Bathrooms must be non-negative"
  else if num_le (CreatePropertyRequest.pricePerNight propertyData) 0%Q then
    invalid "Price per night must be positive"
  else if num_le (CreatePropertyRequest.maxGuests propertyData) 0%Q then
    invalid "Max guests must be positive"
  else valid.

Definition mapDatabasePropertyToProperty (dbProperty : DbProperty.t) : Property.t :=
  {| Property.id := DbProperty.id dbProperty;
     Property.ownerId := DbProperty.owner_id dbProperty;
     Property.title := DbProperty.title dbProperty;
     Property.description := DbProperty.description dbProperty;
     Property.address := DbProperty.address dbProperty;
     Property.city := DbProperty.city dbProperty;
     Property.state := DbProperty.state dbProperty;
     Property.zipCode := DbProperty.zip_code dbProperty;
     Property.country := DbProperty.country dbProperty;
     Property.latitude := DbProperty.latitude dbProperty;
     Property.longitude := DbProperty.longitude dbProperty;
     Property.propertyType := DbProperty.property_type dbProperty;
     Property.bedrooms := DbProperty.bedrooms dbProperty;
     Property.bathrooms := DbProperty.bathrooms dbProperty;
     Property.squareFeet := DbProperty.square_feet dbProperty;
     Property.lotSize := DbProperty.lot_size dbProperty;
     Property.yearBuilt := DbProperty.year_built dbProperty;
     Property.pricePerNight := DbProperty.price_per_night dbProperty;
     Property.securityDeposit := DbProperty.security_deposit dbProperty;
     Property.cleaningFee := DbProperty.cleaning_fee dbProperty;
     Property.maxGuests := DbProperty.max_guests dbProperty;
     Property.amenities :=
       match DbProperty.amenities dbProperty with
       | Some l => l
       | None => []
       end;
     Property.houseRules := DbProperty.house_rules dbProperty;
     Property.status := DbProperty.status dbProperty;
     Property.isFeatured := DbProperty.is_featured dbProperty;
     Property.createdAt := DbProperty.created_at dbProperty;
     Property.updatedAt := DbProperty.updated_at dbProperty |}.

(** The value of an optional field in an object literal. *)
Definition optional {T : Type} (inj : T -> Value) (v : option T) : Value :=
  match v with
  | Some x => inj x
  | None => VUndefined
  end.

(** The object literal passed to [insert] by [createProperty]. *)
Definition insertRow (propertyData : CreatePropertyRequest.t) : list (string * Value) :=
  [ ("owner_id", VString (CreatePropertyRequest.ownerId propertyData));
    ("title", VString (CreatePropertyRequest.title propertyData));
    ("description", optional VString (CreatePropertyRequest.description propertyData));
    ("address", VString (CreatePropertyRequest.address propertyData));
    ("city", VString (CreatePropertyRequest.city propertyData));
    ("state", VString (CreatePropertyRequest.state propertyData));
    ("zip_code", VString (CreatePropertyRequest.zipCode propertyData));
    ("country", VString (str_of (js_or (CreatePropertyRequest.country propertyData) (Some "US"))));
    ("latitude", optional VNumber (CreatePropertyRequest.latitude propertyData));
    ("longitude", optional VNumber (CreatePropertyRequest.longitude propertyData));
    ("property_type", VString (CreatePropertyRequest.propertyType propertyData));
    ("bedrooms", VNumber (CreatePropertyRequest.bedrooms propertyData));
    ("bathrooms", VNumber (CreatePropertyRequest.bathrooms propertyData));
    ("square_feet", optional VNumber (CreatePropertyRequest.squareFeet propertyData));
    ("lot_size", optional VNumber (CreatePropertyRequest.lotSize propertyData));
    ("year_built", optional VNumber (CreatePropertyRequest.yearBuilt propertyData));
    ("price_per_night", VNumber (CreatePropertyRequest.pricePerNight propertyData));
    ("security_deposit", VNumber (num_or (CreatePropertyRequest.securityDeposit propertyData) 0%Q));
    ("cleaning_fee", VNumber (num_or (CreatePropertyRequest.cleaningFee propertyData) 0%Q));
    ("max_guests", VNumber (CreatePropertyRequest.maxGuests propertyData));
    ("amenities",
      VStrings match CreatePropertyRequest.amenities propertyData with
               | Some l => l
               | None => []
               end);
    ("house_rules", optional VString (CreatePropertyRequest.houseRules propertyData));
    ("status", VString "draft") ].

(** What follows an awaited [single()] chain in [createProperty] and
    [updateProperty]: the row is mapped without a test for [null]. *)
Definition mapped `{JsEngine} (outcome : Outcome (option DbProperty.t))
  : ServiceResponse.t :=
  match outcome with
  | Rejected thrown => caught thrown
  | Resolved data error =>
      match error with
      | Some message => failure (Some message)
      | None =>
          match data with
          | Some row =>
              ServiceResponse.mk true (Some (mapDatabasePropertyToProperty row)) None None
          | None => caught (ThrownError nullReadMessage)
          end
      end
  end.

Definition createProperty `{JsEngine} (propertyData : CreatePropertyRequest.t)
  : Service DbProperty.t ServiceResponse.t :=
  let validation := validatePropertyData propertyData in
  if negb (isValid validation) then Return (failure (error validation))
  else
    AwaitSingle
      {| from := "properties";
         steps := [Insert (insertRow propertyData); Select None; Single] |}
      (fun outcome => Return (mapped outcome)).

Definition getProperty (propertyId : string) : Service DbProperty.t ServiceResponse.t :=
  if negb (nonEmpty propertyId) then Return (failure (Some "Property ID is required"))
  else
    AwaitSingle
      {| from := "properties";
         steps := [Select (Some "*"); Eq "id" (VString propertyId); Single] |}
      (fun outcome =>
         Return
           match outcome with
           | Rejected thrown => caught thrown
           | Resolved data error =>
               match error with
               | Some message => failure (Some message)
               | None =>
                   match data with
                   | None => failure (Some "Property not found")
                   | Some row =>
                       ServiceResponse.mk true
                         (Some (mapDatabasePropertyToProperty row)) None None
                   end
               end
           end).

(** One [if (updateData.f !== undefined) updateObject.c = updateData.f]. *)
Definition assign {T : Type} (column : string) (inj : T -> Value) (v : option T)
  : list (string * Value) :=
  match v with
  | Some x => [(column, inj x)]
  | None => []
  end.

(** The [updateObject] of [updateProperty]. *)
Definition updateObject (updateData : UpdatePropertyRequest.t) : list (string * Value) :=
  (assign "title" VString (UpdatePropertyRequest.title updateData)
   ++ assign "description" VString (UpdatePropertyRequest.description updateData)
   ++ assign "address" VString (UpdatePropertyRequest.address updateData)
   ++ assign "city" VString (UpdatePropertyRequest.city updateData)
   ++ assign "state" VString (UpdatePropertyRequest.state updateData)
   ++ assign "zip_code" VString (UpdatePropertyRequest.zipCode updateData)
   ++ assign "country" VString (UpdatePropertyRequest.country updateData)
   ++ assign "latitude" VNumber (UpdatePropertyRequest.latitude updateData)
   ++ assign "longitude" VNumber (UpdatePropertyRequest.longitude updateData)
   ++ assign "property_type" VString (UpdatePropertyRequest.propertyType updateData)
   ++ assign "bedrooms" VNumber (UpdatePropertyRequest.bedrooms updateData)
   ++ assign "bathrooms" VNumber (UpdatePropertyRequest.bathrooms updateData)
   ++ assign "square_feet" VNumber (UpdatePropertyRequest.squareFeet updateData)
   ++ assign "lot_size" VNumber (UpdatePropertyRequest.lotSize updateData)
   ++ assign "year_built" VNumber (UpdatePropertyRequest.yearBuilt updateData)
   ++ assign "price_per_night" VNumber (UpdatePropertyRequest.pricePerNight updateData)
   ++ assign "security_deposit" VNumber (UpdatePropertyRequest.securityDeposit updateData)
   ++ assign "cleaning_fee" VNumber (UpdatePropertyRequest.cleaningFee updateData)
   ++ assign "max_guests" VNumber (UpdatePropertyRequest.maxGuests updateData)
   ++ assign "amenities" VStrings (UpdatePropertyRequest.amenities updateData)
   ++ assign "house_rules" VString (UpdatePropertyRequest.houseRules updateData)
   ++ assign "status" VString (UpdatePropertyRequest.status updateData)
   ++ assign "is_featured" VBoolean (UpdatePropertyRequest.isFeatured updateData))%list.

(** [v !== undefined && test v] *)
Definition defined_and (v : option number) (test : number -> bool) : bool :=
  match v with
  | Some n => test n
  | None => false
  end.

Definition updateProperty `{JsEngine}
  (propertyId : string) (updateData : UpdatePropertyRequest.t)
  : Service DbProperty.t ServiceResponse.t :=
  if negb (nonEmpty propertyId) then Return (failure (Some "Property ID is required"))
  else if defined_and (UpdatePropertyRequest.pricePerNight updateData) (fun n => num_le n 0%Q) then
    Return (failure (Some "Price per night must be positive"))
  else if defined_and (UpdatePropertyRequest.bedrooms updateData) (fun n => num_lt n 0%Q) then
    Return (failure (Some "Bedrooms must be non-negative"))
  else if defined_and (UpdatePropertyRequest.bathrooms updateData) (fun n => num_lt n 0%Q) then
    Return (failure (Some "Bathrooms must be non-negative"))
  else if defined_and (UpdatePropertyRequest.maxGuests updateData) (fun n => num_le n 0%Q) then
    Return (failure (Some "Max guests must be positive"))
  else
    AwaitSingle
      {| from := "properties";
         steps := [Update (updateObject updateData); Eq "id" (VString propertyId);
                   Select None; Single] |}
      (fun outcome => Return (mapped outcome)).

(** What follows an awaited chain of which only [error] is read. *)
Definition acknowledged (outcome : Outcome unit) : ServiceResponse.t :=
  match outcome with
  | Rejected thrown => caught thrown
  | Resolved _ error =>
      match error with
      | Some message => failure (Some message)
      | None => ServiceResponse.mk true None None None
      end
  end.

Definition deleteProperty (propertyId : string) : Service DbProperty.t ServiceResponse.t :=
  if negb (nonEmpty propertyId) then Return (failure (Some "Property ID is required"))
  else
    AwaitVoid
      {| from := "properties"; steps := [Delete; Eq "id" (VString propertyId)] |}
      (fun outcome => Return (acknowledged outcome)).

(** [if (v) query = query.step(v)] for a string [v]: skipped when [v] is
    [undefined] or empty. *)
Definition whenString (v : option string) (step : string -> Step) : list Step :=
  match v with
  | Some s => if nonEmpty s then [step s] else []
  | None => []
  end.

(** [if (v !== undefined) query = query.step(v)]. *)
Definition whenDefined {T : Type} (v : option T) (step : T -> Step) : list Step :=
  match v with
  | Some x => [step x]
  | None => []
  end.

(** [if (v) query = query.step(v)] for a number [v]: skipped when [v] is
    [undefined], a zero or [NaN]. *)
Definition whenNumber (v : option double) (step : double -> Step) : list Step :=
  match v with
  | Some n => if dbl_truthy (Some n) then [step n] else []
  | None => []
  end.

(** The chain built by [searchProperties]. *)
Definition searchQuery (filters : PropertySearchFilters.t) : Query :=
  {| from := "properties";
     steps :=
       ([Select (Some "*")]
        ++ whenString (PropertySearchFilters.city filters)
             (fun city => Eq "city" (VString city))
        ++ whenString (PropertySearchFilters.state filters)
             (fun state => Eq "state" (VString state))
        ++ whenString (PropertySearchFilters.country filters)
             (fun country => Eq "country" (VString country))
        ++ whenDefined (PropertySearchFilters.minPrice filters)
             (fun minPrice => Gte "price_per_night" (VDouble minPrice))
        ++ whenDefined (PropertySearchFilters.maxPrice filters)
             (fun maxPrice => Lte "price_per_night" (VDouble maxPrice))
        ++ whenDefined (PropertySearchFilters.bedrooms filters)
             (fun bedrooms => Gte "bedrooms" (VDouble bedrooms))
        ++ whenDefined (PropertySearchFilters.bathrooms filters)
             (fun bathrooms => Gte "bathrooms" (VDouble bathrooms))
        ++ whenString (PropertySearchFilters.propertyType filters)
             (fun propertyType => Eq "property_type" (VString propertyType))
        ++ whenDefined (PropertySearchFilters.minSquareFeet filters)
             (fun minSquareFeet => Gte "square_feet" (VDouble minSquareFeet))
        ++ whenDefined (PropertySearchFilters.maxSquareFeet filters)
             (fun maxSquareFeet => Lte "square_feet" (VDouble maxSquareFeet))
        ++ whenDefined (PropertySearchFilters.isFeatured filters)
             (fun isFeatured => Eq "is_featured" (VBoolean isFeatured))
        ++ (if truthy (PropertySearchFilters.status filters)
            then [Eq "status" (VString (str_of (PropertySearchFilters.status filters)))]
            else [Eq "status" (VString "active")])
        ++ whenNumber (PropertySearchFilters.limit filters) Limit
        ++ whenNumber (PropertySearchFilters.offset filters)
             (fun offset =>
                Range offset
                  (offset + dbl_or (PropertySearchFilters.limit filters) 10 - 1)%float)
        ++ [Order "created_at" false])%list |}.

(** What follows an awaited chain whose data is an array of rows:
    [data?.map(...) || []]. *)
Definition listed (outcome : Outcome (option (list DbProperty.t))) : ServiceResponse.t :=
  match outcome with
  | Rejected thrown => caught thrown
  | Resolved data error =>
      match error with
      | Some message => failure (Some message)
      | None =>
          ServiceResponse.mk true None
            (Some match data with
                  | Some rows => map mapDatabasePropertyToProperty rows
                  | None => []
                  end)
            None
      end
  end.

Definition searchProperties (filters : PropertySearchFilters.t)
  : Service DbProperty.t ServiceResponse.t :=
  AwaitRows (searchQuery filters) (fun outcome => Return (listed outcome)).

Definition getPropertiesByOwner (ownerId : string)
  : Service DbProperty.t ServiceResponse.t :=
  if negb (nonEmpty ownerId) then Return (failure (Some "Owner ID is required"))
  else
    AwaitRows
      {| from := "properties";
         steps := [Select (Some "*"); Eq "owner_id" (VString ownerId);
                   Order "created_at" false] |}
      (fun outcome => Return (listed outcome)).

Definition updatePropertyStatus (propertyId status : string)
  : Service DbProperty.t ServiceResponse.t :=
  if negb (nonEmpty propertyId) then Return (failure (Some "Property ID is required"))
  else if negb (includes statuses status) then Return (failure (Some "Invalid status"))
  else
    AwaitVoid
      {| from := "properties";
         steps := [Update [("status", VString status)]; Eq "id" (VString propertyId)] |}
      (fun outcome => Return (acknowledged outcome)).





(** A filter on the [status] column. *)
Definition isStatusFilter (step : Step) : bool :=
  match step with
  | Eq column _ => (column =? "status")%string
  | _ => false
  end.

(** The pagination steps. *)
Definition isLimit (step : Step) : bool :=
  match step with
  | Limit _ => true
  | _ => false
  end.

Definition isRange (step : Step) : bool :=
  match step with
  | Range _ _ => true
  | _ => false
  end.

End PropertyService.

(** ** Requests of the property service's test-suite *)

Module PropertyTests.
Import Supabase PropertyService.

Definition beachHouse : CreatePropertyRequest.t :=
  {| CreatePropertyRequest.ownerId := "owner-123";
     CreatePropertyRequest.title := "Beautiful Beach House";
     CreatePropertyRequest.description :=
       Some "A stunning beachfront property with ocean views";
     CreatePropertyRequest.address := "123 Ocean Drive";
     CreatePropertyRequest.city := "Miami";
     CreatePropertyRequest.state := "FL";
     CreatePropertyRequest.zipCode := "33101";
     CreatePropertyRequest.country := None;
     CreatePropertyRequest.latitude := Some 25.7617%Q;
     CreatePropertyRequest.longitude := Some (-80.1918)%Q;
     CreatePropertyRequest.propertyType := "house";
     CreatePropertyRequest.bedrooms := 3%Q;
     CreatePropertyRequest.bathrooms := 2.5%Q;
     CreatePropertyRequest.squareFeet := Some 2000%Q;
     CreatePropertyRequest.lotSize := None;
     CreatePropertyRequest.yearBuilt := None;
     CreatePropertyRequest.pricePerNight := 250%Q;
     CreatePropertyRequest.securityDeposit := None;
     CreatePropertyRequest.cleaningFee := None;
     CreatePropertyRequest.maxGuests := 6%Q;
     CreatePropertyRequest.amenities := Some ["wifi"; "pool"; "parking"];
     CreatePropertyRequest.houseRules := Some "No smoking, no pets" |}.

(** The same request with another owner id, property type and price. *)
Definition beachHouseWith (ownerId propertyType : string) (pricePerNight : number)
  : CreatePropertyRequest.t :=
  {| CreatePropertyRequest.ownerId := ownerId;
     CreatePropertyRequest.title := "Beautiful Beach House";
     CreatePropertyRequest.description := Some "A stunning beachfront property";
     CreatePropertyRequest.address := "123 Ocean Drive";
     CreatePropertyRequest.city := "Miami";
     CreatePropertyRequest.state := "FL";
     CreatePropertyRequest.zipCode := "33101";
     CreatePropertyRequest.country := None;
     CreatePropertyRequest.latitude := None;
     CreatePropertyRequest.longitude := None;
     CreatePropertyRequest.propertyType := propertyType;
     CreatePropertyRequest.bedrooms := 3%Q;
     CreatePropertyRequest.bathrooms := 2.5%Q;
     CreatePropertyRequest.squareFeet := None;
     CreatePropertyRequest.lotSize := None;
     CreatePropertyRequest.yearBuilt := None;
     CreatePropertyRequest.pricePerNight := pricePerNight;
     CreatePropertyRequest.securityDeposit := None;
     CreatePropertyRequest.cleaningFee := None;
     CreatePropertyRequest.maxGuests := 6%Q;
     CreatePropertyRequest.amenities := None;
     CreatePropertyRequest.houseRules := None |}.

Definition updatedBeachHouse : UpdatePropertyRequest.t :=
  UpdatePropertyRequest.mk (Some "Updated Beach House") (Some "Updated description")
    None None None None None None None None None None None None None (Some 300%Q)
    None None None None None None None.

Definition miamiHouses : PropertySearchFilters.t :=
  PropertySearchFilters.mk (Some "Miami") (Some "FL") None
    (Some 100%float) (Some 500%float) (Some 2%float) None (Some "house") None None None None None None None.

(** A database whose chains all resolve to [{ data: null, error }]. *)
Definition failing (message : string) : Database DbProperty.t :=
  {| onSingle := fun _ => Resolved None (Some message);
     onRows := fun _ => Resolved None (Some message);
     onVoid := fun _ => Resolved tt (Some message) |}.

(** The engine of the test run. *)
Definition V8 : JsEngine :=
  {| nullReadMessage := "Cannot read properties of null (reading 'id')" |}.

End PropertyTests.

(** ** Dates *)

(** A [Date] object through its time value: milliseconds since the epoch,
    or [None] for an invalid date, whose time value is [NaN]. *)
Definition Date : Type := option Z.

(** [new Date(text)] belongs to the runtime. *)
Class DateParser : Type := { parseDate : string -> Date }.

(** [a < b], [a > b] and [a <= b] on [Date] objects: the time values are
    compared, and every comparison with [NaN] is false. *)
Definition date_lt (a b : Date) : bool :=
  match a, b with
  | Some x, Some y => x <? y
  | _, _ => false
  end.

Definition date_gt (a b : Date) : bool :=
  match a, b with
  | Some x, Some y => y <? x
  | _, _ => false
  end.

Definition date_le (a b : Date) : bool :=
  match a, b with
  | Some x, Some y => x <=? y
  | _, _ => false
  end.

(** Days from 1970-01-01 to the given day of the proleptic Gregorian
    calendar. *)
Definition daysFromCivil (year month day : Z) : Z :=
  let y := if month <=? 2 then year - 1 else year in
  let era := y / 400 in
  let yoe := y - era * 400 in
  let doy := (153 * (if 2 <? month then month - 3 else month + 9) + 2) / 5 + day - 1 in
  let doe := yoe * 365 + yoe / 4 - yoe / 100 + doy in
  era * 146097 + doe - 719468.

Definition digit (c : ascii) : option Z :=
  let n := nat_of_ascii c in
  if ((48 <=? n) && (n <=? 57))%nat then Some (Z.of_nat (n - 48)) else None.

Definition digits (cs : list ascii) : option Z :=
  fold_left
    (fun acc c =>
       match acc, digit c with
       | Some a, Some d => Some (a * 10 + d)
       | _, _ => None
       end)
    cs (Some 0).

(** The date-only form [YYYY-MM-DD], read as midnight UTC; used for
    concrete runs only. *)
Definition parseDateOnly (text : string) : Date :=
  match list_ascii_of_string text with
  | [y1; y2; y3; y4; "-"%char; m1; m2; "-"%char; d1; d2] =>
      match digits [y1; y2; y3; y4], digits [m1; m2], digits [d1; d2] with
      | Some y, Some m, Some d =>
          if (1 <=? m) && (m <=? 12) && (1 <=? d) && (d <=? 31)
          then Some (daysFromCivil y m d * 86400000)
          else None
      | _, _, _ => None
      end
  | _ => None
  end.

Definition DateOnly : DateParser := {| parseDate := parseDateOnly |}.

(** ** The booking service *)

Module BookingService.
Import Supabase.

Module Booking.
Record t : Type := mk {
  id : string;
  propertyId : string;
  buyerId : string;
  checkInDate : string;
  checkOutDate : string;
  guests : number;
  totalAmount : number;
  securityDeposit : option number;
  cleaningFee : option number;
  status : string;
  specialRequests : option string;
  createdAt : string;
  updatedAt : string
}.
End Booking.

Module CreateBookingRequest.
Record t : Type := mk {
  propertyId : string;
  buyerId : string;
  checkInDate : string;
  checkOutDate : string;
  guests : double;
  totalAmount : double;
  securityDeposit : option double;
  cleaningFee : option double;
  specialRequests : option string
}.
End CreateBookingRequest.

(** A row of the [bookings] table as the client hands it over, typed as
    the [Booking] interface types the fields the columns are copied to. *)
Module DbBooking.
Record t : Type := mk {
  id : string;
  property_id : string;
  buyer_id : string;
  check_in_date : string;
  check_out_date : string;
  guests : number;
  total_amount : number;
  security_deposit : option number;
  cleaning_fee : option number;
  status : string;
  special_requests : option string;
  created_at : string;
  updated_at : string
}.
End DbBooking.

(** [ServiceResponse]; its [data] and [bookings] fields are not set by the
    methods modelled here. *)
Module ServiceResponse.
Record t : Type := mk {
  success : bool;
  booking : option Booking.t;
  isAvailable : option bool;
  error : option string
}.
End ServiceResponse.

Record Validation : Type := { isValid : bool; error : option string }.

Definition invalid (message : string) : Validation :=
  {| isValid := false; error := Some message |}.

Definition valid : Validation := {| isValid := true; error := None |}.

Definition failure (error : option string) : ServiceResponse.t :=
  ServiceResponse.mk false None None error.

Definition caught (thrown : Thrown) : ServiceResponse.t :=
  failure (Some match thrown with
                | ThrownError message => message
                | ThrownOther => "An unexpected error occurred"
                end).

(** [today] is the [Date] the method builds from the clock and sets to
    local midnight; it is always a valid date. *)
Definition validateBookingData `{DateParser} (today : Z)
  (bookingData : CreateBookingRequest.t) : Validation :=
  if negb (nonEmpty (CreateBookingRequest.propertyId bookingData)) then
    invalid "Property ID is required"
  else if negb (nonEmpty (CreateBookingRequest.buyerId bookingData)) then
    invalid "Buyer ID is required"
  else if negb (nonEmpty (CreateBookingRequest.checkInDate bookingData)) then
    invalid "Check-in date is required"
  else if negb (nonEmpty (CreateBookingRequest.checkOutDate bookingData)) then
    invalid "Check-out date is required"
  else
    let checkIn := parseDate (CreateBookingRequest.checkInDate bookingData) in
    let checkOut := parseDate (CreateBookingRequest.checkOutDate bookingData) in
    if date_le checkOut checkIn then
      invalid "Check-out date must be after check-in date"
    else if date_lt checkIn (Some today) then
      invalid "Check-in date must be in the future"
    else if dbl_le (CreateBookingRequest.guests bookingData) 0%float then
      invalid "Guests must be at least 1"
    else if dbl_le (CreateBookingRequest.totalAmount bookingData) 0%float then
      invalid "Total amount must be positive"
    else valid.

Definition mapDatabaseBookingToBooking (dbBooking : DbBooking.t) : Booking.t :=
  {| Booking.id := DbBooking.id dbBooking;
     Booking.propertyId := DbBooking.property_id dbBooking;
     Booking.buyerId := DbBooking.buyer_id dbBooking;
     Booking.checkInDate := DbBooking.check_in_date dbBooking;
     Booking.checkOutDate := DbBooking.check_out_date dbBooking;
     Booking.guests := DbBooking.guests dbBooking;
     Booking.totalAmount := DbBooking.total_amount dbBooking;
     Booking.securityDeposit := DbBooking.security_deposit dbBooking;
     Booking.cleaningFee := DbBooking.cleaning_fee dbBooking;
     Booking.status := DbBooking.status dbBooking;
     Booking.specialRequests := DbBooking.special_requests dbBooking;
     Booking.createdAt := DbBooking.created_at dbBooking;
     Booking.updatedAt := DbBooking.updated_at dbBooking |}.

(** The callback of [data?.some(...)]: the requested dates overlap with the
    dates of the booking. *)
Definition conflicts `{DateParser} (checkIn checkOut : Date) (booking : DbBooking.t) : bool :=
  let bookingCheckIn := parseDate (DbBooking.check_in_date booking) in
  let bookingCheckOut := parseDate (DbBooking.check_out_date booking) in
  date_lt checkIn bookingCheckOut && date_gt checkOut bookingCheckIn.

(** The chain [checkPropertyAvailability] awaits. *)
Definition availabilityQuery (propertyId : string) : Query :=
  {| from := "bookings";
     steps := [Select (Some "id, check_in_date, check_out_date, status");
               Eq "property_id" (VString propertyId);
               In_ "status" ["pending"; "confirmed"];
               Order "check_in_date" true] |}.

Definition checkPropertyAvailability `{DateParser}
  (propertyId checkInDate checkOutDate : string)
  : Service DbBooking.t ServiceResponse.t :=
  if negb (nonEmpty propertyId) then Return (failure (Some "Property ID is required"))
  else if negb (nonEmpty checkInDate) || negb (nonEmpty checkOutDate) then
    Return (failure (Some "Check-in and check-out dates are required"))
  else
    let checkIn := parseDate checkInDate in
    let checkOut := parseDate checkOutDate in
    if date_le checkOut checkIn then
      Return (failure (Some "Check-out date must be after check-in date"))
    else
      AwaitRows (availabilityQuery propertyId)
        (fun outcome =>
           Return
             match outcome with
             | Rejected thrown => caught thrown
             | Resolved data error =>
                 match error with
                 | Some message => failure (Some message)
                 | None =>
                     let hasConflict :=
                       match data with
                       | Some bookings => existsb (conflicts checkIn checkOut) bookings
                       | None => false
                       end in
                     ServiceResponse.mk true None (Some (negb hasConflict)) None
                 end
             end).

(** [await] of another method of the service. *)
Fixpoint andThen {Row A B : Type} (p : Service Row A) (k : A -> Service Row B)
  : Service Row B :=
  match p with
  | Return a => k a
  | AwaitSingle q f => AwaitSingle q (fun outcome => andThen (f outcome) k)
  | AwaitRows q f => AwaitRows q (fun outcome => andThen (f outcome) k)
  | AwaitVoid q f => AwaitVoid q (fun outcome => andThen (f outcome) k)
  end.

(** The object literal passed to [insert] by [createBooking]. *)
Definition insertRow (bookingData : CreateBookingRequest.t) : list (string * Value) :=
  [ ("property_id", VString (CreateBookingRequest.propertyId bookingData));
    ("buyer_id", VString (CreateBookingRequest.buyerId bookingData));
    ("check_in_date", VString (CreateBookingRequest.checkInDate bookingData));
    ("check_out_date", VString (CreateBookingRequest.checkOutDate bookingData));
    ("guests", VDouble (CreateBookingRequest.guests bookingData));
    ("total_amount", VDouble (CreateBookingRequest.totalAmount bookingData));
    ("security_deposit", VDouble (dbl_or (CreateBookingRequest.securityDeposit bookingData) 0%float));
    ("cleaning_fee", VDouble (dbl_or (CreateBookingRequest.cleaningFee bookingData) 0%float));
    ("special_requests",
      match CreateBookingRequest.specialRequests bookingData with
      | Some text => VString text
      | None => VUndefined
      end);
    ("status", VString "pending") ].

Definition insertQuery (bookingData : CreateBookingRequest.t) : Query :=
  {| from := "bookings";
     steps := [Insert (insertRow bookingData); Select None; Single] |}.

Definition createBooking `{DateParser} `{JsEngine} (today : Z)
  (bookingData : CreateBookingRequest.t) : Service DbBooking.t ServiceResponse.t :=
  let validation := validateBookingData today bookingData in
  if negb (isValid validation) then Return (failure (error validation))
  else
    andThen
      (checkPropertyAvailability
         (CreateBookingRequest.propertyId bookingData)
         (CreateBookingRequest.checkInDate bookingData)
         (CreateBookingRequest.checkOutDate bookingData))
      (fun availabilityCheck =>
         if negb (ServiceResponse.success availabilityCheck) then
           Return (failure (ServiceResponse.error availabilityCheck))
         else if negb match ServiceResponse.isAvailable availabilityCheck with
                      | Some available => available
                      | None => false
                      end then
           Return (failure (Some "Property is not available for the selected dates"))
         else
           AwaitSingle (insertQuery bookingData)
             (fun outcome =>
                Return
                  match outcome with
                  | Rejected thrown => caught thrown
                  | Resolved data error =>
                      match error with
                      | Some message => failure (Some message)
                      | None =>
                          match data with
                          | Some row =>
                              ServiceResponse.mk true
                                (Some (mapDatabaseBookingToBooking row)) None None
                          | None => caught (ThrownError nullReadMessage)
                          end
                      end
                  end)).

(** The chains awaited, in order, when the method runs against a
    database. *)
Fixpoint trace {Row A : Type} (db : Database Row) (p : Service Row A) : list Query :=
  match p with
  | Return _ => []
  | AwaitSingle q k => q :: trace db (k (onSingle db q))
  | AwaitRows q k => q :: trace db (k (onRows db q))
  | AwaitVoid q k => q :: trace db (k (onVoid db q))
  end.

(** The stay [[checkIn, checkOut)] and the booking share an instant. *)
Definition sharesInstant `{DateParser} (checkIn checkOut : Z) (booking : DbBooking.t) : Prop :=
  exists bookingCheckIn bookingCheckOut instant,
    parseDate (DbBooking.check_in_date booking) = Some bookingCheckIn
    /\ parseDate (DbBooking.check_out_date booking) = Some bookingCheckOut
    /\ checkIn <= instant < checkOut
    /\ bookingCheckIn <= instant < bookingCheckOut.

End BookingService.

(** ** Requests of the booking service's test-suite *)

Module BookingTests.
Import Supabase BookingService.

Definition row (id checkIn checkOut status : string) : DbBooking.t :=
  DbBooking.mk id "property-123" "" checkIn checkOut 0%Q 0%Q None None status None "" "".

(** A database that answers every chain on rows with the given rows. *)
Definition holding (rows : list DbBooking.t) : Database DbBooking.t :=
  {| onSingle := fun _ => Resolved None None;
     onRows := fun _ => Resolved (Some rows) None;
     onVoid := fun _ => Resolved tt None |}.

End BookingTests.

(** ** Regular expressions *)

(** The regular expressions of the source use character classes,
    sequence, [?] and [+]; they are read here as regular languages, and a
    test of [/^r$/] against a text asks whether the whole text is in the
    language of [r]. *)
Inductive Regex : Type :=
| Never
| Empty
| Class (p : ascii -> bool)
| Seq (r s : Regex)
| Alt (r s : Regex)
| Star (r : Regex).

(** [r?] and [r+]. *)
Definition Opt (r : Regex) : Regex := Alt Empty r.
Definition Plus (r : Regex) : Regex := Seq r (Star r).

Fixpoint nullable (r : Regex) : bool :=
  match r with
  | Never => false
  | Empty => true
  | Class _ => false
  | Seq r s => nullable r && nullable s
  | Alt r s => nullable r || nullable s
  | Star _ => true
  end.

(** The expression for what may follow the code unit [c]. *)
Fixpoint derivative (c : ascii) (r : Regex) : Regex :=
  match r with
  | Never => Never
  | Empty => Never
  | Class p => if p c then Empty else Never
  | Seq r s =>
      Alt (Seq (derivative c r) s) (if nullable r then derivative c s else Never)
  | Alt r s => Alt (derivative c r) (derivative c s)
  | Star r => Seq (derivative c r) (Star r)
  end.

Fixpoint accepts (r : Regex) (text : list ascii) : bool :=
  match text with
  | [] => nullable r
  | c :: rest => accepts (derivative c r) rest
  end.

(** [/^r$/.test(text)]. *)
Definition test (r : Regex) (text : string) : bool :=
  accepts r (list_ascii_of_string text).

(** The language of an expression. *)
Inductive Matches : Regex -> list ascii -> Prop :=
| MEmpty : Matches Empty []
| MClass (p : ascii -> bool) (c : ascii) : p c = true -> Matches (Class p) [c]
| MSeq (r s : Regex) (u v : list ascii) :
    Matches r u -> Matches s v -> Matches (Seq r s) (u ++ v)
| MAltL (r s : Regex) (u : list ascii) : Matches r u -> Matches (Alt r s) u
| MAltR (r s : Regex) (u : list ascii) : Matches s u -> Matches (Alt r s) u
| MStar0 (r : Regex) : Matches (Star r) []
| MStarS (r : Regex) (u v : list ascii) :
    Matches r u -> Matches (Star r) v -> Matches (Star r) (u ++ v).

(** [\d] *)
Definition isDigit (c : ascii) : bool :=
  let n := nat_of_ascii c in ((48 <=? n) && (n <=? 57))%nat.

(** The one code unit [c]. *)
Definition only (c : ascii) : ascii -> bool := Ascii.eqb c.

(** ** The user service *)

Module UserService.

Module CreateUserRequest.
Record t : Type := mk {
  email : string;
  password : string;
  firstName : string;
  lastName : string;
  phone : option string;
  role : option string
}.
End CreateUserRequest.

Record Validation : Type := { isValid : bool; error : option string }.

Definition invalid (message : string) : Validation :=
  {| isValid := false; error := Some message |}.

Definition valid : Validation := {| isValid := true; error := None |}.

(** [[^\s@]] *)
Definition notSpaceNorAt (c : ascii) : bool :=
  negb (isWhiteSpace c || only "@" c).

(** [/^[^\s@]+@[^\s@]+\.[^\s@]+$/] *)
Definition emailRegex : Regex :=
  Seq (Plus (Class notSpaceNorAt))
    (Seq (Class (only "@"))
       (Seq (Plus (Class notSpaceNorAt))
          (Seq (Class (only "."))
             (Plus (Class notSpaceNorAt))))).

Definition isValidEmail (email : string) : bool := test emailRegex email.

(** [[\d\s\-\(\)]] *)
Definition phoneChar (c : ascii) : bool :=
  isDigit c || isWhiteSpace c || only "-" c || only "(" c || only ")" c.

(** [/^\+?[\d\s\-\(\)]+$/] *)
Definition phoneRegex : Regex :=
  Seq (Opt (Class (only "+"))) (Plus (Class phoneChar)).

(** [text.replace(/\D/g, '')] *)
Definition digitsOnly (text : string) : list ascii :=
  filter isDigit (list_ascii_of_string text).

Definition isValidPhone (phone : string) : bool :=
  test phoneRegex phone && (10 <=? List.length (digitsOnly phone))%nat.

Definition validateUserData (userData : CreateUserRequest.t) : Validation :=
  let blank (s : string) := negb (nonEmpty s) || (String.length (trim s) =? 0)%nat in
  if negb (nonEmpty (CreateUserRequest.email userData)) then
    invalid "Email is required"
  else if negb (isValidEmail (CreateUserRequest.email userData)) then
    invalid "Invalid email format"
  else if negb (nonEmpty (CreateUserRequest.password userData)) then
    invalid "Password is required"
  else if (String.length (CreateUserRequest.password userData) <? 8)%nat then
    invalid "Password must be at least 8 characters"
  else if blank (CreateUserRequest.firstName userData) then
    invalid "First name is required"
  else if blank (CreateUserRequest.lastName userData) then
    invalid "Last name is required"
  else if truthy (CreateUserRequest.phone userData)
          && negb (isValidPhone (str_of (CreateUserRequest.phone userData))) then
    invalid "Invalid phone number format"
  else valid.

(** A text that is not empty and has neither white space nor [@]. *)
Definition plain (s : string) : Prop :=
  s <> ""
  /\ forall c, In c (list_ascii_of_string s) -> isWhiteSpace c = false /\ c <> "@"%char.

End UserService.

(** ** The payment service: validation *)

Module PaymentService.

Module CreatePaymentRequest.
Record t : Type := mk {
  bookingId : string;
  amount : number;
  currency : string;
  customerId : string;
  paymentMethodId : string
}.
End CreatePaymentRequest.

Record Validation : Type := { isValid : bool; error : option string }.

Definition invalid (message : string) : Validation :=
  {| isValid := false; error := Some message |}.

Definition valid : Validation := {| isValid := true; error := None |}.

Definition validCurrencies : list string :=
  ["USD"; "EUR"; "GBP"; "CAD"; "AUD"; "JPY"; "CHF"; "CNY"; "SEK"; "NZD"].

Definition isValidCurrency `{CaseMapping} (currency : string) : bool :=
  includes validCurrencies (toUpperCase currency).

Definition validatePaymentData `{CaseMapping} (paymentData : CreatePaymentRequest.t)
  : Validation :=
  if negb (nonEmpty (CreatePaymentRequest.bookingId paymentData)) then
    invalid "Booking ID is required"
  else if negb (num_truthy (Some (CreatePaymentRequest.amount paymentData)))
          || num_le (CreatePaymentRequest.amount paymentData) 0%Q then
    invalid "Amount must be positive"
  else if negb (nonEmpty (CreatePaymentRequest.currency paymentData)) then
    invalid "Currency is required"
  else if negb (isValidCurrency (CreatePaymentRequest.currency paymentData)) then
    invalid "Invalid currency"
  else if negb (nonEmpty (CreatePaymentRequest.customerId paymentData)) then
    invalid "Customer ID is required"
  else if negb (nonEmpty (CreatePaymentRequest.paymentMethodId paymentData)) then
    invalid "Payment method ID is required"
  else valid.

End PaymentService.

(** ** The test-suite on the model *)

Example test_sorted_by_priority :
  map RoutingRule.id (_rules (constructor Tests.mockRules))
  = [ "rule-health-exact"; "rule-admin-post"; "rule-users-prefix";
      "rule-admin-get-prefix"; "rule-products-prefix"; "rule-root-default" ].
Proof. reflexivity. Qed.

Example test_exact_with_method :
  Tests.route Tests.mockRules "/health" "GET" = Some ("healthService", "/health").
Proof. reflexivity. Qed.

Example test_method_mismatch_falls_through :
  Tests.route Tests.mockRules "/health" "POST" = Some ("defaultService", "/health").
Proof. reflexivity. Qed.

Example test_prefix_stripped :
  Tests.route Tests.mockRules "/users/123/profile" "GET" = Some ("userService", "/123/profile")
  /\ Tests.route Tests.mockRules "/users/settings" "PUT" = Some ("userService", "/settings").
Proof. split; reflexivity. Qed.

Example test_root_prefix :
  Tests.route Tests.mockRules "/" "GET" = Some ("defaultService", "/")
  /\ Tests.route Tests.mockRules "/anything" "GET" = Some ("defaultService", "/anything").
Proof. split; reflexivity. Qed.

Example test_no_match :
  Tests.route [Tests.rule "r1" (Some "/test") None None "testService" 10] "/nomatch" "GET"
  = None.
Proof. reflexivity. Qed.

Example test_priority_and_specificity :
  Tests.route Tests.mockRules "/admin" "POST" = Some ("adminService", "/admin")
  /\ Tests.route Tests.mockRules "/admin/config" "GET"
     = Some ("adminDashboardService", "/config")
  /\ Tests.route
       (Tests.mockRules
        ++ [Tests.rule "rule-users-high-priority" (Some "/users/admin") None None
              "userAdminService" 25])
       "/users/admin/dashboard" "GET"
     = Some ("userAdminService", "/dashboard").
Proof. repeat split. Qed.

Example test_dynamic_update :
  let router := exec (updateRules Tests.newRules) (constructor Tests.mockRules) in
  eval (routeRequest (H := AsciiCase) (IncomingRequest.mk "/test/route" "GET")) router
  = Some (RoutingResult.mk "testServiceUpdated" "/route")
  /\ eval (routeRequest (H := AsciiCase) (IncomingRequest.mk "/users/1" "GET")) router
     = Some (RoutingResult.mk "newDefaultService" "/users/1").
Proof. split; reflexivity. Qed.

Example test_root_rules :
  Tests.route Tests.rootRules "/" "GET" = Some ("exactRootService", "/")
  /\ Tests.route Tests.rootRules "/" "POST" = Some ("prefixRootService", "/")
  /\ Tests.route Tests.rootRules "/subpath" "GET" = Some ("prefixRootService", "/subpath").
Proof. repeat split. Qed.

(** ** Strings *)

Lemma substring_all (s : string) : String.substring 0 (String.length s) s = s.
Proof. induction s as [|c s IH]; simpl; [reflexivity | now rewrite IH]. Qed.

Lemma substring_from_app (p rest : string) :
  substring_from (p ++ rest) (String.length p) = rest.
Proof.
  unfold substring_from. induction p as [|c p IH]; simpl.
  - rewrite Nat.sub_0_r. apply substring_all.
  - exact IH.
Qed.

Lemma startsWith_app (p rest : string) : startsWith (p ++ rest) p = true.
Proof.
  unfold startsWith. induction p as [|c p IH]; simpl.
  - now destruct rest.
  - destruct (ascii_dec c c) as [_|n]; [exact IH | now elim n].
Qed.

Lemma startsWith_split (s p : string) :
  startsWith s p = true -> exists rest, s = p ++ rest.
Proof.
  unfold startsWith. revert s. induction p as [|c p IH]; intros s Hp.
  - now exists s.
  - destruct s as [|d s]; simpl in Hp; [discriminate|].
    destruct (ascii_dec c d) as [->|]; [|discriminate].
    destruct (IH _ Hp) as [rest ->]. now exists rest.
Qed.

Lemma startsWith_iff (s p : string) :
  startsWith s p = true <-> exists rest, s = p ++ rest.
Proof.
  split; [apply startsWith_split | intros [rest ->]; apply startsWith_app].
Qed.

Lemma truthy_Some (v : option string) :
  truthy v = true <-> exists s, v = Some s /\ s <> "".
Proof.
  destruct v as [s|]; simpl.
  - rewrite negb_true_iff, String.eqb_neq. split.
    + intros Hs. now exists s.
    + intros [s' [[= <-] Hs]]. exact Hs.
  - split; [discriminate | intros [s [[=] _]]].
Qed.

Lemma truthy_false (v : option string) :
  truthy v = false <-> v = None \/ v = Some "".
Proof.
  destruct v as [s|]; simpl.
  - rewrite negb_false_iff, String.eqb_eq. split.
    + intros ->. now right.
    + intros [[=]|[= ->]]. reflexivity.
  - split; [now left | reflexivity].
Qed.

(** ** [Array.prototype.sort] *)

Section ArraySortFacts.
Context {A : Type} (cmp : A -> A -> Z).

Lemma insert_stable_perm (x : A) (l : list A) :
  Permutation (insert_stable cmp x l) (x :: l).
Proof.
  induction l as [|y l IH]; simpl; [reflexivity|].
  destruct (cmp x y <=? 0); [reflexivity|].
  rewrite IH. apply perm_swap.
Qed.

Lemma array_sort_perm (l : list A) : Permutation (array_sort cmp l) l.
Proof.
  induction l as [|x l IH]; simpl; [reflexivity|].
  rewrite insert_stable_perm. now constructor.
Qed.

Lemma array_sort_length (l : list A) : length (array_sort cmp l) = length l.
Proof. apply Permutation_length, array_sort_perm. Qed.

Context {HC : Consistent cmp}.

Lemma cmp_antisym (a b : A) : cmp a b <= 0 -> cmp b a <= 0 -> cmp a b = 0.
Proof.
  intros Hab Hba. pose proof (cmp_flip a b) as F.
  destruct (Z.eq_dec (cmp a b) 0) as [|Hn]; [assumption|].
  assert (cmp a b < 0) as Hlt by lia. apply F in Hlt. lia.
Qed.

Lemma cmp_total (a b : A) : 0 < cmp a b -> cmp b a <= 0.
Proof. intros H. apply cmp_flip in H. lia. Qed.

Lemma cmp_zero_sym (a b : A) : cmp a b = 0 -> cmp b a = 0.
Proof.
  intros H. pose proof (cmp_flip a b) as F1. pose proof (cmp_flip b a) as F2.
  destruct (Z.lt_trichotomy (cmp b a) 0) as [Hlt|[Heq|Hgt]]; [|assumption|].
  - apply F2 in Hlt. lia.
  - apply F1 in Hgt. lia.
Qed.

Lemma cmp_zero_trans (a b c : A) : cmp a b = 0 -> cmp b c = 0 -> cmp a c = 0.
Proof.
  intros Hab Hbc. apply cmp_antisym.
  - apply cmp_trans with b; lia.
  - apply cmp_zero_sym in Hab. apply cmp_zero_sym in Hbc.
    apply cmp_trans with b; lia.
Qed.

Lemma insert_stable_sorted (x : A) (l : list A) :
  StronglySorted (fun a b => cmp a b <= 0) l ->
  StronglySorted (fun a b => cmp a b <= 0) (insert_stable cmp x l).
Proof.
  induction 1 as [|y l Hs IH Hy]; simpl.
  - repeat constructor.
  - destruct (Z.leb_spec (cmp x y) 0) as [Hle|Hgt].
    + constructor; [now constructor|]. constructor; [assumption|].
      rewrite Forall_forall in Hy |- *. intros z Hz.
      apply cmp_trans with y; auto.
    + constructor; [assumption|].
      apply (Permutation_Forall (Permutation_sym (insert_stable_perm x l))).
      constructor; [now apply cmp_total | assumption].
Qed.

Lemma array_sort_sorted (l : list A) :
  StronglySorted (fun a b => cmp a b <= 0) (array_sort cmp l).
Proof.
  induction l as [|x l IH]; simpl; [constructor | now apply insert_stable_sorted].
Qed.

Lemma filter_insert_stable (k x : A) (l : list A) :
  filter (fun y => cmp k y =? 0) (insert_stable cmp x l)
  = filter (fun y => cmp k y =? 0) (x :: l).
Proof.
  induction l as [|y l IH]; [reflexivity|].
  simpl insert_stable. destruct (Z.leb_spec (cmp x y) 0) as [Hle|Hgt]; [reflexivity|].
  simpl in *. rewrite IH.
  destruct (Z.eqb_spec (cmp k x) 0) as [Hx|Hx]; [|reflexivity].
  destruct (Z.eqb_spec (cmp k y) 0) as [Hy|Hy]; [|reflexivity].
  apply cmp_zero_sym in Hx. pose proof (cmp_zero_trans _ _ _ Hx Hy). lia.
Qed.

Lemma array_sort_stable (k : A) (l : list A) :
  filter (fun y => cmp k y =? 0) (array_sort cmp l)
  = filter (fun y => cmp k y =? 0) l.
Proof.
  induction l as [|x l IH]; [reflexivity|].
  simpl array_sort. rewrite filter_insert_stable. simpl. now rewrite IH.
Qed.

Lemma sorted_stable_unique (l1 l2 : list A) :
  StronglySorted (fun a b => cmp a b <= 0) l1 ->
  StronglySorted (fun a b => cmp a b <= 0) l2 ->
  (forall k, filter (fun y => cmp k y =? 0) l1 = filter (fun y => cmp k y =? 0) l2) ->
  l1 = l2.
Proof.
  intros S1. revert l2. induction S1 as [|a l1 S1 IH Ha]; intros l2 S2 Hf.
  - destruct l2 as [|b l2]; [reflexivity|].
    specialize (Hf b). simpl in Hf. rewrite (cmp_refl b) in Hf. discriminate.
  - destruct l2 as [|b l2].
    + specialize (Hf a). simpl in Hf. rewrite (cmp_refl a) in Hf. discriminate.
    + inversion S2 as [|? ? S2' Hb]; subst.
      assert (Hba : cmp b a <= 0).
      { assert (In a (filter (fun y => cmp a y =? 0) (b :: l2))) as Hin.
        { rewrite <- Hf. simpl. rewrite (cmp_refl a). now left. }
        apply filter_In in Hin. destruct Hin as [[->|Hin] _].
        - rewrite (cmp_refl a). lia.
        - rewrite Forall_forall in Hb. now apply Hb. }
      assert (Hab : cmp a b <= 0).
      { assert (In b (filter (fun y => cmp b y =? 0) (a :: l1))) as Hin.
        { rewrite Hf. simpl. rewrite (cmp_refl b). now left. }
        apply filter_In in Hin. destruct Hin as [[->|Hin] _].
        - rewrite (cmp_refl b). lia.
        - rewrite Forall_forall in Ha. now apply Ha. }
      pose proof (cmp_antisym _ _ Hab Hba) as H0.
      assert (a = b) as <-.
      { specialize (Hf a). simpl in Hf. rewrite (cmp_refl a), H0 in Hf.
        simpl in Hf. now injection Hf. }
      f_equal. apply IH; [assumption|].
      intros k. specialize (Hf k). simpl in Hf.
      destruct (cmp k a =? 0); [now injection Hf | assumption].
Qed.

(** The result of [sort] does not depend on the algorithm: a list that is
    in ascending order of the comparator and keeps every class of equal
    elements in its original order is the model's result. *)
Lemma array_sort_unique (l l' : list A) :
  StronglySorted (fun a b => cmp a b <= 0) l' ->
  (forall k, filter (fun y => cmp k y =? 0) l' = filter (fun y => cmp k y =? 0) l) ->
  l' = array_sort cmp l.
Proof.
  intros Hs Hf. apply sorted_stable_unique; [assumption | apply array_sort_sorted |].
  intros k. now rewrite array_sort_stable.
Qed.

End ArraySortFacts.

Lemma StronglySorted_nth_error {A : Type} (R : A -> A -> Prop) (l : list A) :
  StronglySorted R l ->
  forall i j a b, (i < j)%nat ->
    nth_error l i = Some a -> nth_error l j = Some b -> R a b.
Proof.
  induction 1 as [|x l Hs IH Hx]; intros i j a b Hij Hi Hj.
  - now destruct i.
  - destruct j as [|j]; [lia|]. simpl in Hj. destruct i as [|i]; simpl in Hi.
    + injection Hi as <-. rewrite Forall_forall in Hx.
      apply Hx. eapply nth_error_In; eassumption.
    + apply (IH i j); [lia | assumption..].
Qed.

(** Sorting related inputs with comparators that agree on related elements
    gives related outputs, position by position. *)
Lemma array_sort_Forall2 {A B : Type} (R : A -> B -> Prop)
  (cmpA : A -> A -> Z) (cmpB : B -> B -> Z) :
  (forall a a' b b', R a b -> R a' b' -> cmpA a a' = cmpB b b') ->
  forall l l', Forall2 R l l' -> Forall2 R (array_sort cmpA l) (array_sort cmpB l').
Proof.
  intros Hcmp. induction 1 as [|a b l l' Hab Hl IH]; simpl; [constructor|].
  revert IH. generalize (array_sort cmpA l) (array_sort cmpB l').
  induction 1 as [|a' b' m m' Hab' Hm IHm]; simpl.
  - repeat constructor. assumption.
  - rewrite (Hcmp _ _ _ _ Hab Hab').
    destruct (cmpB b b' <=? 0); repeat constructor; assumption.
Qed.

(** ** The comparator of [_sortRules] *)

Lemma nullish_priority (r : RoutingRule) :
  nullish (RoutingRule.priority r) 0 = priorityOf r.
Proof. reflexivity. Qed.

Lemma truthy_exactPath (r : RoutingRule) :
  truthy (RoutingRule.exactPath r) = exactClass r.
Proof. unfold exactClass. now destruct (RoutingRule.exactPath r) as [[|c e]|]. Qed.

Lemma path_expression (r : RoutingRule) :
  str_of (js_or (js_or (RoutingRule.exactPath r) (RoutingRule.pathPrefix r)) (Some ""))
  = rankPath r.
Proof.
  unfold rankPath, js_or.
  destruct (RoutingRule.exactPath r) as [[|c e]|];
    destruct (RoutingRule.pathPrefix r) as [[|d p]|]; reflexivity.
Qed.

Lemma compareRules_verdict (a b : RoutingRule) :
  compareRules a b
  = verdict (priorityOf a) (exactClass a) (len (rankPath a))
            (priorityOf b) (exactClass b) (len (rankPath b)).
Proof.
  unfold compareRules, verdict.
  rewrite !nullish_priority, !truthy_exactPath, !path_expression.
  destruct (priorityOf b =? priorityOf a); simpl; [|reflexivity].
  destruct (exactClass a), (exactClass b); simpl; try reflexivity;
    destruct (Z.eqb_spec (len (rankPath b)) (len (rankPath a))); simpl; lia.
Qed.

Lemma verdict_le (pa : Z) (ea : bool) (la : Z) (pb : Z) (eb : bool) (lb : Z) :
  verdict pa ea la pb eb lb <= 0 <->
  pb < pa \/ (pb = pa /\ ((ea = true /\ eb = false) \/ (ea = eb /\ lb <= la))).
Proof.
  unfold verdict. destruct (Z.eqb_spec pb pa); destruct ea, eb; simpl;
    intuition (try discriminate; try lia).
Qed.

Lemma verdict_zero (pa : Z) (ea : bool) (la : Z) (pb : Z) (eb : bool) (lb : Z) :
  verdict pa ea la pb eb lb = 0 <-> pa = pb /\ ea = eb /\ la = lb.
Proof.
  unfold verdict. destruct (Z.eqb_spec pb pa); destruct ea, eb; simpl;
    intuition (try discriminate; try lia).
Qed.

#[export] Instance compareRules_consistent : Consistent compareRules.
Proof.
  split.
  - intros a. rewrite compareRules_verdict. apply verdict_zero. auto.
  - intros a b. rewrite !compareRules_verdict. unfold verdict.
    destruct (Z.eqb_spec (priorityOf b) (priorityOf a)) as [E|E];
      destruct (Z.eqb_spec (priorityOf a) (priorityOf b)); try lia;
      destruct (exactClass a), (exactClass b); simpl; lia.
  - intros a b c. rewrite !compareRules_verdict, !verdict_le.
    intros [H1|[H1 [[Ha Hb]|[Hab H1']]]] [H2|[H2 [[Hb' Hc]|[Hbc H2']]]];
      try (left; lia); right; (split; [lia|]);
      try (left; split; congruence); try congruence.
    right. split; [congruence | lia].
Qed.

Lemma compareRules_ranksBefore (a b : RoutingRule) :
  compareRules a b <= 0 -> ranksBefore a b.
Proof.
  rewrite compareRules_verdict, verdict_le. unfold ranksBefore, len.
  intros [H|[H [[Ha Hb]|[Hab Hl]]]]; repeat split; intros; try lia; congruence.
Qed.

Lemma compareRules_tied (a b : RoutingRule) :
  (compareRules a b =? 0) = tied a b.
Proof.
  apply eq_true_iff_eq. rewrite Z.eqb_eq, compareRules_verdict, verdict_zero.
  unfold tied, len. rewrite !andb_true_iff, Z.eqb_eq, Nat.eqb_eq, eqb_true_iff.
  intuition lia.
Qed.

(** ** Running the methods *)

Lemma exec_updateRules (newRules : list RoutingRule) (this : ApiGatewayRouter) :
  exec (updateRules newRules) this = {| _rules := array_sort compareRules newRules |}.
Proof. reflexivity. Qed.

Lemma rules_constructor (rs : list RoutingRule) :
  _rules (constructor rs) = array_sort compareRules rs.
Proof. reflexivity. Qed.

Lemma run_routeRequest `{CaseMapping} (request : IncomingRequest) (this : ApiGatewayRouter) :
  routeRequest request this = (scan (_rules this) request, this).
Proof. reflexivity. Qed.

Lemma eval_routeRequest `{CaseMapping} (request : IncomingRequest) (this : ApiGatewayRouter) :
  eval (routeRequest request) this = scan (_rules this) request.
Proof. reflexivity. Qed.

(** ** The scan *)

Section Scan.
Context `{CaseMapping}.

Lemma scan_cons (rule : RoutingRule) (rest : list RoutingRule) (request : IncomingRequest) :
  scan (rule :: rest) request
  = if passes rule request then Some (resultOf rule request) else scan rest request.
Proof.
  simpl. unfold passes, resultOf.
  destruct (methodMismatch rule request); simpl; [reflexivity|].
  now destruct (pathTest rule request) as [[|] p].
Qed.

Lemma scan_skip (before rest : list RoutingRule) (request : IncomingRequest) :
  Forall (fun r => passes r request = false) before ->
  scan (before ++ rest)%list request = scan rest request.
Proof.
  induction 1 as [|r before Hr _ IH]; [reflexivity|].
  rewrite <- app_comm_cons, scan_cons, Hr. exact IH.
Qed.

Lemma scan_hit (before after : list RoutingRule) (rule : RoutingRule)
  (request : IncomingRequest) :
  Forall (fun r => passes r request = false) before ->
  passes rule request = true ->
  scan (before ++ rule :: after)%list request = Some (resultOf rule request).
Proof.
  intros Hb Hr. rewrite scan_skip by assumption. now rewrite scan_cons, Hr.
Qed.

Lemma scan_Some (l : list RoutingRule) (request : IncomingRequest) (result : RoutingResult) :
  scan l request = Some result ->
  exists before rule after,
    l = (before ++ rule :: after)%list
    /\ Forall (fun r => passes r request = false) before
    /\ passes rule request = true
    /\ result = resultOf rule request.
Proof.
  induction l as [|r l IH]; [discriminate|].
  rewrite scan_cons. destruct (passes r request) eqn:Hr.
  - intros [= <-]. exists [], r, l. repeat split; [constructor | assumption].
  - intros Hs. destruct (IH Hs) as (before & rule & after & -> & Hb & Hp & ->).
    exists (r :: before), rule, after. repeat split; [now constructor | assumption].
Qed.

Lemma scan_None (l : list RoutingRule) (request : IncomingRequest) :
  scan l request = None <-> Forall (fun r => passes r request = false) l.
Proof.
  induction l as [|r l IH]; [split; [constructor | reflexivity]|].
  rewrite scan_cons. split.
  - destruct (passes r request) eqn:Hr; [discriminate|].
    intros Hs. constructor; [assumption | now apply IH].
  - intros Hall. inversion Hall as [|? ? Hr Hl]; subst. rewrite Hr. now apply IH.
Qed.

(** Rule lists that agree rule by rule on the observations of the scan
    route every request alike. *)
Lemma scan_Forall2 (R : RoutingRule -> RoutingRule -> Prop) (request : IncomingRequest) :
  (forall r r', R r r' ->
     passes r request = passes r' request /\ resultOf r request = resultOf r' request) ->
  forall l l', Forall2 R l l' -> scan l request = scan l' request.
Proof.
  intros HR. induction 1 as [|r r' l l' Hr _ IH]; [reflexivity|].
  rewrite !scan_cons. destruct (HR _ _ Hr) as [-> ->]. now rewrite IH.
Qed.

End Scan.

(** ** The path test *)

Lemma stripPrefix_app (p rest : string) : stripPrefix (p ++ rest) p = slashed rest.
Proof.
  unfold stripPrefix. rewrite substring_from_app.
  destruct rest as [|c rest]; [reflexivity|]. simpl.
  unfold startsWith. simpl. destruct (ascii_dec "/" c) as [<-|Hc].
  - now destruct rest.
  - simpl. destruct c as [[] [] [] [] [] [] [] []]; first [reflexivity | now elim Hc].
Qed.

Lemma slashed_startsWith (rest : string) : startsWith (slashed rest) "/" = true.
Proof.
  destruct rest as [|c rest]; [reflexivity|].
  destruct (ascii_dec "/" c) as [<-|Hc].
  - simpl. now destruct rest.
  - destruct c as [[] [] [] [] [] [] [] []]; first [reflexivity | now elim Hc].
Qed.

Lemma pathTest_exact (rule : RoutingRule) (e : string) (request : IncomingRequest) :
  RoutingRule.exactPath rule = Some e -> e <> "" ->
  pathTest rule request
  = ((IncomingRequest.path request =? e)%string, IncomingRequest.path request).
Proof.
  intros He Hne. unfold pathTest. rewrite He. simpl.
  apply String.eqb_neq in Hne. rewrite Hne. simpl.
  now destruct (IncomingRequest.path request =? e)%string.
Qed.

Lemma pathTest_prefix (rule : RoutingRule) (p : string) (request : IncomingRequest) :
  exactClass rule = false ->
  RoutingRule.pathPrefix rule = Some p -> p <> "" ->
  pathTest rule request
  = if startsWith (IncomingRequest.path request) p
    then (true, stripPrefix (IncomingRequest.path request) p)
    else (false, IncomingRequest.path request).
Proof.
  intros Hc Hp Hne. unfold pathTest. rewrite truthy_exactPath, Hc, Hp. simpl.
  apply String.eqb_neq in Hne. now rewrite Hne.
Qed.

Lemma pathTest_dead (rule : RoutingRule) (request : IncomingRequest) :
  exactClass rule = false ->
  truthy (RoutingRule.pathPrefix rule) = false ->
  pathTest rule request = (false, IncomingRequest.path request).
Proof.
  intros Hc Hp. unfold pathTest. now rewrite truthy_exactPath, Hc, Hp.
Qed.

Lemma exactClass_true (rule : RoutingRule) :
  exactClass rule = true <-> exists e, RoutingRule.exactPath rule = Some e /\ e <> "".
Proof. rewrite <- truthy_exactPath. apply truthy_Some. Qed.

Lemma exactClass_false (rule : RoutingRule) :
  exactClass rule = false <->
  RoutingRule.exactPath rule = None \/ RoutingRule.exactPath rule = Some "".
Proof. rewrite <- truthy_exactPath. apply truthy_false. Qed.

(** Every outcome of the path test: an exact match, a prefix match or no
    match. *)
Lemma pathTest_matches (rule : RoutingRule) (request : IncomingRequest) (forwarded : string) :
  pathTest rule request = (true, forwarded) <->
  (exists e, RoutingRule.exactPath rule = Some e /\ e <> ""
             /\ IncomingRequest.path request = e
             /\ forwarded = IncomingRequest.path request)
  \/ (exactClass rule = false
      /\ exists p remainder,
           RoutingRule.pathPrefix rule = Some p /\ p <> ""
           /\ IncomingRequest.path request = p ++ remainder
           /\ forwarded = slashed remainder).
Proof.
  split.
  - intros Ht. destruct (exactClass rule) eqn:Hc.
    + left. apply exactClass_true in Hc. destruct Hc as (e & He & Hne).
      rewrite (pathTest_exact _ _ _ He Hne) in Ht. injection Ht as Heq <-.
      apply String.eqb_eq in Heq. now exists e.
    + right. split; [reflexivity|].
      destruct (truthy (RoutingRule.pathPrefix rule)) eqn:Hp.
      * apply truthy_Some in Hp. destruct Hp as (p & Hp & Hne).
        rewrite (pathTest_prefix _ _ _ Hc Hp Hne) in Ht.
        destruct (startsWith (IncomingRequest.path request) p) eqn:Hs; [|discriminate].
        apply startsWith_split in Hs. destruct Hs as [remainder Hs].
        injection Ht as <-. exists p, remainder.
        repeat split; try assumption. rewrite Hs. apply stripPrefix_app.
      * now rewrite (pathTest_dead _ _ Hc Hp) in Ht.
  - intros [(e & He & Hne & Hpath & ->)|(Hc & p & remainder & Hp & Hne & Hpath & ->)].
    + rewrite (pathTest_exact _ _ _ He Hne), Hpath. now rewrite String.eqb_refl.
    + rewrite (pathTest_prefix _ _ _ Hc Hp Hne), Hpath.
      now rewrite startsWith_app, stripPrefix_app.
Qed.

(** ** Rules that route alike *)

Section SameRouting.
Context `{CaseMapping}.

Lemma sameRouting_compare (a a' b b' : RoutingRule) :
  sameRouting a b -> sameRouting a' b' -> compareRules a a' = compareRules b b'.
Proof.
  intros (Hp & Hc & Hr & _) (Hp' & Hc' & Hr' & _).
  rewrite !compareRules_verdict. congruence.
Qed.

Lemma sameRouting_scan (l l' : list RoutingRule) (request : IncomingRequest) :
  Forall2 sameRouting l l' -> scan l request = scan l' request.
Proof.
  apply scan_Forall2. intros r r' (_ & _ & _ & Ht & Hq).
  destruct (Hq request) as [Hm Hpt]. unfold passes, resultOf.
  now rewrite Hm, Hpt, Ht.
Qed.

Lemma sort_related (R : RoutingRule -> RoutingRule -> Prop) (l l' : list RoutingRule) :
  (forall r r', R r r' -> sameRouting r r') ->
  Forall2 R l l' ->
  Forall2 R (array_sort compareRules l) (array_sort compareRules l').
Proof.
  intros HR. apply array_sort_Forall2.
  intros a a' b b' Hab Hab'. apply sameRouting_compare; auto.
Qed.

Lemma route_related (R : RoutingRule -> RoutingRule -> Prop) (l l' : list RoutingRule)
  (request : IncomingRequest) :
  (forall r r', R r r' -> sameRouting r r') ->
  Forall2 R l l' ->
  eval (routeRequest request) (constructor l)
  = eval (routeRequest request) (constructor l').
Proof.
  intros HR Hl. rewrite !eval_routeRequest, !rules_constructor.
  apply sameRouting_scan. eapply Forall2_impl; [exact HR|].
  now apply sort_related.
Qed.

Lemma sameRouting_refl (r : RoutingRule) : sameRouting r r.
Proof. repeat split. Qed.

Lemma prefixChanged_sameRouting (r r' : RoutingRule) :
  prefixChanged r r' -> sameRouting r r'.
Proof.
  intros [->|(Hc & p & ->)]; [apply sameRouting_refl|].
  pose proof Hc as Hc'. apply exactClass_true in Hc'. destruct Hc' as (e & He & Hne).
  unfold sameRouting, priorityOf, exactClass, rankPath, methodMismatch, pathTest.
  simpl. rewrite He. destruct e as [|c e]; [now elim Hne|]. simpl.
  repeat split.
Qed.

Lemma blankDropped_truthy (v v' : option string) :
  blankDropped v v' -> truthy v = truthy v' /\ str_of v = str_of v'.
Proof. now intros [w|]. Qed.

Lemma path_expression_ext (e p e' p' : option string) :
  truthy e = truthy e' -> str_of e = str_of e' ->
  truthy p = truthy p' -> str_of p = str_of p' ->
  str_of (js_or (js_or e p) (Some "")) = str_of (js_or (js_or e' p') (Some "")).
Proof.
  destruct e as [[|c e]|], e' as [[|c' e']|], p as [[|d p]|], p' as [[|d' p']|];
    simpl; intros; congruence.
Qed.

Lemma blanksDropped_sameRouting (r r' : RoutingRule) :
  blanksDropped r r' -> sameRouting r r'.
Proof.
  intros [_ Ht Hp Hpre Hex Hm].
  apply blankDropped_truthy in Hpre, Hex, Hm.
  destruct Hpre as [Tp Sp], Hex as [Te Se], Hm as [Tm Sm].
  assert (rankPath r = rankPath r') as Hr.
  { rewrite <- !path_expression. now apply path_expression_ext. }
  unfold sameRouting. rewrite <- !truthy_exactPath.
  repeat split; try assumption.
  - unfold priorityOf. now rewrite Hp.
  - unfold methodMismatch. now rewrite Tm, Sm.
  - unfold pathTest. now rewrite Te, Se, Tp, Sp.
Qed.

End SameRouting.

(** ** The routing specification *)

(** C1. [routeRequest] answers with the target service and the forwarded
    path of the first rule of the sorted list that passes the method filter
    and the path test; what follows that rule in the list plays no part;
    and the answer is [null] exactly when no rule of the list passes. *)
Theorem routeRequest_first_match `{CaseMapping}
  (rs : list RoutingRule) (request : IncomingRequest) :
  let sorted := _rules (constructor rs) in
  let answer := eval (routeRequest request) (constructor rs) in
  (forall result,
     answer = Some result <->
     exists before rule after,
       sorted = (before ++ rule :: after)%list
       /\ Forall (fun r => passes r request = false) before
       /\ passes rule request = true
       /\ result = resultOf rule request)
  /\ (forall before rule after later,
        sorted = (before ++ rule :: after)%list ->
        Forall (fun r => passes r request = false) before ->
        passes rule request = true ->
        scan (before ++ rule :: later) request = answer)
  /\ (answer = None <-> Forall (fun r => passes r request = false) sorted).
Proof.
  cbv zeta. rewrite eval_routeRequest. repeat split.
  - apply scan_Some.
  - intros (before & rule & after & -> & Hb & Hp & ->). now apply scan_hit.
  - intros before rule after later -> Hb Hp. now rewrite !scan_hit.
  - apply scan_None.
  - apply scan_None.
Qed.

Lemma routeRequest_first_match_witness :
  eval (routeRequest (H := AsciiCase) (IncomingRequest.mk "/health" "POST"))
       (constructor Tests.mockRules)
  = Some (RoutingResult.mk "defaultService" "/health").
Proof.
  apply (proj1 (routeRequest_first_match (H := AsciiCase) Tests.mockRules
                  (IncomingRequest.mk "/health" "POST"))).
  exists (firstn 5 (_rules (constructor Tests.mockRules))),
         (Tests.rule "rule-root-default" (Some "/") None None "defaultService" 0),
         [].
  split; [reflexivity|]. split; [repeat constructor|]. split; reflexivity.
Defined.

(** C2, amended.  After construction or [updateRules] the rule list is a
    rearrangement of the given rules in which an earlier rule never ranks
    below a later one: its priority (0 when missing) is at least as high;
    at equal priority a rule with a non-empty [exactPath] is never behind a
    rule without one; at equal priority and class its path ([exactPath] if
    non-empty, else [pathPrefix], else the empty string) is at least as
    long; and rules tied on all three keep their original relative order. *)
Theorem sorted_rules_order (rs : list RoutingRule) (old : ApiGatewayRouter) :
  let sorted := _rules (constructor rs) in
  _rules (exec (updateRules rs) old) = sorted
  /\ Permutation sorted rs
  /\ (forall i j a b,
        (i < j)%nat -> nth_error sorted i = Some a -> nth_error sorted j = Some b ->
        priorityOf b <= priorityOf a
        /\ (priorityOf a = priorityOf b -> exactClass b = true -> exactClass a = true)
        /\ (priorityOf a = priorityOf b -> exactClass a = exactClass b ->
            (String.length (rankPath b) <= String.length (rankPath a))%nat))
  /\ (forall k, filter (tied k) sorted = filter (tied k) rs).
Proof.
  cbv zeta. rewrite rules_constructor, exec_updateRules. simpl _rules.
  split; [reflexivity|]. split; [apply array_sort_perm|]. split.
  - intros i j a b Hij Hi Hj. apply compareRules_ranksBefore.
    exact (StronglySorted_nth_error _ _ (array_sort_sorted compareRules rs)
             i j a b Hij Hi Hj).
  - intros k.
    assert (forall l, filter (tied k) l = filter (fun y => compareRules k y =? 0) l) as E.
    { apply filter_ext. intros y. symmetry. apply compareRules_tied. }
    rewrite !E. exact (array_sort_stable compareRules k rs).
Qed.

Lemma sorted_rules_order_witness :
  priorityOf (Tests.rule "rule-users-prefix" (Some "/users") None None "userService" 10)
  <= priorityOf (Tests.rule "rule-admin-post" None (Some "/admin") (Some "POST") "adminService" 15).
Proof.
  pose proof (sorted_rules_order Tests.mockRules (constructor [])) as (_ & _ & Hord & _).
  exact (proj1 (Hord 1%nat 2%nat _ _ ltac:(lia) eq_refl eq_refl)).
Defined.

(** C2 as stated fails: a rule whose [exactPath] is set to the empty string
    is sorted behind a rule of the same priority that has no [exactPath]. *)
Lemma blank_exactPath_sorted_as_prefix :
  RoutingRule.exactPath Edge.blankExact <> None
  /\ RoutingRule.exactPath Edge.abcPrefix = None
  /\ priorityOf Edge.blankExact = priorityOf Edge.abcPrefix
  /\ _rules (constructor [Edge.blankExact; Edge.abcPrefix])
     = [Edge.abcPrefix; Edge.blankExact].
Proof. repeat split. discriminate. Qed.

(** C3. A match on [exactPath] forwards the request path unchanged; a
    match on [pathPrefix] forwards what is left of the path after the
    prefix: ["/"] when nothing is left, the remainder when it starts with
    ["/"], and ["/"] followed by the remainder otherwise.  There is no
    other way to match.  Prefix [/users] turns [/users/123/profile] into
    [/123/profile] and [/users] into [/]. *)
Theorem forwarded_path (rule : RoutingRule) (request : IncomingRequest) :
  (forall forwarded,
     pathTest rule request = (true, forwarded) <->
     (exists e, RoutingRule.exactPath rule = Some e /\ e <> ""
                /\ IncomingRequest.path request = e
                /\ forwarded = IncomingRequest.path request)
     \/ (exactClass rule = false
         /\ exists p remainder,
              RoutingRule.pathPrefix rule = Some p /\ p <> ""
              /\ IncomingRequest.path request = p ++ remainder
              /\ forwarded = slashed remainder))
  /\ slashed "" = "/"
  /\ (forall remainder, slashed ("/" ++ remainder) = "/" ++ remainder)
  /\ (forall c remainder, c <> "/"%char ->
        slashed (String c remainder) = "/" ++ String c remainder)
  /\ (forall id m target priority request',
        let users := RoutingRule.mk id (Some "/users") None m target priority in
        (IncomingRequest.path request' = "/users/123/profile" ->
         pathTest users request' = (true, "/123/profile"))
        /\ (IncomingRequest.path request' = "/users" ->
            pathTest users request' = (true, "/"))).
Proof.
  split; [intros forwarded; apply pathTest_matches|].
  split; [reflexivity|]. split; [reflexivity|]. split.
  - intros c remainder Hc. simpl.
    destruct c as [[] [] [] [] [] [] [] []]; first [reflexivity | now elim Hc].
  - intros id m target priority request'. cbv zeta. unfold pathTest. simpl.
    split; intros ->; reflexivity.
Qed.

Lemma forwarded_path_witness :
  pathTest (Tests.rule "rule-users-prefix" (Some "/users") None None "userService" 10)
           (IncomingRequest.mk "/users/settings" "PUT")
  = (true, "/settings").
Proof.
  apply (proj1 (forwarded_path _ _)). right. split; [reflexivity|].
  exists "/users", "/settings". repeat split. discriminate.
Defined.

(** C4, amended.  A rule with a non-empty [exactPath] is matched on that
    path alone: its path test succeeds exactly on the requests whose path
    equals [exactPath], a path that only starts with its [pathPrefix] is
    not matched, and giving the rule any other [pathPrefix], or none,
    changes no answer of a router built from a rule set containing it. *)
Theorem exact_path_shadows_prefix `{CaseMapping} (rule : RoutingRule) (e : string) :
  RoutingRule.exactPath rule = Some e -> e <> "" ->
  (forall request,
     fst (pathTest rule request) = true <-> IncomingRequest.path request = e)
  /\ (forall request p remainder,
        RoutingRule.pathPrefix rule = Some p ->
        IncomingRequest.path request = p ++ remainder ->
        IncomingRequest.path request <> e ->
        fst (pathTest rule request) = false)
  /\ (forall p before after request,
        eval (routeRequest request)
             (constructor (before ++ with_pathPrefix rule p :: after))
        = eval (routeRequest request) (constructor (before ++ rule :: after))).
Proof.
  intros He Hne.
  assert (forall request,
            fst (pathTest rule request) = true <-> IncomingRequest.path request = e) as Hiff.
  { intros request. rewrite (pathTest_exact _ _ _ He Hne). simpl. apply String.eqb_eq. }
  split; [exact Hiff|]. split.
  - intros request p remainder _ _ Hdiff.
    destruct (fst (pathTest rule request)) eqn:Hf; [|reflexivity].
    apply Hiff in Hf. contradiction.
  - intros p before after request. symmetry.
    apply (route_related prefixChanged); [apply prefixChanged_sameRouting|].
    apply Forall2_app.
    + clear. induction before; constructor; [now left | assumption].
    + constructor.
      * right. split; [|now exists p]. apply exactClass_true. now exists e.
      * clear. induction after; constructor; [now left | assumption].
Qed.

Lemma exact_path_shadows_prefix_witness :
  (RoutingRule.exactPath Edge.exactWithPrefix = Some "/admin/config"
   /\ "/admin/config" <> "")
  /\ (fst (pathTest Edge.exactWithPrefix (IncomingRequest.mk "/admin/config" "GET")) = true
       <-> "/admin/config" = "/admin/config")
  /\ (fst (pathTest Edge.exactWithPrefix (IncomingRequest.mk "/admin/users" "GET")) = true
       <-> "/admin/users" = "/admin/config").
Proof.
  split; [split; [reflexivity | discriminate]|].
  pose proof (exact_path_shadows_prefix (H := AsciiCase) Edge.exactWithPrefix
                "/admin/config" eq_refl ltac:(discriminate)) as [Hiff _].
  split.
  - exact (Hiff (IncomingRequest.mk "/admin/config" "GET")).
  - exact (Hiff (IncomingRequest.mk "/admin/users" "GET")).
Defined.

(** C4 as stated fails: a rule that sets [exactPath] to the empty string
    and [pathPrefix] to [/users] matches [/users/1] by its prefix. *)
Lemma blank_exactPath_falls_to_prefix :
  RoutingRule.exactPath Edge.blankExactWithPrefix = Some ""
  /\ RoutingRule.pathPrefix Edge.blankExactWithPrefix = Some "/users"
  /\ Some (IncomingRequest.path (IncomingRequest.mk "/users/1" "GET"))
     <> RoutingRule.exactPath Edge.blankExactWithPrefix
  /\ pathTest Edge.blankExactWithPrefix (IncomingRequest.mk "/users/1" "GET") = (true, "/1")
  /\ eval (routeRequest (H := AsciiCase) (IncomingRequest.mk "/users/1" "GET"))
          (constructor [Edge.blankExactWithPrefix])
     = Some (RoutingResult.mk "u" "/1").
Proof. repeat split. discriminate. Qed.

(** C5. After [updateRules rs] the router holds the rules of [rs], each as
    often as [rs] lists it, and no other rule, whatever it held before: it
    is the router [new ApiGatewayRouter(rs)] and answers every request as
    that router does.  An answer comes from a rule of [rs] that passes the
    request, and the answer is [null] exactly when no rule of [rs] passes
    it; a rule of the previous rule set that [rs] lacks no longer
    matches. *)
Theorem updateRules_replaces `{CaseMapping}
  (old : ApiGatewayRouter) (rs : list RoutingRule) (request : IncomingRequest) :
  exec (updateRules rs) old = constructor rs
  /\ eval (routeRequest request) (exec (updateRules rs) old)
     = eval (routeRequest request) (constructor rs)
  /\ (forall oldRules,
        eval (routeRequest request) (exec (updateRules rs) (constructor oldRules))
        = eval (routeRequest request) (constructor rs))
  /\ Permutation (eval rules (exec (updateRules rs) old)) rs
  /\ (forall result,
        eval (routeRequest request) (exec (updateRules rs) old) = Some result ->
        exists rule,
          In rule rs /\ passes rule request = true /\ result = resultOf rule request)
  /\ (eval (routeRequest request) (exec (updateRules rs) old) = None <->
      forall rule, In rule rs -> passes rule request = false).
Proof.
  assert (forall o, exec (updateRules rs) o = constructor rs) as E.
  { intros o. unfold constructor. now rewrite !exec_updateRules. }
  split; [apply E|]. split; [now rewrite E|].
  split; [intros oldRules; now rewrite E|].
  rewrite eval_routeRequest, exec_updateRules.
  unfold eval, rules, read_rules. cbn [fst _rules].
  pose proof (array_sort_perm compareRules rs) as Hperm.
  split; [exact Hperm|]. split.
  - intros result Hs. apply scan_Some in Hs.
    destruct Hs as (before & rule & after & Hl & _ & Hp & ->).
    exists rule. split; [|now split].
    apply (Permutation_in _ Hperm). rewrite Hl. apply in_elt.
  - rewrite scan_None, Forall_forall. split; intros Hall rule Hin; apply Hall.
    + exact (Permutation_in _ (Permutation_sym Hperm) Hin).
    + exact (Permutation_in _ Hperm Hin).
Qed.

(** C6, amended.  A rule whose [method] is a non-empty string passes the
    method filter exactly when its method and the request's are equal after
    upper-casing, so it can match only then (method [GET] passes a [get]
    request); a rule without [method] passes the filter for every
    request. *)
Theorem method_filter `{CaseMapping} (rule : RoutingRule) (request : IncomingRequest) :
  (forall m, RoutingRule.method rule = Some m -> m <> "" ->
     (methodMismatch rule request = false
      <-> toUpperCase m = toUpperCase (IncomingRequest.method request))
     /\ (passes rule request = true ->
         toUpperCase m = toUpperCase (IncomingRequest.method request)))
  /\ (RoutingRule.method rule = None -> methodMismatch rule request = false)
  /\ (forall id prefix exact target priority path,
        methodMismatch (H := AsciiCase)
          (RoutingRule.mk id prefix exact (Some "GET") target priority)
          (IncomingRequest.mk path "get") = false).
Proof.
  split; [|split].
  - intros m Hm Hne.
    assert (methodMismatch rule request = false
            <-> toUpperCase m = toUpperCase (IncomingRequest.method request)) as Hiff.
    { unfold methodMismatch. rewrite Hm. simpl.
      apply String.eqb_neq in Hne. rewrite Hne. simpl.
      rewrite negb_false_iff. apply String.eqb_eq. }
    split; [exact Hiff|].
    unfold passes. intros Hp. apply andb_true_iff in Hp. destruct Hp as [Hp _].
    apply Hiff. now apply negb_true_iff.
  - intros Hm. unfold methodMismatch. now rewrite Hm.
  - reflexivity.
Qed.

Lemma method_filter_witness :
  methodMismatch (H := AsciiCase)
    (Tests.rule "rule-health-exact" None (Some "/health") (Some "GET") "healthService" 20)
    (IncomingRequest.mk "/health" "get") = false.
Proof.
  apply (proj1 (method_filter (H := AsciiCase)
                  (Tests.rule "rule-health-exact" None (Some "/health") (Some "GET")
                     "healthService" 20)
                  (IncomingRequest.mk "/health" "get"))
               "GET" eq_refl ltac:(discriminate)).
  reflexivity.
Defined.

(** C6 as stated fails: a rule that specifies the empty string as its
    method matches a [GET] request, and the two methods differ after
    upper-casing. *)
Lemma blank_method_matches_GET :
  RoutingRule.method Edge.blankMethod = Some ""
  /\ toUpperCase (CaseMapping := AsciiCase) "" <> toUpperCase (CaseMapping := AsciiCase) "GET"
  /\ eval (routeRequest (H := AsciiCase) (IncomingRequest.mk "/" "GET"))
          (constructor [Edge.blankMethod])
     = Some (RoutingResult.mk "m" "/").
Proof. repeat split. discriminate. Qed.

(** C7. A router built from no rules, or updated to no rules, answers
    [null] to every request, the request for [/] included. *)
Theorem empty_rules_no_match `{CaseMapping}
  (old : ApiGatewayRouter) (request : IncomingRequest) :
  eval (routeRequest request) (constructor []) = None
  /\ eval (routeRequest request) (exec (updateRules []) old) = None
  /\ forall m,
       eval (routeRequest (IncomingRequest.mk "/" m)) (constructor []) = None
       /\ eval (routeRequest (IncomingRequest.mk "/" m)) (exec (updateRules []) old) = None.
Proof. repeat split. Qed.

(** C8, amended.  The path test of a rule whose [exactPath] is [/]
    succeeds on the path [/] and on no other.  The path test of a prefix
    rule for [/] succeeds on every path that begins with [/], the path [/]
    and every sub-path included, and on no other; the path it forwards
    begins with [/], and is [/] for the path [/]. *)
Theorem root_rules (rule : RoutingRule) (request : IncomingRequest) :
  (RoutingRule.exactPath rule = Some "/" ->
   (fst (pathTest rule request) = true <-> IncomingRequest.path request = "/"))
  /\ (exactClass rule = false -> RoutingRule.pathPrefix rule = Some "/" ->
      (fst (pathTest rule request) = true
       <-> exists sub, IncomingRequest.path request = "/" ++ sub)
      /\ (fst (pathTest rule request) = true ->
          startsWith (snd (pathTest rule request)) "/" = true)
      /\ (IncomingRequest.path request = "/" -> pathTest rule request = (true, "/"))).
Proof.
  split.
  - intros He. rewrite (pathTest_exact _ _ _ He) by discriminate.
    simpl. apply String.eqb_eq.
  - intros Hc Hp. rewrite (pathTest_prefix _ _ _ Hc Hp) by discriminate.
    split; [|split].
    + rewrite <- startsWith_iff.
      now destruct (startsWith (IncomingRequest.path request) "/").
    + destruct (startsWith (IncomingRequest.path request) "/") eqn:Hs; [|discriminate].
      intros _. simpl. apply startsWith_split in Hs. destruct Hs as [sub ->].
      rewrite stripPrefix_app. apply slashed_startsWith.
    + now intros ->.
Qed.

Lemma root_rules_witness :
  fst (pathTest Edge.rootPrefix (IncomingRequest.mk "/subpath" "GET")) = true
  /\ startsWith (snd (pathTest Edge.rootPrefix (IncomingRequest.mk "/subpath" "GET"))) "/" = true.
Proof.
  pose proof (proj2 (root_rules Edge.rootPrefix (IncomingRequest.mk "/subpath" "GET"))
                eq_refl eq_refl) as (Hm & Hf & _).
  assert (fst (pathTest Edge.rootPrefix (IncomingRequest.mk "/subpath" "GET")) = true) as Ht.
  { apply Hm. now exists "subpath". }
  split; [exact Ht | exact (Hf Ht)].
Defined.

(** C8 as stated fails: the prefix rule for [/] does not match the request
    path [users], and a router holding only that rule answers [null]. *)
Lemma root_prefix_misses_unrooted_path :
  exactClass Edge.rootPrefix = false
  /\ RoutingRule.pathPrefix Edge.rootPrefix = Some "/"
  /\ pathTest Edge.rootPrefix (IncomingRequest.mk "users" "GET") = (false, "users")
  /\ eval (routeRequest (H := AsciiCase) (IncomingRequest.mk "users" "GET"))
          (constructor [Edge.rootPrefix])
     = None.
Proof. repeat split. Qed.

(** C9. [routeRequest] leaves the router as it found it, and so do any
    number of calls; asking again for the same request, with any other
    requests routed in between, gives the same answer. *)
Theorem routeRequest_pure `{CaseMapping}
  (this : ApiGatewayRouter) (request : IncomingRequest) (between : list IncomingRequest) :
  exec (routeRequest request) this = this
  /\ exec (routeAll between) this = this
  /\ eval (routeRequest request)
          (exec (routeAll between) (exec (routeRequest request) this))
     = eval (routeRequest request) this
  /\ eval (routeAll (request :: between ++ [request])) this
     = (eval (routeRequest request) this
        :: map (fun q => eval (routeRequest q) this) between
        ++ [eval (routeRequest request) this])%list.
Proof.
  assert (forall qs, routeAll qs this
                     = (map (fun q => eval (routeRequest q) this) qs, this)) as Hall.
  { induction qs as [|q qs IH]; [reflexivity|].
    simpl. unfold bind. rewrite run_routeRequest, IH. reflexivity. }
  split; [reflexivity|].
  split; [unfold exec; now rewrite Hall|].
  split; [unfold exec at 1; now rewrite Hall|].
  unfold eval at 1. rewrite Hall. simpl. now rewrite map_app.
Qed.

(** C10. An empty [method] passes the method filter for every request; a
    rule with an empty [exactPath] is not of the exact class and its path
    test is that of the rule without [exactPath]; and making any empty
    [method], [exactPath] or [pathPrefix] of any rules absent keeps every
    rule at its position in the sorted list and every answer of
    [routeRequest]. *)
Theorem blank_fields_as_absent `{CaseMapping} :
  (forall rule request,
     RoutingRule.method rule = Some "" -> methodMismatch rule request = false)
  /\ (forall id prefix m target priority,
        let blank := RoutingRule.mk id prefix (Some "") m target priority in
        let absent := RoutingRule.mk id prefix None m target priority in
        truthy (RoutingRule.exactPath blank) = false
        /\ (forall other, compareRules blank other = compareRules absent other
                          /\ compareRules other blank = compareRules other absent)
        /\ forall request, pathTest blank request = pathTest absent request)
  /\ (forall rs rs',
        Forall2 blanksDropped rs rs' ->
        Forall2 blanksDropped (_rules (constructor rs)) (_rules (constructor rs'))
        /\ forall request,
             eval (routeRequest request) (constructor rs)
             = eval (routeRequest request) (constructor rs')).
Proof.
  split; [|split].
  - intros rule request Hm. unfold methodMismatch. now rewrite Hm.
  - intros id prefix m target priority. cbv zeta.
    split; [reflexivity|]. split; [|reflexivity].
    intros other. split; reflexivity.
  - intros rs rs' Hrs. split.
    + rewrite !rules_constructor.
      apply sort_related; [apply blanksDropped_sameRouting | assumption].
    + intros request.
      apply (route_related blanksDropped); [apply blanksDropped_sameRouting | assumption].
Qed.

Lemma blank_fields_as_absent_witness :
  eval (routeRequest (H := AsciiCase) (IncomingRequest.mk "/users/1" "GET"))
       (constructor [Edge.blankMethod; Edge.blankExactWithPrefix])
  = eval (routeRequest (H := AsciiCase) (IncomingRequest.mk "/users/1" "GET"))
         (constructor [RoutingRule.mk "blank-method" (Some "/") None None "m" None;
                       RoutingRule.mk "both" (Some "/users") None None "u" None]).
Proof.
  apply (proj2 (proj2 (blank_fields_as_absent (H := AsciiCase)))).
  repeat constructor.
Defined.

(** ** The sorted list does not depend on the sorting algorithm *)

(** The comparator of [_sortRules] is consistent, so the language fixes
    what [sort] returns: a list in the order of the comparator that keeps
    tied rules in their original order is the list the router holds. *)
Theorem sorted_rules_unique (rs l : list RoutingRule) :
  StronglySorted (fun a b => compareRules a b <= 0) l ->
  (forall k, filter (tied k) l = filter (tied k) rs) ->
  l = _rules (constructor rs).
Proof.
  intros Hs Hf. rewrite rules_constructor. apply array_sort_unique; [exact _ | assumption |].
  intros k.
  assert (forall m, filter (fun y => compareRules k y =? 0) m = filter (tied k) m) as E.
  { apply filter_ext. intros y. apply compareRules_tied. }
  rewrite !E. apply Hf.
Qed.

Lemma sorted_rules_unique_witness :
  [Edge.abcPrefix; Edge.blankExact]
  = _rules (constructor [Edge.abcPrefix; Edge.blankExact]).
Proof.
  apply (sorted_rules_unique [Edge.abcPrefix; Edge.blankExact]
           [Edge.abcPrefix; Edge.blankExact]).
  - repeat constructor; vm_compute; discriminate.
  - reflexivity.
Defined.

(** ** More on sorting *)

Section ArraySortMore.
Context {A : Type} (cmp : A -> A -> Z) {HC : Consistent cmp}.

Lemma insert_stable_head (x : A) (l : list A) :
  Forall (fun z => cmp x z <= 0) l -> insert_stable cmp x l = x :: l.
Proof.
  intros [|y l' Hy _]; [reflexivity|]. simpl.
  destruct (Z.leb_spec (cmp x y) 0); [reflexivity | lia].
Qed.

Lemma array_sort_sorted_id (l : list A) :
  StronglySorted (fun a b => cmp a b <= 0) l -> array_sort cmp l = l.
Proof.
  induction 1 as [|x l Hs IH Hx]; [reflexivity|].
  simpl. rewrite IH. now apply insert_stable_head.
Qed.

Lemma array_sort_idempotent (l : list A) :
  array_sort cmp (array_sort cmp l) = array_sort cmp l.
Proof. apply array_sort_sorted_id. exact (array_sort_sorted cmp l). Qed.

Lemma filter_insert_dropped (f : A -> bool) (x : A) (l : list A) :
  f x = false -> filter f (insert_stable cmp x l) = filter f l.
Proof.
  intros Hx. induction l as [|y l IH]; simpl; [now rewrite Hx|].
  destruct (cmp x y <=? 0); simpl; [now rewrite Hx|]. now rewrite IH.
Qed.

Lemma filter_insert_kept (f : A -> bool) (x : A) (l : list A) :
  StronglySorted (fun a b => cmp a b <= 0) l ->
  f x = true ->
  filter f (insert_stable cmp x l) = insert_stable cmp x (filter f l).
Proof.
  intros Hs Hx. induction Hs as [|y l Hs IH Hy]; simpl; [now rewrite Hx|].
  destruct (Z.leb_spec (cmp x y) 0) as [Hle|Hgt].
  - simpl. rewrite Hx. symmetry. apply insert_stable_head.
    destruct (f y).
    + constructor; [assumption|]. apply Forall_forall. intros z Hz.
      apply filter_In in Hz. destruct Hz as [Hz _].
      rewrite Forall_forall in Hy. apply (cmp_trans x y z); auto.
    + apply Forall_forall. intros z Hz.
      apply filter_In in Hz. destruct Hz as [Hz _].
      rewrite Forall_forall in Hy. apply (cmp_trans x y z); auto.
  - simpl. rewrite IH. destruct (f y); [|reflexivity].
    simpl. destruct (Z.leb_spec (cmp x y) 0); [lia | reflexivity].
Qed.

(** Sorting commutes with deleting elements. *)
Lemma array_sort_filter (f : A -> bool) (l : list A) :
  array_sort cmp (filter f l) = filter f (array_sort cmp l).
Proof.
  induction l as [|x l IH]; [reflexivity|]. simpl.
  destruct (f x) eqn:Hx.
  - simpl. rewrite IH. symmetry.
    apply filter_insert_kept; [exact (array_sort_sorted cmp l) | assumption].
  - rewrite IH. symmetry. now apply filter_insert_dropped.
Qed.

Lemma StronglySorted_after (R : A -> A -> Prop) (l1 l2 : list A) (x : A) :
  StronglySorted R (l1 ++ x :: l2) -> Forall (R x) l2.
Proof.
  induction l1 as [|y l1 IH]; simpl; intros Hs; inversion Hs; subst; auto.
Qed.

End ArraySortMore.

(** ** More on the router *)

Lemma ranksBefore_compareRules (a b : RoutingRule) :
  ranksBefore a b -> compareRules a b <= 0.
Proof.
  rewrite compareRules_verdict, verdict_le. unfold ranksBefore, len.
  intros (Hp & He & Hl).
  destruct (Z.eq_dec (priorityOf b) (priorityOf a)) as [E|E]; [|left; lia].
  right. split; [assumption|]. symmetry in E.
  destruct (exactClass a) eqn:Ea, (exactClass b) eqn:Eb.
  - right. split; [reflexivity|]. specialize (Hl E eq_refl). lia.
  - left. now split.
  - specialize (He E eq_refl). discriminate.
  - right. split; [reflexivity|]. specialize (Hl E eq_refl). lia.
Qed.

Lemma ranksBefore_sorted (l : list RoutingRule) :
  StronglySorted ranksBefore l <->
  StronglySorted (fun a b => compareRules a b <= 0) l.
Proof.
  split; induction 1 as [|x l Hs IH Hx]; constructor; try assumption;
    (eapply Forall_impl; [|exact Hx]); intros y Hy.
  - now apply ranksBefore_compareRules.
  - now apply compareRules_ranksBefore.
Qed.

Lemma filter_tied (k : RoutingRule) (l : list RoutingRule) :
  filter (fun y => compareRules k y =? 0) l = filter (tied k) l.
Proof. apply filter_ext. intros y. apply compareRules_tied. Qed.

(** X2.  A rule list in which no rule ranks below a later one is kept as it is
    by [updateRules]; so handing the router its own [rules] back changes
    nothing. *)
Theorem updateRules_keeps_ranked (rs : list RoutingRule) (old : ApiGatewayRouter) :
  (StronglySorted ranksBefore rs -> _rules (exec (updateRules rs) old) = rs)
  /\ (let this := exec (updateRules rs) old in
      exec (updateRules (eval rules this)) this = this).
Proof.
  split.
  - intros Hs. rewrite exec_updateRules. simpl.
    apply (array_sort_sorted_id compareRules). now apply ranksBefore_sorted.
  - cbv zeta. rewrite !exec_updateRules. unfold eval, rules, read_rules. simpl.
    f_equal. exact (array_sort_idempotent compareRules rs).
Qed.

Lemma updateRules_keeps_ranked_witness :
  _rules (exec (updateRules [Edge.abcPrefix; Edge.blankExact]) (constructor Tests.mockRules))
  = [Edge.abcPrefix; Edge.blankExact].
Proof.
  apply (proj1 (updateRules_keeps_ranked [Edge.abcPrefix; Edge.blankExact]
                  (constructor Tests.mockRules))).
  repeat constructor; simpl; try discriminate; lia.
Defined.

(** X3.  Two rule lists give the same router exactly when they list every group
    of tied rules (same priority, same class, same path length) in the same
    order: the order of the input matters among tied rules and nowhere
    else. *)
Theorem constructor_order (rs rs' : list RoutingRule) :
  constructor rs = constructor rs' <->
  forall k, filter (tied k) rs = filter (tied k) rs'.
Proof.
  unfold constructor. rewrite !exec_updateRules. split.
  - intros [= E] k.
    rewrite <- !filter_tied.
    rewrite <- (array_sort_stable compareRules k rs),
            <- (array_sort_stable compareRules k rs').
    now rewrite E.
  - intros Hf. f_equal.
    apply (sorted_stable_unique compareRules).
    + exact (array_sort_sorted compareRules rs).
    + exact (array_sort_sorted compareRules rs').
    + intros k.
      rewrite (array_sort_stable compareRules k rs),
              (array_sort_stable compareRules k rs').
      rewrite !filter_tied. apply Hf.
Qed.

Lemma slashed_length (remainder : string) :
  (String.length (slashed remainder) <= S (String.length remainder))%nat
  /\ (1 <= String.length (slashed remainder))%nat.
Proof.
  destruct remainder as [|c r]; simpl; [lia|].
  destruct c as [[] [] [] [] [] [] [] []]; simpl; lia.
Qed.

Lemma length_append (a b : string) :
  String.length (a ++ b) = (String.length a + String.length b)%nat.
Proof. induction a as [|c a IH]; simpl; [reflexivity | now rewrite IH]. Qed.

(** X4.  The path forwarded to the target service is never longer than the
    request path, and begins with [/] whenever the request path does. *)
Theorem forwarded_path_shape `{CaseMapping}
  (this : ApiGatewayRouter) (request : IncomingRequest) (result : RoutingResult) :
  eval (routeRequest request) this = Some result ->
  (String.length (RoutingResult.targetPath result)
   <= String.length (IncomingRequest.path request))%nat
  /\ (startsWith (IncomingRequest.path request) "/" = true ->
      startsWith (RoutingResult.targetPath result) "/" = true).
Proof.
  rewrite eval_routeRequest. intros Hs.
  apply scan_Some in Hs. destruct Hs as (before & rule & after & _ & _ & Hp & ->).
  unfold passes in Hp. apply andb_true_iff in Hp. destruct Hp as [_ Hp].
  unfold resultOf. simpl.
  destruct (pathTest rule request) as [matched forwarded] eqn:Ht. simpl in *. subst matched.
  apply pathTest_matches in Ht.
  destruct Ht as [(e & _ & _ & _ & ->)|(_ & p & remainder & _ & Hne & Hpath & ->)].
  - split; [lia | auto].
  - split; [|intros _; apply slashed_startsWith].
    rewrite Hpath, length_append. destruct (slashed_length remainder) as [Hl _].
    destruct p as [|c p]; [now elim Hne|]. simpl. lia.
Qed.

Lemma forwarded_path_shape_witness :
  (String.length "/123/profile" <= String.length "/users/123/profile")%nat
  /\ (startsWith "/users/123/profile" "/" = true -> startsWith "/123/profile" "/" = true).
Proof.
  exact (forwarded_path_shape (H := AsciiCase) (constructor Tests.mockRules)
           (IncomingRequest.mk "/users/123/profile" "GET")
           (RoutingResult.mk "userService" "/123/profile") eq_refl).
Defined.

Lemma ranksBefore_refl (r : RoutingRule) : ranksBefore r r.
Proof. apply compareRules_ranksBefore. rewrite (cmp_refl r). lia. Qed.

(** X5.  The answer comes from a rule of the given rule set that passes the
    request and that no other passing rule of the set outranks; the answer
    is [null] exactly when no rule of the set passes. *)
Theorem winner_outranks_passing `{CaseMapping}
  (rs : list RoutingRule) (request : IncomingRequest) :
  (forall result,
     eval (routeRequest request) (constructor rs) = Some result ->
     exists rule,
       In rule rs
       /\ passes rule request = true
       /\ result = resultOf rule request
       /\ forall other, In other rs -> passes other request = true ->
                        ranksBefore rule other)
  /\ (eval (routeRequest request) (constructor rs) = None <->
      forall rule, In rule rs -> passes rule request = false).
Proof.
  rewrite eval_routeRequest, rules_constructor.
  pose proof (array_sort_perm compareRules rs) as Hperm.
  pose proof (array_sort_sorted compareRules rs) as Hsorted.
  split.
  - intros result Hs. apply scan_Some in Hs.
    destruct Hs as (before & rule & after & Hl & Hb & Hp & ->).
    exists rule. split; [|split; [assumption|split; [reflexivity|]]].
    + apply (Permutation_in _ Hperm). rewrite Hl. apply in_elt.
    + intros other Hin Hpo.
      apply (Permutation_in _ (Permutation_sym Hperm)) in Hin.
      rewrite Hl in Hin, Hsorted. apply in_app_or in Hin.
      destruct Hin as [Hin|[<-|Hin]].
      * rewrite Forall_forall in Hb. rewrite (Hb _ Hin) in Hpo. discriminate.
      * apply ranksBefore_refl.
      * apply compareRules_ranksBefore.
        apply StronglySorted_after in Hsorted. rewrite Forall_forall in Hsorted. auto.
  - rewrite scan_None, Forall_forall. split; intros Hall rule Hin; apply Hall.
    + exact (Permutation_in _ (Permutation_sym Hperm) Hin).
    + exact (Permutation_in _ Hperm Hin).
Qed.

Lemma winner_outranks_passing_witness :
  exists rule,
    In rule Tests.mockRules
    /\ passes (H := AsciiCase) rule (IncomingRequest.mk "/admin" "POST") = true
    /\ RoutingResult.mk "adminService" "/admin"
       = resultOf rule (IncomingRequest.mk "/admin" "POST")
    /\ forall other, In other Tests.mockRules ->
         passes (H := AsciiCase) other (IncomingRequest.mk "/admin" "POST") = true ->
         ranksBefore rule other.
Proof.
  exact (proj1 (winner_outranks_passing (H := AsciiCase) Tests.mockRules
                  (IncomingRequest.mk "/admin" "POST"))
               (RoutingResult.mk "adminService" "/admin") eq_refl).
Defined.

Lemma scan_filter `{CaseMapping} (keep : RoutingRule -> bool) (l : list RoutingRule)
  (request : IncomingRequest) :
  (forall r, In r l -> keep r = false -> passes r request = false) ->
  scan (filter keep l) request = scan l request.
Proof.
  induction l as [|r l IH]; intros Hk; [reflexivity|].
  assert (scan (filter keep l) request = scan l request) as IH'.
  { apply IH. intros r' Hin. apply Hk. now right. }
  simpl filter. destruct (keep r) eqn:Kr.
  - now rewrite !scan_cons, IH'.
  - rewrite scan_cons, (Hk r (or_introl eq_refl) Kr). exact IH'.
Qed.

Lemma dead_never_passes `{CaseMapping} (rule : RoutingRule) (request : IncomingRequest) :
  dead rule = true -> passes rule request = false.
Proof.
  unfold dead, passes, pathTest. intros Hd. apply andb_true_iff in Hd.
  destruct Hd as [He Hp]. apply negb_true_iff in He, Hp.
  rewrite He, Hp. simpl. apply andb_false_r.
Qed.

(** X6.  Rules that do not pass a request can be deleted from the rule set
    without changing the answer to it; a rule with neither a non-empty
    [exactPath] nor a non-empty [pathPrefix] passes no request, so deleting
    all such rules changes no answer at all. *)
Theorem unmatched_rules_removable `{CaseMapping}
  (rs : list RoutingRule) (request : IncomingRequest) :
  (forall keep : RoutingRule -> bool,
     (forall r, In r rs -> keep r = false -> passes r request = false) ->
     eval (routeRequest request) (constructor (filter keep rs))
     = eval (routeRequest request) (constructor rs))
  /\ eval (routeRequest request) (constructor (filter (fun r => negb (dead r)) rs))
     = eval (routeRequest request) (constructor rs).
Proof.
  assert (forall keep : RoutingRule -> bool,
            (forall r, In r rs -> keep r = false -> passes r request = false) ->
            eval (routeRequest request) (constructor (filter keep rs))
            = eval (routeRequest request) (constructor rs)) as Hgen.
  { intros keep Hk. rewrite !eval_routeRequest, !rules_constructor.
    rewrite (array_sort_filter compareRules). apply scan_filter.
    intros r Hin. apply Hk.
    exact (Permutation_in _ (array_sort_perm compareRules rs) Hin). }
  split; [exact Hgen|]. apply Hgen.
  intros r _ Hd. apply dead_never_passes. now apply negb_false_iff.
Qed.

Lemma unmatched_rules_removable_witness :
  eval (routeRequest (H := AsciiCase) (IncomingRequest.mk "/health" "POST"))
       (constructor (filter (fun r => negb (truthy (RoutingRule.method r))) Tests.mockRules))
  = eval (routeRequest (H := AsciiCase) (IncomingRequest.mk "/health" "POST"))
         (constructor Tests.mockRules).
Proof.
  apply (proj1 (unmatched_rules_removable (H := AsciiCase) Tests.mockRules
                  (IncomingRequest.mk "/health" "POST"))).
  intros r Hin Hk. simpl in Hin.
  repeat (destruct Hin as [<-|Hin]; [first [discriminate Hk | reflexivity]|]).
  contradiction.
Defined.

Lemma string_upper_idempotent (s : string) :
  string_upper (string_upper s) = string_upper s.
Proof.
  induction s as [|c s IH]; [reflexivity|]. simpl. rewrite IH. f_equal.
  destruct c as [[] [] [] [] [] [] [] []]; reflexivity.
Qed.

Lemma scan_method_case `{CaseMapping} (l : list RoutingRule) (path m m' : string) :
  toUpperCase m = toUpperCase m' ->
  scan l (IncomingRequest.mk path m) = scan l (IncomingRequest.mk path m').
Proof.
  intros Hm. induction l as [|r l IH]; [reflexivity|].
  rewrite !scan_cons, IH. unfold passes, resultOf, methodMismatch, pathTest.
  simpl. now rewrite Hm.
Qed.

(** X7.  The simulator upper-cases the method before it calls the router.  With
    a case mapping that leaves upper-cased text alone this changes no
    answer: the simulator answers as the router itself does on the method
    as typed. *)
Theorem handleRouteRequest_case `{CaseMapping}
  (this : ApiGatewayRouter) (requestPath requestMethod : string) :
  (forall s, toUpperCase (toUpperCase s) = toUpperCase s) ->
  handleRouteRequest requestPath requestMethod this
  = routeRequest (IncomingRequest.mk requestPath requestMethod) this.
Proof.
  intros Hidem. unfold handleRouteRequest. rewrite !run_routeRequest. f_equal.
  apply scan_method_case, Hidem.
Qed.


Lemma handleRouteRequest_case_witness :
  handleRouteRequest (H := AsciiCase) "/health" "get" (constructor Tests.mockRules)
  = routeRequest (H := AsciiCase) (IncomingRequest.mk "/health" "get")
      (constructor Tests.mockRules).
Proof.
  apply (handleRouteRequest_case (H := AsciiCase)). exact string_upper_idempotent.
Defined.

(** ** Numbers and [trim] *)


Lemma num_lt_false (a b : number) : num_lt a b = false <-> (b <= a)%Q.
Proof. unfold num_lt. rewrite negb_false_iff. apply Qle_bool_iff. Qed.


Lemma num_le_false (a b : number) : num_le a b = false <-> (b < a)%Q.
Proof.
  unfold num_le. split.
  - intros Hb. apply Qnot_le_lt. intros Hle. apply Qle_bool_iff in Hle. congruence.
  - intros Hlt. destruct (Qle_bool a b) eqn:E; [|reflexivity].
    apply Qle_bool_iff in E. now apply Qlt_not_le in Hlt.
Qed.

Lemma dbl_truthy_true (d : double) :
  dbl_truthy (Some d) = true <-> isZero d = false /\ isNaN d = false.
Proof. simpl. rewrite negb_true_iff. apply orb_false_iff. Qed.

Lemma dbl_truthy_false (d : double) :
  dbl_truthy (Some d) = false <-> isZero d = true \/ isNaN d = true.
Proof. simpl. rewrite negb_false_iff. apply orb_true_iff. Qed.

Lemma dbl_or_default (v : option double) (d : double) :
  (v = None -> dbl_or v d = d)
  /\ (forall n, v = Some n -> isZero n = true \/ isNaN n = true -> dbl_or v d = d)
  /\ (forall n, v = Some n -> isZero n = false -> isNaN n = false -> dbl_or v d = n).
Proof.
  unfold dbl_or. repeat split.
  - now intros ->.
  - intros n -> Hn. apply orb_true_iff in Hn. now rewrite Hn.
  - intros n -> Hz Hn. now rewrite Hz, Hn.
Qed.

(** [d <= 0] fails for the positive doubles and for [NaN], and for no
    other double. *)
Lemma dbl_le_zero (d : double) :
  dbl_le d 0%float = false <-> isNaN d = true \/ dbl_lt 0%float d = true.
Proof.
  unfold dbl_le, dbl_lt, isNaN, PrimFloat.is_nan.
  rewrite leb_spec, ltb_spec, eqb_spec.
  change (Prim2SF 0%float) with (S754_zero false).
  destruct (Prim2SF d) as [s|s| |s m e]; simpl.
  all: try destruct s; simpl.
  all: unfold SFleb, SFltb, SFeqb, SFcompare; simpl.
  all: rewrite ?Z.compare_refl;
    change (PosDef.Pos.compare_cont Eq) with Pos.compare in *;
    rewrite ?Pos.compare_refl; simpl.
  all: split; [intros E; first [discriminate E | now left | now right]
              | intros [E|E]; first [discriminate E | reflexivity]].
Qed.

Lemma nonEmpty_true (s : string) : nonEmpty s = true <-> s <> "".
Proof. unfold nonEmpty. rewrite negb_true_iff. apply String.eqb_neq. Qed.

Lemma nonEmpty_false (s : string) : nonEmpty s = false <-> s = "".
Proof. unfold nonEmpty. rewrite negb_false_iff. apply String.eqb_eq. Qed.

Lemma includes_In (array : list string) (s : string) :
  includes array s = true <-> In s array.
Proof.
  unfold includes. rewrite existsb_exists. split.
  - intros (x & Hin & Heq). apply String.eqb_eq in Heq. now subst.
  - intros Hin. exists s. split; [assumption | apply String.eqb_refl].
Qed.

Lemma trimStart_empty (s : string) :
  trimStart s = "" <-> Forall (fun c => isWhiteSpace c = true) (list_ascii_of_string s).
Proof.
  induction s as [|c s IH]; simpl; [split; [constructor | reflexivity]|].
  destruct (isWhiteSpace c) eqn:Hc.
  - rewrite IH. split; [now constructor | intros H; now inversion H].
  - split; [discriminate | intros H; inversion H; congruence].
Qed.

Lemma trimEnd_empty (s : string) :
  trimEnd s = "" <-> Forall (fun c => isWhiteSpace c = true) (list_ascii_of_string s).
Proof.
  induction s as [|c s IH]; simpl; [split; [constructor | reflexivity]|].
  destruct (trimEnd s) as [|d t] eqn:Ht.
  - destruct (isWhiteSpace c) eqn:Hc.
    + split; [intros _; constructor; [assumption | now apply IH] | reflexivity].
    + split; [discriminate | intros H; inversion H; congruence].
  - split; [discriminate|]. intros H. inversion H as [|? ? _ Hs]; subst.
    apply IH in Hs. discriminate.
Qed.

Lemma trimStart_suffix (s : string) :
  exists stripped,
    list_ascii_of_string s = (stripped ++ list_ascii_of_string (trimStart s))%list
    /\ Forall (fun c => isWhiteSpace c = true) stripped.
Proof.
  induction s as [|c s IH]; simpl; [now exists []|].
  destruct (isWhiteSpace c) eqn:Hc.
  - destruct IH as (stripped & E & Hs). exists (c :: stripped).
    split; [simpl; now rewrite E | now constructor].
  - now exists [].
Qed.

(** [s.trim().length === 0] says that every code unit of [s] is white
    space. *)
Lemma trim_blank (s : string) :
  (String.length (trim s) =? 0)%nat = false <-> hasText s.
Proof.
  unfold trim, hasText. rewrite Nat.eqb_neq.
  assert (String.length (trimEnd (trimStart s)) = 0%nat <-> trimEnd (trimStart s) = "") as ->.
  { destruct (trimEnd (trimStart s)); simpl; split; (reflexivity || discriminate). }
  rewrite trimEnd_empty. destruct (trimStart_suffix s) as (stripped & E & Hs).
  split.
  - intros Hn.
    assert (~ Forall (fun c => isWhiteSpace c = true) (list_ascii_of_string s)) as Hn'.
    { intros Hall. apply Hn. rewrite E in Hall. now apply Forall_app in Hall. }
    apply neg_Forall_Exists_neg in Hn'.
    + apply Exists_exists in Hn'. destruct Hn' as (c & Hin & Hc).
      exists c. split; [assumption | now apply not_true_is_false].
    + intros c. destruct (isWhiteSpace c); [now left | right; discriminate].
  - intros (c & Hin & Hc) Hall.
    assert (Forall (fun c => isWhiteSpace c = true) (list_ascii_of_string s)) as Hall'.
    { rewrite E. apply Forall_app. now split. }
    rewrite Forall_forall in Hall'. rewrite (Hall' c Hin) in Hc. discriminate.
Qed.

(** ** The property service *)

Module PropertyServiceFacts.
Import Supabase PropertyService.

Lemma blank_false (s : string) :
  negb (nonEmpty s) || (String.length (trim s) =? 0)%nat = false <-> hasText s.
Proof.
  rewrite orb_false_iff, negb_false_iff, trim_blank, nonEmpty_true. split.
  - now intros [_ Ht].
  - intros Ht. split; [|assumption]. intros ->. now destruct Ht as (c & [] & _).
Qed.

(** X8.  The request is accepted exactly when the owner id is not empty, the
    title, address, city, state and ZIP code each hold more than white
    space, the property type is one of the six known ones, bedrooms and
    bathrooms are not negative, and the price per night and the number of
    guests are positive; a rejected request always carries a message. *)
Theorem validatePropertyData_accepts (propertyData : CreatePropertyRequest.t) :
  (isValid (validatePropertyData propertyData) = true <->
   CreatePropertyRequest.ownerId propertyData <> ""
   /\ hasText (CreatePropertyRequest.title propertyData)
   /\ hasText (CreatePropertyRequest.address propertyData)
   /\ hasText (CreatePropertyRequest.city propertyData)
   /\ hasText (CreatePropertyRequest.state propertyData)
   /\ hasText (CreatePropertyRequest.zipCode propertyData)
   /\ In (CreatePropertyRequest.propertyType propertyData) propertyTypes
   /\ (0 <= CreatePropertyRequest.bedrooms propertyData)%Q
   /\ (0 <= CreatePropertyRequest.bathrooms propertyData)%Q
   /\ (0 < CreatePropertyRequest.pricePerNight propertyData)%Q
   /\ (0 < CreatePropertyRequest.maxGuests propertyData)%Q)
  /\ (isValid (validatePropertyData propertyData) = false <->
      exists message, error (validatePropertyData propertyData) = Some message).
Proof.
  unfold validatePropertyData.
  rewrite <- nonEmpty_true, <- !blank_false, <- includes_In,
          <- !num_lt_false, <- !num_le_false.
  generalize (includes propertyTypes (CreatePropertyRequest.propertyType propertyData)).
  intros known.
  repeat
    match goal with
    | |- context [if negb ?b then invalid _ else _] =>
        destruct b; cbn [negb];
        [|split; [split; [discriminate | intros ?; intuition discriminate]
                 |split; [intros _; eexists; reflexivity | reflexivity]]]
    | |- context [if ?b then invalid _ else _] =>
        destruct b;
        [split; [split; [discriminate | intros ?; intuition discriminate]
                |split; [intros _; eexists; reflexivity | reflexivity]]|]
    end.
  split; [split; [intros _; repeat split | reflexivity]
         |split; [discriminate | intros [? [=]]]].
Qed.

Lemma validatePropertyData_accepts_witness :
  CreatePropertyRequest.ownerId PropertyTests.beachHouse <> ""
  /\ hasText (CreatePropertyRequest.title PropertyTests.beachHouse)
  /\ hasText (CreatePropertyRequest.address PropertyTests.beachHouse)
  /\ hasText (CreatePropertyRequest.city PropertyTests.beachHouse)
  /\ hasText (CreatePropertyRequest.state PropertyTests.beachHouse)
  /\ hasText (CreatePropertyRequest.zipCode PropertyTests.beachHouse)
  /\ In (CreatePropertyRequest.propertyType PropertyTests.beachHouse) propertyTypes
  /\ (0 <= CreatePropertyRequest.bedrooms PropertyTests.beachHouse)%Q
  /\ (0 <= CreatePropertyRequest.bathrooms PropertyTests.beachHouse)%Q
  /\ (0 < CreatePropertyRequest.pricePerNight PropertyTests.beachHouse)%Q
  /\ (0 < CreatePropertyRequest.maxGuests PropertyTests.beachHouse)%Q.
Proof.
  exact (proj1 (proj1 (validatePropertyData_accepts PropertyTests.beachHouse)) eq_refl).
Defined.

Lemma validatePropertyData_message (propertyData : CreatePropertyRequest.t) :
  isValid (validatePropertyData propertyData) = false ->
  exists message, error (validatePropertyData propertyData) = Some message.
Proof.
  unfold validatePropertyData.
  repeat
    match goal with
    | |- context [if ?b then invalid _ else _] =>
        destruct b; [intros _; eexists; reflexivity|]
    end.
  discriminate.
Qed.

Lemma country_default (country : option string) :
  str_of (js_or country (Some "US")) <> ""
  /\ (forall c, country = Some c -> c <> "" -> str_of (js_or country (Some "US")) = c)
  /\ (country = None \/ country = Some "" -> str_of (js_or country (Some "US")) = "US").
Proof.
  destruct country as [[|a c]|]; unfold js_or; simpl; repeat split;
    try discriminate; try reflexivity.
  all: first [ intros c' [= <-] Hc; first [now elim Hc | reflexivity]
             | intros [|]; discriminate
             | intros ? [=] ].
Qed.

Lemma num_or_default (v : option number) (d : number) :
  (v = None -> num_or v d = d)
  /\ (forall n, v = Some n -> (n == 0)%Q -> num_or v d = d)
  /\ (forall n, v = Some n -> ~ (n == 0)%Q -> num_or v d = n).
Proof.
  unfold num_or. repeat split.
  - now intros ->.
  - intros n -> Hn. apply Qeq_bool_iff in Hn. now rewrite Hn.
  - intros n -> Hn. destruct (Qeq_bool n 0) eqn:E; [|reflexivity].
    apply Qeq_bool_iff in E. contradiction.
Qed.

(** X9.  [createProperty] turns to the database exactly for the requests that
    pass validation, and a rejected request is answered with the message of
    the validation.  The one chain it awaits inserts a single row into
    [properties]: a draft of the given owner, with a country that is never
    empty ([US] unless a non-empty one is given), a deposit and a cleaning
    fee that are numbers (0 unless a non-zero one is given) and an array
    of amenities; the id, the featured flag and the dates are left to the
    database. *)
Theorem createProperty_inserts `{JsEngine} (propertyData : CreatePropertyRequest.t) :
  (isValid (validatePropertyData propertyData) = false ->
   createProperty propertyData
   = Return (failure (error (validatePropertyData propertyData))))
  /\ (forall q,
        queryOf (createProperty propertyData) = Some q ->
        isValid (validatePropertyData propertyData) = true
        /\ from q = "properties"
        /\ exists row,
             steps q = [Insert row; Select None; Single]
             /\ get "status" row = Some (VString "draft")
             /\ get "owner_id" row
                = Some (VString (CreatePropertyRequest.ownerId propertyData))
             /\ (exists country,
                   get "country" row = Some (VString country) /\ country <> ""
                   /\ (forall c, CreatePropertyRequest.country propertyData = Some c ->
                                 c <> "" -> country = c))
             /\ (exists deposit fee,
                   get "security_deposit" row = Some (VNumber deposit)
                   /\ get "cleaning_fee" row = Some (VNumber fee)
                   /\ (CreatePropertyRequest.securityDeposit propertyData = None ->
                       deposit = 0%Q)
                   /\ (CreatePropertyRequest.cleaningFee propertyData = None ->
                       fee = 0%Q))
             /\ (exists amenities, get "amenities" row = Some (VStrings amenities))
             /\ get "id" row = None
             /\ get "is_featured" row = None
             /\ get "created_at" row = None
             /\ get "updated_at" row = None)
  /\ (isValid (validatePropertyData propertyData) = true ->
      queryOf (createProperty propertyData)
      = Some {| from := "properties";
                steps := [Insert (insertRow propertyData); Select None; Single] |}).
Proof.
  unfold createProperty. split; [|split].
  - now intros ->.
  - intros q. destruct (isValid (validatePropertyData propertyData)); simpl; [|discriminate].
    intros [= <-]. split; [reflexivity|]. split; [reflexivity|].
    exists (insertRow propertyData). simpl.
    split; [reflexivity|]. split; [reflexivity|]. split; [reflexivity|].
    destruct (country_default (CreatePropertyRequest.country propertyData)) as (Hc1 & Hc2 & _).
    split; [eexists; split; [reflexivity | split; [exact Hc1 | exact Hc2]]|].
    split.
    { eexists. eexists. split; [reflexivity|]. split; [reflexivity|].
      split; intros E; exact (proj1 (num_or_default _ _) E). }
    split; [eexists; reflexivity|]. repeat split.
  - now intros ->.
Qed.

Lemma createProperty_inserts_witness :
  isValid (validatePropertyData PropertyTests.beachHouse) = true
  /\ from {| from := "properties";
             steps := [Insert (insertRow PropertyTests.beachHouse); Select None; Single] |}
     = "properties".
Proof.
  destruct (proj1 (proj2 (createProperty_inserts (H := PropertyTests.V8)
                            PropertyTests.beachHouse))
              {| from := "properties";
                 steps := [Insert (insertRow PropertyTests.beachHouse); Select None; Single] |}
              eq_refl) as (Hv & Hf & _).
  now split.
Defined.

Lemma consistent_failure (message : string) : consistent (failure (Some message)).
Proof.
  split; [discriminate|]. intros _. split; [now exists message | now split].
Qed.

Lemma consistent_caught (thrown : Thrown) : consistent (caught thrown).
Proof. apply consistent_failure. Qed.

Lemma consistent_mapped `{JsEngine} (outcome : Outcome (option DbProperty.t)) :
  consistent (mapped outcome)
  /\ (ServiceResponse.success (mapped outcome) = true ->
      exists row,
        outcome = Resolved (Some row) None
        /\ ServiceResponse.property (mapped outcome)
           = Some (mapDatabasePropertyToProperty row)).
Proof.
  destruct outcome as [thrown|[row|] [message|]]; simpl;
    (split; [first [apply consistent_failure | now split]|]);
    try discriminate.
  intros _. now exists row.
Qed.

Lemma consistent_acknowledged (outcome : Outcome unit) :
  consistent (acknowledged outcome)
  /\ (ServiceResponse.success (acknowledged outcome) = true ->
      exists u, outcome = Resolved u None).
Proof.
  destruct outcome as [thrown|u [message|]]; simpl;
    (split; [first [apply consistent_failure | now split]|]);
    try discriminate.
  intros _. now exists u.
Qed.

Lemma consistent_listed (outcome : Outcome (option (list DbProperty.t))) :
  consistent (listed outcome)
  /\ (ServiceResponse.success (listed outcome) = true ->
      exists data,
        outcome = Resolved data None
        /\ ServiceResponse.properties (listed outcome)
           = Some match data with
                  | Some rows => map mapDatabasePropertyToProperty rows
                  | None => []
                  end).
Proof.
  destruct outcome as [thrown|data [message|]]; simpl;
    (split; [first [apply consistent_failure | now split]|]);
    try discriminate.
  intros _. now exists data.
Qed.

(** X10.  Against any database, every method answers with a success that has
    no error or with a failure that has a message and no payload.  A
    success of [createProperty], [getProperty] or [updateProperty] carries
    the property mapped from the row the database gave; a success of
    [searchProperties] or [getPropertiesByOwner] carries a list, empty when
    the database gave [null]. *)
Theorem responses_consistent `{JsEngine} (db : Database DbProperty.t) :
  (forall propertyData,
     let r := run db (createProperty propertyData) in
     consistent r /\ (ServiceResponse.success r = true -> ServiceResponse.property r <> None))
  /\ (forall propertyId,
        let r := run db (getProperty propertyId) in
        consistent r /\ (ServiceResponse.success r = true -> ServiceResponse.property r <> None))
  /\ (forall propertyId updateData,
        let r := run db (updateProperty propertyId updateData) in
        consistent r /\ (ServiceResponse.success r = true -> ServiceResponse.property r <> None))
  /\ (forall propertyId, consistent (run db (deleteProperty propertyId)))
  /\ (forall filters,
        let r := run db (searchProperties filters) in
        consistent r /\ (ServiceResponse.success r = true -> ServiceResponse.properties r <> None))
  /\ (forall ownerId,
        let r := run db (getPropertiesByOwner ownerId) in
        consistent r /\ (ServiceResponse.success r = true -> ServiceResponse.properties r <> None))
  /\ (forall propertyId status, consistent (run db (updatePropertyStatus propertyId status))).
Proof.
  assert (forall outcome : Outcome (option DbProperty.t),
            ServiceResponse.success (mapped outcome) = true ->
            ServiceResponse.property (mapped outcome) <> None) as Hmapped.
  { intros outcome Hs. apply consistent_mapped in Hs. destruct Hs as (row & _ & ->). discriminate. }
  assert (forall outcome : Outcome (option (list DbProperty.t)),
            ServiceResponse.success (listed outcome) = true ->
            ServiceResponse.properties (listed outcome) <> None) as Hlisted.
  { intros outcome Hs. apply consistent_listed in Hs. destruct Hs as (data & _ & ->). discriminate. }
  refine (conj _ (conj _ (conj _ (conj _ (conj _ (conj _ _)))))).
  - intros propertyData. cbv zeta. unfold createProperty.
    destruct (isValid (validatePropertyData propertyData)) eqn:Hv; simpl.
    + split; [apply consistent_mapped | apply Hmapped].
    + destruct (validatePropertyData_message _ Hv) as [message ->].
      split; [apply consistent_failure | discriminate].
  - intros propertyId. cbv zeta. unfold getProperty.
    destruct (nonEmpty propertyId); simpl;
      [|split; [apply consistent_failure | discriminate]].
    destruct (onSingle db _) as [thrown|[row|] [message|]]; simpl;
      (split; [first [apply consistent_failure | now split] | discriminate]).
  - intros propertyId updateData. cbv zeta. unfold updateProperty.
    repeat match goal with
           | |- context [if ?b then Return _ else _] =>
               destruct b; simpl; [split; [apply consistent_failure | discriminate]|]
           end.
    split; [apply consistent_mapped | apply Hmapped].
  - intros propertyId. unfold deleteProperty. destruct (nonEmpty propertyId); simpl;
      [apply consistent_acknowledged | apply consistent_failure].
  - intros filters. cbv zeta. simpl. split; [apply consistent_listed | apply Hlisted].
  - intros ownerId. cbv zeta. unfold getPropertiesByOwner.
    destruct (nonEmpty ownerId); simpl;
      [split; [apply consistent_listed | apply Hlisted]
      |split; [apply consistent_failure | discriminate]].
  - intros propertyId status. unfold updatePropertyStatus.
    destruct (nonEmpty propertyId); cbn -[includes]; [|apply consistent_failure].
    destruct (includes statuses status); cbn;
      [apply consistent_acknowledged | apply consistent_failure].
Qed.












Lemma filter_whenString (f : Step -> bool) (v : option string) (step : string -> Step) :
  (forall x, f (step x) = false) -> filter f (whenString v step) = [].
Proof.
  intros Hf. destruct v as [x|]; simpl; [|reflexivity].
  destruct (nonEmpty x); simpl; [now rewrite Hf | reflexivity].
Qed.

Lemma filter_whenDefined {T : Type} (f : Step -> bool) (v : option T) (step : T -> Step) :
  (forall x, f (step x) = false) -> filter f (whenDefined v step) = [].
Proof. intros Hf. destruct v as [x|]; simpl; [now rewrite Hf | reflexivity]. Qed.

Lemma filter_whenNumber (f : Step -> bool) (v : option double) (step : double -> Step) :
  (forall x, f (step x) = false) -> filter f (whenNumber v step) = [].
Proof.
  intros Hf. destruct v as [x|]; cbn [whenNumber]; [|reflexivity].
  destruct (dbl_truthy (Some x)); simpl; [now rewrite Hf | reflexivity].
Qed.

Lemma filter_whenNumber_kept (f : Step -> bool) (v : option double) (step : double -> Step) :
  (forall x, f (step x) = true) -> filter f (whenNumber v step) = whenNumber v step.
Proof.
  intros Hf. destruct v as [x|]; cbn [whenNumber]; [|reflexivity].
  destruct (dbl_truthy (Some x)); simpl; [now rewrite Hf | reflexivity].
Qed.

Lemma In_whenNumber (v : option double) (step : double -> Step) (x : Step) :
  In x (whenNumber v step) <->
  exists n, v = Some n /\ isZero n = false /\ isNaN n = false /\ x = step n.
Proof.
  destruct v as [n|]; cbn [whenNumber].
  - destruct (dbl_truthy (Some n)) eqn:E.
    + apply dbl_truthy_true in E. destruct E as [Hz Hn]. split.
      * intros [<-|[]]. now exists n.
      * intros (m & [= <-] & _ & _ & ->). now left.
    + apply dbl_truthy_false in E. split; [contradiction|].
      intros (m & [= <-] & Hz & Hn & _). destruct E; congruence.
  - split; [contradiction | intros (m & [=] & _)].
Qed.

Lemma steps_status (filters : PropertySearchFilters.t) :
  filter isStatusFilter (steps (searchQuery filters))
  = [Eq "status"
       (VString (if truthy (PropertySearchFilters.status filters)
                 then str_of (PropertySearchFilters.status filters)
                 else "active"))].
Proof.
  unfold searchQuery. cbn [steps]. rewrite !filter_app.
  rewrite !filter_whenString by reflexivity.
  rewrite !filter_whenDefined by reflexivity.
  rewrite !filter_whenNumber by reflexivity.
  now destruct (truthy (PropertySearchFilters.status filters)).
Qed.

Lemma steps_limit (filters : PropertySearchFilters.t) :
  filter isLimit (steps (searchQuery filters))
  = whenNumber (PropertySearchFilters.limit filters) Limit.
Proof.
  unfold searchQuery. cbn [steps]. rewrite !filter_app.
  rewrite !filter_whenString by reflexivity.
  rewrite !filter_whenDefined by reflexivity.
  rewrite (filter_whenNumber_kept isLimit (PropertySearchFilters.limit filters))
    by reflexivity.
  rewrite (filter_whenNumber isLimit (PropertySearchFilters.offset filters))
    by reflexivity.
  destruct (truthy (PropertySearchFilters.status filters)); simpl; apply app_nil_r.
Qed.

Lemma steps_range (filters : PropertySearchFilters.t) :
  filter isRange (steps (searchQuery filters))
  = whenNumber (PropertySearchFilters.offset filters)
      (fun offset =>
         Range offset (offset + dbl_or (PropertySearchFilters.limit filters) 10 - 1)%float).
Proof.
  unfold searchQuery. cbn [steps]. rewrite !filter_app.
  rewrite !filter_whenString by reflexivity.
  rewrite !filter_whenDefined by reflexivity.
  rewrite (filter_whenNumber isRange (PropertySearchFilters.limit filters))
    by reflexivity.
  rewrite (filter_whenNumber_kept isRange (PropertySearchFilters.offset filters))
    by reflexivity.
  destruct (truthy (PropertySearchFilters.status filters)); simpl; apply app_nil_r.
Qed.

(** X12.  [searchProperties] always turns to the database, with one chain on
    [properties] that selects every column first and orders by creation
    date, newest first, last.  The chain has exactly one filter on the
    status: the given status when it is not empty, [active] otherwise.  It
    limits the rows exactly when a limit other than a zero and [NaN] is
    given, and asks for a range exactly when an offset other than a zero
    and [NaN] is given: the range starts at the offset and ends at
    [offset + size - 1] as computed in double precision, where [size] is
    the limit, or 10 when the limit is absent, a zero or [NaN]. *)
Theorem searchProperties_query (filters : PropertySearchFilters.t) :
  let q := searchQuery filters in
  queryOf (searchProperties filters) = Some q
  /\ from q = "properties"
  /\ hd_error (steps q) = Some (Select (Some "*"))
  /\ last (steps q) Single = Order "created_at" false
  /\ filter isStatusFilter (steps q)
     = [Eq "status"
          (VString (if truthy (PropertySearchFilters.status filters)
                    then str_of (PropertySearchFilters.status filters)
                    else "active"))]
  /\ (forall count,
        In (Limit count) (steps q) <->
        PropertySearchFilters.limit filters = Some count
        /\ isZero count = false /\ isNaN count = false)
  /\ (forall first last,
        In (Range first last) (steps q) <->
        PropertySearchFilters.offset filters = Some first
        /\ isZero first = false /\ isNaN first = false
        /\ exists size,
             last = (first + size - 1)%float
             /\ (forall limit, PropertySearchFilters.limit filters = Some limit ->
                               isZero limit = false -> isNaN limit = false ->
                               size = limit)
             /\ (PropertySearchFilters.limit filters = None -> size = 10%float)
             /\ (forall limit, PropertySearchFilters.limit filters = Some limit ->
                               isZero limit = true \/ isNaN limit = true ->
                               size = 10%float)).
Proof.
  cbv zeta. split; [reflexivity|]. split; [reflexivity|]. split; [reflexivity|].
  split.
  { unfold searchQuery. cbn [steps]. rewrite !app_assoc. apply last_last. }
  split; [apply steps_status|]. split.
  - intros count.
    assert (In (Limit count) (steps (searchQuery filters))
            <-> In (Limit count) (filter isLimit (steps (searchQuery filters)))) as ->.
    { rewrite filter_In. simpl. tauto. }
    rewrite steps_limit, In_whenNumber. split.
    + intros (n & Hn & Hz & Hnan & [= ->]). now repeat split.
    + intros (Hn & Hz & Hnan). now exists count.
  - intros first last.
    assert (In (Range first last) (steps (searchQuery filters))
            <-> In (Range first last) (filter isRange (steps (searchQuery filters)))) as ->.
    { rewrite filter_In. simpl. tauto. }
    rewrite steps_range, In_whenNumber.
    destruct (dbl_or_default (PropertySearchFilters.limit filters) 10%float)
      as (D1 & D2 & D3).
    split.
    + intros (n & Hn & Hz & Hnan & [= -> ->]).
      split; [assumption|]. split; [assumption|]. split; [assumption|].
      exists (dbl_or (PropertySearchFilters.limit filters) 10%float).
      split; [reflexivity|]. split; [|split]; auto.
    + intros (Ho & Hz & Hnan & size & -> & S1 & S2 & S3). exists first.
      split; [assumption|]. split; [assumption|]. split; [assumption|].
      do 3 f_equal.
      destruct (PropertySearchFilters.limit filters) as [limit|] eqn:El.
      * destruct (isZero limit) eqn:Ez.
        -- rewrite (S3 limit eq_refl (or_introl Ez)).
           now rewrite (D2 limit eq_refl (or_introl Ez)).
        -- destruct (isNaN limit) eqn:En.
           ++ rewrite (S3 limit eq_refl (or_intror En)).
              now rewrite (D2 limit eq_refl (or_intror En)).
           ++ rewrite (S1 limit eq_refl Ez En).
              now rewrite (D3 limit eq_refl Ez En).
      * rewrite (S2 eq_refl). now rewrite (D1 eq_refl).
Qed.

(** A page of ten from row 20 ends at row 29.  At [2^53] the sum is
    rounded: with the limit 2 the range ends where it starts.  An offset or
    a limit that is [NaN] adds no step. *)
Example test_range_of_page :
  In (Range 20%float 29%float)
     (steps (searchQuery
               (PropertySearchFilters.mk None None None None None None None None None
                  None None None None (Some 10%float) (Some 20%float))))
  /\ In (Range 9007199254740992%float 9007199254740992%float)
        (steps (searchQuery
                  (PropertySearchFilters.mk None None None None None None None None None
                     None None None None (Some 2%float) (Some 9007199254740992%float))))
  /\ steps (searchQuery
              (PropertySearchFilters.mk None None None None None None None None None
                 None None None None (Some PrimFloat.nan) (Some PrimFloat.nan)))
     = [Select (Some "*"); Eq "status" (VString "active"); Order "created_at" false].
Proof. split; [|split]; [simpl; tauto | simpl; tauto | reflexivity]. Qed.

(** X13.  No chain that reads, updates or deletes a single property, and no
    chain that lists an owner's properties, is built for an empty id: the
    method then answers with its "... is required" failure against every
    database, and otherwise the chain carries an equality filter on that
    id.  [updatePropertyStatus] writes nothing but the [status] column, and
    only one of the four known statuses. *)
Theorem identified_rows_only `{JsEngine} :
  (forall propertyId,
     (propertyId = "" -> getProperty propertyId
                         = Return (failure (Some "Property ID is required")))
     /\ (forall q, queryOf (getProperty propertyId) = Some q ->
          propertyId <> ""
          /\ q = {| from := "properties";
                    steps := [Select (Some "*"); Eq "id" (VString propertyId); Single] |}))
  /\ (forall propertyId updateData,
        (propertyId = "" -> updateProperty propertyId updateData
                            = Return (failure (Some "Property ID is required")))
        /\ (forall q, queryOf (updateProperty propertyId updateData) = Some q ->
             propertyId <> "" /\ In (Eq "id" (VString propertyId)) (steps q)))
  /\ (forall propertyId,
        (propertyId = "" -> deleteProperty propertyId
                            = Return (failure (Some "Property ID is required")))
        /\ (forall q, queryOf (deleteProperty propertyId) = Some q ->
             propertyId <> ""
             /\ q = {| from := "properties";
                       steps := [Delete; Eq "id" (VString propertyId)] |}))
  /\ (forall ownerId,
        (ownerId = "" -> getPropertiesByOwner ownerId
                         = Return (failure (Some "Owner ID is required")))
        /\ (forall q, queryOf (getPropertiesByOwner ownerId) = Some q ->
             ownerId <> ""
             /\ q = {| from := "properties";
                       steps := [Select (Some "*"); Eq "owner_id" (VString ownerId);
                                 Order "created_at" false] |}))
  /\ (forall propertyId status,
        (propertyId = "" -> updatePropertyStatus propertyId status
                            = Return (failure (Some "Property ID is required")))
        /\ (propertyId <> "" -> ~ In status statuses ->
            updatePropertyStatus propertyId status
            = Return (failure (Some "Invalid status")))
        /\ (forall q, queryOf (updatePropertyStatus propertyId status) = Some q ->
             propertyId <> "" /\ In status statuses
             /\ q = {| from := "properties";
                       steps := [Update [("status", VString status)];
                                 Eq "id" (VString propertyId)] |})).
Proof.
  refine (conj _ (conj _ (conj _ (conj _ _)))).
  - intros propertyId. unfold getProperty. split; [now intros ->|].
    intros q. destruct (nonEmpty propertyId) eqn:E; simpl; [|discriminate].
    intros [= <-]. split; [now apply nonEmpty_true | reflexivity].
  - intros propertyId updateData. unfold updateProperty. split; [now intros ->|].
    intros q. destruct (nonEmpty propertyId) eqn:E; simpl; [|discriminate].
    repeat match goal with
           | |- context [if ?b then Return _ else _] =>
               destruct b; simpl; [discriminate|]
           end.
    intros [= <-]. split; [now apply nonEmpty_true | simpl; auto].
  - intros propertyId. unfold deleteProperty. split; [now intros ->|].
    intros q. destruct (nonEmpty propertyId) eqn:E; simpl; [|discriminate].
    intros [= <-]. split; [now apply nonEmpty_true | reflexivity].
  - intros ownerId. unfold getPropertiesByOwner. split; [now intros ->|].
    intros q. destruct (nonEmpty ownerId) eqn:E; simpl; [|discriminate].
    intros [= <-]. split; [now apply nonEmpty_true | reflexivity].
  - intros propertyId status. unfold updatePropertyStatus.
    split; [now intros ->|]. split.
    + intros Hid Hs. apply nonEmpty_true in Hid. rewrite Hid. cbn [negb].
      destruct (includes statuses status) eqn:E; [|reflexivity].
      apply includes_In in E. contradiction.
    + intros q. destruct (nonEmpty propertyId) eqn:E; cbn [negb]; [|discriminate].
      destruct (includes statuses status) eqn:Es; cbn [negb queryOf]; [|discriminate].
      intros [= <-].
      split; [now apply nonEmpty_true|]. split; [now apply includes_In | reflexivity].
Qed.

Lemma identified_rows_only_witness :
  deleteProperty "" = Return (failure (Some "Property ID is required"))
  /\ "property-123" <> "".
Proof.
  destruct (identified_rows_only (H := PropertyTests.V8)) as (_ & _ & Hdelete & _).
  split.
  - exact (proj1 (Hdelete "") eq_refl).
  - exact (proj1 (proj2 (Hdelete "property-123") _ eq_refl)).
Defined.

(** *** The service's test-suite on the model *)

Example test_validate_required_fields :
  createProperty (H := PropertyTests.V8) (PropertyTests.beachHouseWith "" "house" 250%Q)
  = Return (failure (Some "Owner ID is required")).
Proof. reflexivity. Qed.

Example test_validate_property_type :
  createProperty (H := PropertyTests.V8)
    (PropertyTests.beachHouseWith "owner-123" "invalid-type" 250%Q)
  = Return (failure (Some "Invalid property type")).
Proof. reflexivity. Qed.

Example test_validate_price_range :
  createProperty (H := PropertyTests.V8)
    (PropertyTests.beachHouseWith "owner-123" "house" (-100)%Q)
  = Return (failure (Some "Price per night must be positive")).
Proof. reflexivity. Qed.

Example test_create_reaches_database :
  isValid (validatePropertyData PropertyTests.beachHouse) = true
  /\ exists row,
       queryOf (createProperty (H := PropertyTests.V8) PropertyTests.beachHouse)
       = Some {| from := "properties"; steps := [Insert row; Select None; Single] |}
       /\ get "country" row = Some (VString "US")
       /\ get "status" row = Some (VString "draft").
Proof. split; [reflexivity|]. eexists. repeat split. Qed.

Example test_update_errors :
  run (PropertyTests.failing "Update failed")
    (updateProperty (H := PropertyTests.V8) "property-123" PropertyTests.updatedBeachHouse)
  = failure (Some "Update failed").
Proof. reflexivity. Qed.

Example test_update_object :
  updateObject PropertyTests.updatedBeachHouse
  = [ ("title", VString "Updated Beach House");
      ("description", VString "Updated description");
      ("price_per_night", VNumber 300%Q) ].
Proof. reflexivity. Qed.

Example test_search_filters :
  steps (searchQuery PropertyTests.miamiHouses)
  = [ Select (Some "*");
      Eq "city" (VString "Miami");
      Eq "state" (VString "FL");
      Gte "price_per_night" (VDouble 100%float);
      Lte "price_per_night" (VDouble 500%float);
      Gte "bedrooms" (VDouble 2%float);
      Eq "property_type" (VString "house");
      Eq "status" (VString "active");
      Order "created_at" false ].
Proof. reflexivity. Qed.

Example test_validate_status :
  updatePropertyStatus "property-123" "invalid-status"
  = Return (failure (Some "Invalid status")).
Proof. reflexivity. Qed.

End PropertyServiceFacts.

(** ** The booking service *)

Module BookingServiceFacts.
Import Supabase BookingService.

Lemma date_le_false (a b : Date) :
  date_le a b = false <-> forall x y, a = Some x -> b = Some y -> y < x.
Proof.
  destruct a as [x|], b as [y|]; simpl.
  - rewrite Z.leb_gt. split.
    + intros Hlt ? ? [= <-] [= <-]. exact Hlt.
    + intros Hxy. now apply Hxy.
  - split; [intros _ ? ? _ [=] | reflexivity].
  - split; [intros _ ? ? [=] | reflexivity].
  - split; [intros _ ? ? [=] | reflexivity].
Qed.

Lemma date_lt_false (a : Date) (y : Z) :
  date_lt a (Some y) = false <-> forall x, a = Some x -> y <= x.
Proof.
  destruct a as [x|]; simpl.
  - rewrite Z.ltb_ge. split; [intros Hle ? [= <-]; exact Hle | intros Hx; now apply Hx].
  - split; [intros _ ? [=] | reflexivity].
Qed.

(** X14.  A booking request is accepted exactly when its two ids and its two
    date texts are not empty, the guests and the total amount are each
    positive or [NaN], and the dates, as far as they can be read, are in
    order and not before today: the check-out after the check-in when both
    are valid dates, and the check-in not before today when it is a valid
    date.  A date text that is not a valid date passes both date checks,
    and a [NaN] passes the check of the guests and of the amount: every
    comparison with an invalid date or with [NaN] is false. *)
Theorem validateBookingData_accepts `{DateParser}
  (today : Z) (bookingData : CreateBookingRequest.t) :
  isValid (validateBookingData today bookingData) = true <->
  CreateBookingRequest.propertyId bookingData <> ""
  /\ CreateBookingRequest.buyerId bookingData <> ""
  /\ CreateBookingRequest.checkInDate bookingData <> ""
  /\ CreateBookingRequest.checkOutDate bookingData <> ""
  /\ (forall checkOut checkIn,
        parseDate (CreateBookingRequest.checkOutDate bookingData) = Some checkOut ->
        parseDate (CreateBookingRequest.checkInDate bookingData) = Some checkIn ->
        checkIn < checkOut)
  /\ (forall checkIn,
        parseDate (CreateBookingRequest.checkInDate bookingData) = Some checkIn ->
        today <= checkIn)
  /\ (isNaN (CreateBookingRequest.guests bookingData) = true
      \/ dbl_lt 0%float (CreateBookingRequest.guests bookingData) = true)
  /\ (isNaN (CreateBookingRequest.totalAmount bookingData) = true
      \/ dbl_lt 0%float (CreateBookingRequest.totalAmount bookingData) = true).
Proof.
  unfold validateBookingData. cbv zeta.
  rewrite <- !nonEmpty_true, <- date_le_false, <- date_lt_false, <- !dbl_le_zero.
  repeat
    match goal with
    | |- context [if negb ?b then invalid _ else _] =>
        destruct b; cbn [negb];
        [|split; [discriminate | intros ?; intuition discriminate]]
    | |- context [if ?b then invalid _ else _] =>
        destruct b; [split; [discriminate | intros ?; intuition discriminate]|]
    end.
  split; [intros _; repeat split | reflexivity].
Qed.

Lemma validateBookingData_accepts_witness :
  isValid (validateBookingData (H := DateOnly) (daysFromCivil 2023 11 1 * 86400000)
             (CreateBookingRequest.mk "property-123" "buyer-123" "2023-12-01" "2023-12-05"
                2%float 1000%float None None None)) = true.
Proof.
  apply (validateBookingData_accepts (H := DateOnly)). simpl.
  split; [discriminate|]. split; [discriminate|]. split; [discriminate|].
  split; [discriminate|]. split; [|split; [|split]].
  - intros ? ? [= <-] [= <-]. reflexivity.
  - intros ? [= <-]. discriminate.
  - right. reflexivity.
  - right. reflexivity.
Defined.

(** A request whose guest count is [NaN] passes the validation; one for no
    guest does not. *)
Example test_guests :
  isValid (validateBookingData (H := DateOnly) (daysFromCivil 2023 11 1 * 86400000)
             (CreateBookingRequest.mk "property-123" "buyer-123" "2023-12-01" "2023-12-05"
                PrimFloat.nan 1000%float None None None)) = true
  /\ validateBookingData (H := DateOnly) (daysFromCivil 2023 11 1 * 86400000)
       (CreateBookingRequest.mk "property-123" "buyer-123" "2023-12-01" "2023-12-05"
          0%float 1000%float None None None)
     = invalid "Guests must be at least 1".
Proof. split; reflexivity. Qed.

Lemma conflicts_sharesInstant `{DateParser} (checkIn checkOut : Z) (booking : DbBooking.t) :
  checkIn < checkOut ->
  (forall i o,
     parseDate (DbBooking.check_in_date booking) = Some i ->
     parseDate (DbBooking.check_out_date booking) = Some o -> i < o) ->
  conflicts (Some checkIn) (Some checkOut) booking = true
  <-> sharesInstant checkIn checkOut booking.
Proof.
  intros Hstay Hrow. unfold conflicts, sharesInstant.
  destruct (parseDate (DbBooking.check_in_date booking)) as [i|];
    destruct (parseDate (DbBooking.check_out_date booking)) as [o|]; simpl.
  - specialize (Hrow i o eq_refl eq_refl).
    rewrite andb_true_iff, !Z.ltb_lt. split.
    + intros [H1 H2]. exists i, o, (Z.max checkIn i). repeat split; lia.
    + intros (i' & o' & t & [= <-] & [= <-] & Ht1 & Ht2). lia.
  - split; [discriminate | intros (? & ? & ? & _ & [=] & _)].
  - rewrite andb_false_r. split; [discriminate | intros (? & ? & ? & [=] & _)].
  - split; [discriminate | intros (? & ? & ? & [=] & _)].
Qed.

(** X15.  For a stay with valid dates in order, against a database whose
    pending and confirmed bookings of the property have their own dates in
    order, the property is reported unavailable exactly when one of those
    bookings shares an instant with the stay.  A booking that ends when the
    stay begins, or begins when the stay ends, is no conflict. *)
Theorem availability_overlap `{DateParser}
  (db : Database DbBooking.t) (propertyId checkInDate checkOutDate : string)
  (checkIn checkOut : Z) (bookings : list DbBooking.t) :
  propertyId <> "" -> checkInDate <> "" -> checkOutDate <> "" ->
  parseDate checkInDate = Some checkIn ->
  parseDate checkOutDate = Some checkOut ->
  checkIn < checkOut ->
  onRows db (availabilityQuery propertyId) = Resolved (Some bookings) None ->
  (forall booking i o,
     In booking bookings ->
     parseDate (DbBooking.check_in_date booking) = Some i ->
     parseDate (DbBooking.check_out_date booking) = Some o -> i < o) ->
  exists available,
    run db (checkPropertyAvailability propertyId checkInDate checkOutDate)
    = ServiceResponse.mk true None (Some available) None
    /\ (available = false <->
        exists booking, In booking bookings /\ sharesInstant checkIn checkOut booking)
    /\ (forall booking i o,
          In booking bookings ->
          parseDate (DbBooking.check_in_date booking) = Some i ->
          parseDate (DbBooking.check_out_date booking) = Some o ->
          o <= checkIn \/ checkOut <= i ->
          ~ sharesInstant checkIn checkOut booking).
Proof.
  intros Hid Hin Hout Pin Pout Hstay Hdb Hrows.
  apply nonEmpty_true in Hid, Hin, Hout.
  unfold checkPropertyAvailability. rewrite Hid, Hin, Hout, Pin, Pout. cbn [negb orb date_le].
  destruct (Z.leb_spec checkOut checkIn) as [Hle|_]; [lia|].
  cbn [run]. rewrite Hdb.
  exists (negb (existsb (conflicts (Some checkIn) (Some checkOut)) bookings)).
  split; [reflexivity|]. split.
  - rewrite negb_false_iff, existsb_exists. split.
    + intros (booking & Hb & Hc). exists booking. split; [assumption|].
      apply conflicts_sharesInstant; [assumption | | assumption].
      intros i o. now apply Hrows.
    + intros (booking & Hb & Hs). exists booking. split; [assumption|].
      apply conflicts_sharesInstant; [assumption | | assumption].
      intros i o. now apply Hrows.
  - intros booking i o _ Pi Po Hapart (i' & o' & t & Pi' & Po' & Ht1 & Ht2).
    rewrite Pi in Pi'. rewrite Po in Po'. injection Pi' as <-. injection Po' as <-. lia.
Qed.

Lemma availability_overlap_witness :
  exists available,
    run (BookingTests.holding
           [BookingTests.row "booking-1" "2023-12-02" "2023-12-04" "confirmed"])
        (checkPropertyAvailability (H := DateOnly) "property-123" "2023-12-01" "2023-12-05")
    = ServiceResponse.mk true None (Some available) None
    /\ (available = false <->
        exists booking,
          In booking [BookingTests.row "booking-1" "2023-12-02" "2023-12-04" "confirmed"]
          /\ sharesInstant (H := DateOnly)
               (daysFromCivil 2023 12 1 * 86400000) (daysFromCivil 2023 12 5 * 86400000)
               booking).
Proof.
  destruct (availability_overlap (H := DateOnly)
              (BookingTests.holding
                 [BookingTests.row "booking-1" "2023-12-02" "2023-12-04" "confirmed"])
              "property-123" "2023-12-01" "2023-12-05"
              (daysFromCivil 2023 12 1 * 86400000) (daysFromCivil 2023 12 5 * 86400000)
              [BookingTests.row "booking-1" "2023-12-02" "2023-12-04" "confirmed"])
    as (available & Hrun & Hiff & _);
    try reflexivity; try discriminate.
  - intros booking i o [<-|[]] [= <-] [= <-]. reflexivity.
  - exists available. now split.
Defined.

(** X16.  When the check-in or the check-out text is not a valid date, the
    check of the date range never rejects.  An empty property id, and
    then an empty date text, is still answered with its "... required"
    failure; with the three texts not empty the method awaits the bookings
    of the property, and when the database answers without an error it
    reports the property available whatever bookings the database gave:
    no booking conflicts with an invalid date. *)
Theorem invalid_dates_available `{DateParser}
  (db : Database DbBooking.t) (propertyId checkInDate checkOutDate : string) :
  parseDate checkInDate = None \/ parseDate checkOutDate = None ->
  let method := checkPropertyAvailability propertyId checkInDate checkOutDate in
  (propertyId = "" -> method = Return (failure (Some "Property ID is required")))
  /\ (propertyId <> "" -> checkInDate = "" \/ checkOutDate = "" ->
      method = Return (failure (Some "Check-in and check-out dates are required")))
  /\ (propertyId <> "" -> checkInDate <> "" -> checkOutDate <> "" ->
      trace db method = [availabilityQuery propertyId]
      /\ forall data,
           onRows db (availabilityQuery propertyId) = Resolved data None ->
           run db method = ServiceResponse.mk true None (Some true) None).
Proof.
  intros Hnan. cbv zeta. unfold checkPropertyAvailability. split; [|split].
  - now intros ->.
  - intros Hid Hempty. apply nonEmpty_true in Hid. rewrite Hid. cbn [negb].
    assert (negb (nonEmpty checkInDate) || negb (nonEmpty checkOutDate) = true) as ->;
      [|reflexivity].
    destruct Hempty as [-> | ->]; [reflexivity | apply orb_true_r].
  - intros Hid Hin Hout. apply nonEmpty_true in Hid, Hin, Hout.
    rewrite Hid, Hin, Hout. cbn [negb orb].
    assert (date_le (parseDate checkOutDate) (parseDate checkInDate) = false) as ->.
    { destruct Hnan as [-> | ->]; [now destruct (parseDate checkOutDate) | reflexivity]. }
    split; [reflexivity|]. intros data Hdb.
    cbn [run]. rewrite Hdb. do 2 f_equal.
    destruct data as [bookings|]; [|reflexivity].
    apply negb_true_iff. apply not_true_is_false. rewrite existsb_exists.
    intros (booking & _ & Hc). unfold conflicts in Hc.
    destruct Hnan as [E | E]; rewrite E in Hc; simpl in Hc.
    + discriminate.
    + now rewrite andb_false_r in Hc.
Qed.

Lemma invalid_dates_available_witness :
  run (BookingTests.holding
         [BookingTests.row "booking-1" "2023-12-02" "2023-12-04" "confirmed"])
      (checkPropertyAvailability (H := DateOnly) "property-123" "next week" "2023-12-05")
  = ServiceResponse.mk true None (Some true) None
  /\ checkPropertyAvailability (H := DateOnly) "property-123" "next week" ""
     = Return (failure (Some "Check-in and check-out dates are required")).
Proof.
  split.
  - destruct (invalid_dates_available (H := DateOnly)
                (BookingTests.holding
                   [BookingTests.row "booking-1" "2023-12-02" "2023-12-04" "confirmed"])
                "property-123" "next week" "2023-12-05" (or_introl eq_refl))
      as (_ & _ & Hawait).
    destruct Hawait as [_ Hrun]; try discriminate.
    exact (Hrun (Some [BookingTests.row "booking-1" "2023-12-02" "2023-12-04" "confirmed"])
             eq_refl).
  - destruct (invalid_dates_available (H := DateOnly)
                (BookingTests.holding []) "property-123" "next week" "" (or_introl eq_refl))
      as (_ & Hempty & _).
    apply Hempty; [discriminate | now right].
Defined.

Lemma validateBookingData_guards `{DateParser}
  (today : Z) (bookingData : CreateBookingRequest.t) :
  isValid (validateBookingData today bookingData) = true ->
  nonEmpty (CreateBookingRequest.propertyId bookingData) = true
  /\ nonEmpty (CreateBookingRequest.checkInDate bookingData) = true
  /\ nonEmpty (CreateBookingRequest.checkOutDate bookingData) = true
  /\ date_le (parseDate (CreateBookingRequest.checkOutDate bookingData))
             (parseDate (CreateBookingRequest.checkInDate bookingData)) = false.
Proof.
  unfold validateBookingData. cbv zeta.
  repeat
    match goal with
    | |- context [if negb ?b then invalid _ else _] =>
        destruct b; cbn [negb]; [|discriminate]
    | |- context [if ?b then invalid _ else _] =>
        destruct b; [discriminate|]
    end.
  intros _. repeat split.
Qed.

(** X17.  Against any database, [createBooking] awaits nothing, or the
    availability chain alone, or the availability chain and then the
    insertion.  It inserts exactly when the request passes validation, the
    availability chain resolves without an error, and none of the bookings
    it gives conflicts with the requested dates; the row it inserts is a
    pending booking. *)
Theorem createBooking_inserts `{DateParser} `{JsEngine}
  (today : Z) (bookingData : CreateBookingRequest.t) (db : Database DbBooking.t) :
  let availability := availabilityQuery (CreateBookingRequest.propertyId bookingData) in
  let queries := trace db (createBooking today bookingData) in
  (queries = [] \/ queries = [availability]
   \/ queries = [availability; insertQuery bookingData])
  /\ (In (insertQuery bookingData) queries <->
      isValid (validateBookingData today bookingData) = true
      /\ exists data,
           onRows db availability = Resolved data None
           /\ forall bookings booking,
                data = Some bookings -> In booking bookings ->
                conflicts (parseDate (CreateBookingRequest.checkInDate bookingData))
                          (parseDate (CreateBookingRequest.checkOutDate bookingData))
                          booking = false)
  /\ get "status" (insertRow bookingData) = Some (VString "pending").
Proof.
  cbv zeta. split; [|split; [|reflexivity]].
  - unfold createBooking.
    destruct (isValid (validateBookingData today bookingData)) eqn:Hv; cbn [negb];
      [|now left].
    destruct (validateBookingData_guards _ _ Hv) as (G1 & G2 & G3 & G4).
    unfold checkPropertyAvailability. rewrite G1, G2, G3, G4. cbn [negb orb andThen trace].
    destruct (onRows db _) as [thrown|data [message|]]; cbn [andThen trace];
      [now right; left | now right; left |].
    cbn [ServiceResponse.success ServiceResponse.isAvailable negb].
    destruct (match data with Some _ => _ | None => _ end);
      cbn [negb trace]; [now right; left | now right; right].
  - unfold createBooking.
    destruct (isValid (validateBookingData today bookingData)) eqn:Hv; cbn [negb];
      [|split; [intros [] | intros [[=] _]]].
    destruct (validateBookingData_guards _ _ Hv) as (G1 & G2 & G3 & G4).
    unfold checkPropertyAvailability. rewrite G1, G2, G3, G4. cbn [negb orb andThen trace].
    destruct (onRows db _) as [thrown|data [message|]] eqn:Hdb; cbn [andThen trace].
    + split; [intros [[=]|[]] | intros (_ & ? & [=] & _)].
    + split; [intros [[=]|[]] | intros (_ & ? & [=] & _)].
    + cbn [ServiceResponse.success ServiceResponse.isAvailable negb].
      destruct data as [bookings|].
      * destruct (existsb _ bookings) eqn:Hex; cbn [negb trace].
        -- split; [intros [[=]|[]]|]. intros (_ & data & [= <-] & Hnone).
           apply existsb_exists in Hex. destruct Hex as (booking & Hin & Hc).
           rewrite (Hnone bookings booking eq_refl Hin) in Hc. discriminate.
        -- split; [intros _ | intros _; right; now left].
           split; [reflexivity|]. exists (Some bookings). split; [reflexivity|].
           intros ? booking [= <-] Hin.
           destruct (conflicts _ _ booking) eqn:Hc; [|reflexivity].
           assert (existsb (conflicts
                              (parseDate (CreateBookingRequest.checkInDate bookingData))
                              (parseDate (CreateBookingRequest.checkOutDate bookingData)))
                           bookings = true) as Hex'
             by (apply existsb_exists; now exists booking).
           congruence.
      * cbn [negb trace]. split; [intros _ | intros _; right; now left].
        split; [reflexivity|]. exists None. split; [reflexivity|]. intros ? ? [=].
Qed.

Lemma createBooking_inserts_witness :
  In (insertQuery
        (CreateBookingRequest.mk "property-123" "buyer-123" "2023-12-05" "2023-12-09"
           2%float 1000%float None None None))
     (trace (BookingTests.holding
               [BookingTests.row "booking-1" "2023-12-02" "2023-12-05" "confirmed"])
        (createBooking (H := DateOnly) (H0 := PropertyTests.V8)
           (daysFromCivil 2023 11 1 * 86400000)
           (CreateBookingRequest.mk "property-123" "buyer-123" "2023-12-05" "2023-12-09"
              2%float 1000%float None None None))).
Proof.
  apply (proj1 (proj2 (createBooking_inserts (H := DateOnly) (H0 := PropertyTests.V8)
                         (daysFromCivil 2023 11 1 * 86400000)
                         (CreateBookingRequest.mk "property-123" "buyer-123" "2023-12-05"
                            "2023-12-09" 2%float 1000%float None None None)
                         (BookingTests.holding
                            [BookingTests.row "booking-1" "2023-12-02" "2023-12-05"
                               "confirmed"])))).
  split; [reflexivity|]. eexists. split; [reflexivity|].
  intros ? booking [= <-] [<-|[]]. reflexivity.
Defined.

Example test_availability_without_bookings :
  run (BookingTests.holding [])
      (checkPropertyAvailability (H := DateOnly) "property-123" "2023-12-01" "2023-12-05")
  = ServiceResponse.mk true None (Some true) None.
Proof. reflexivity. Qed.

Example test_availability_conflict :
  run (BookingTests.holding
         [BookingTests.row "booking-1" "2023-12-02" "2023-12-04" "confirmed"])
      (checkPropertyAvailability (H := DateOnly) "property-123" "2023-12-01" "2023-12-05")
  = ServiceResponse.mk true None (Some false) None.
Proof. reflexivity. Qed.

Example test_availability_date_range :
  checkPropertyAvailability (H := DateOnly) "property-123" "2023-12-05" "2023-12-01"
  = Return (failure (Some "Check-out date must be after check-in date")).
Proof. reflexivity. Qed.

Example test_date_only :
  parseDateOnly "2023-12-01" = Some 1701388800000
  /\ parseDateOnly "1970-01-01" = Some 0
  /\ parseDateOnly "2024-02-29" = Some 1709164800000.
Proof. repeat split. Qed.

End BookingServiceFacts.

(** ** Regular expressions *)

Lemma Matches_Never (w : list ascii) : ~ Matches Never w.
Proof. intros H. remember Never as e. destruct H; discriminate. Qed.

Lemma Matches_Empty (w : list ascii) : Matches Empty w <-> w = [].
Proof.
  split.
  - intros H. remember Empty as e. destruct H; try discriminate. reflexivity.
  - intros ->. constructor.
Qed.

Lemma Matches_Class (p : ascii -> bool) (w : list ascii) :
  Matches (Class p) w <-> exists c, w = [c] /\ p c = true.
Proof.
  split.
  - intros H. remember (Class p) as e eqn:E. destruct H; try discriminate.
    injection E as <-. eauto.
  - intros (c & -> & Hc). now constructor.
Qed.

Lemma Matches_Seq (r s : Regex) (w : list ascii) :
  Matches (Seq r s) w <-> exists u v, w = (u ++ v)%list /\ Matches r u /\ Matches s v.
Proof.
  split.
  - intros H. remember (Seq r s) as e eqn:E. destruct H; try discriminate.
    injection E as <- <-. eauto.
  - intros (u & v & -> & Hu & Hv). now constructor.
Qed.

Lemma Matches_Alt (r s : Regex) (w : list ascii) :
  Matches (Alt r s) w <-> Matches r w \/ Matches s w.
Proof.
  split.
  - intros H. remember (Alt r s) as e eqn:E. destruct H; try discriminate;
      injection E as <- <-; auto.
  - intros [H|H]; [now apply MAltL | now apply MAltR].
Qed.

Lemma nullable_Matches (r : Regex) : nullable r = true <-> Matches r [].
Proof.
  induction r as [| |p|r IHr s IHs|r IHr s IHs|r IHr]; simpl.
  - split; [discriminate | intros H; now apply Matches_Never in H].
  - split; [constructor | reflexivity].
  - rewrite Matches_Class. split; [discriminate | intros (c & [=] & _)].
  - rewrite andb_true_iff, IHr, IHs, Matches_Seq. split.
    + intros [Hr Hs]. now exists [], [].
    + intros (u & v & E & Hu & Hv). symmetry in E.
      apply app_eq_nil in E. destruct E as [-> ->]. now split.
  - now rewrite orb_true_iff, IHr, IHs, Matches_Alt.
  - split; [constructor | reflexivity].
Qed.

Lemma Matches_Star_cons (r : Regex) (c : ascii) (w : list ascii) :
  Matches (Star r) (c :: w) ->
  exists u v, w = (u ++ v)%list /\ Matches r (c :: u) /\ Matches (Star r) v.
Proof.
  intros H. remember (Star r) as sr eqn:Er. remember (c :: w) as cw eqn:Ew.
  revert w Ew. induction H as [| | | | | |r' u v Hu _ Hv IHv]; intros w Ew; try discriminate.
  injection Er as ->. destruct u as [|d u]; simpl in Ew.
  - now apply IHv.
  - injection Ew as -> <-. now exists u, v.
Qed.

Lemma derivative_Matches (c : ascii) (r : Regex) (w : list ascii) :
  Matches (derivative c r) w <-> Matches r (c :: w).
Proof.
  revert w. induction r as [| |p|r IHr s IHs|r IHr s IHs|r IHr]; intros w; simpl.
  - split; intros H; now apply Matches_Never in H.
  - rewrite Matches_Empty. split; [intros H; now apply Matches_Never in H | discriminate].
  - rewrite Matches_Class. destruct (p c) eqn:Hp.
    + rewrite Matches_Empty. split.
      * intros ->. now exists c.
      * intros (d & [= _ ->] & _). reflexivity.
    + split; [intros H; now apply Matches_Never in H|].
      intros (d & [= <- _] & Hd). congruence.
  - rewrite Matches_Alt, !Matches_Seq. split.
    + intros [(u & v & -> & Hu & Hv)|H].
      * exists (c :: u), v. split; [reflexivity|]. split; [now apply IHr | assumption].
      * destruct (nullable r) eqn:Hn; [|now apply Matches_Never in H].
        exists [], (c :: w). split; [reflexivity|].
        split; [now apply nullable_Matches | now apply IHs].
    + intros (u & v & E & Hu & Hv). destruct u as [|d u]; simpl in E.
      * subst v. right. apply nullable_Matches in Hu. rewrite Hu. now apply IHs.
      * injection E as <- ->. left. exists u, v.
        split; [reflexivity|]. split; [now apply IHr | assumption].
  - now rewrite !Matches_Alt, IHr, IHs.
  - rewrite Matches_Seq. split.
    + intros (u & v & -> & Hu & Hv). apply IHr in Hu.
      exact (MStarS r (c :: u) v Hu Hv).
    + intros H. apply Matches_Star_cons in H. destruct H as (u & v & -> & Hu & Hv).
      exists u, v. split; [reflexivity|]. split; [now apply IHr | assumption].
Qed.

(** The matcher decides the language. *)
Lemma accepts_Matches (r : Regex) (w : list ascii) :
  accepts r w = true <-> Matches r w.
Proof.
  revert r. induction w as [|c w IH]; intros r; simpl.
  - apply nullable_Matches.
  - rewrite IH. apply derivative_Matches.
Qed.

Lemma Matches_Star_Class (p : ascii -> bool) (w : list ascii) :
  Matches (Star (Class p)) w <-> Forall (fun c => p c = true) w.
Proof.
  split.
  - intros H. remember (Star (Class p)) as sr eqn:Er.
    induction H as [| | | | | |r u v Hu _ Hv IHv]; try discriminate; [constructor|].
    injection Er as ->. apply Matches_Class in Hu. destruct Hu as (c & -> & Hc).
    constructor; auto.
  - induction 1 as [|c w Hc _ IH]; [constructor|].
    exact (MStarS (Class p) [c] w (MClass p c Hc) IH).
Qed.

Lemma Matches_Plus_Class (p : ascii -> bool) (w : list ascii) :
  Matches (Plus (Class p)) w <-> w <> [] /\ Forall (fun c => p c = true) w.
Proof.
  unfold Plus. rewrite Matches_Seq. split.
  - intros (u & v & -> & Hu & Hv). apply Matches_Class in Hu. destruct Hu as (c & -> & Hc).
    apply Matches_Star_Class in Hv. split; [discriminate | now constructor].
  - intros [Hne Hall]. destruct w as [|c w]; [now elim Hne|].
    inversion Hall; subst. exists [c], w. split; [reflexivity|].
    split; [now constructor | now apply Matches_Star_Class].
Qed.

Lemma Matches_Opt (r : Regex) (w : list ascii) :
  Matches (Opt r) w <-> w = [] \/ Matches r w.
Proof. unfold Opt. now rewrite Matches_Alt, Matches_Empty. Qed.

(** ** The user service *)

Module UserServiceFacts.
Import UserService.

Lemma chars_append (a b : string) :
  list_ascii_of_string (a ++ b)
  = (list_ascii_of_string a ++ list_ascii_of_string b)%list.
Proof. induction a as [|c a IH]; simpl; [reflexivity | now rewrite IH]. Qed.

Lemma chars_empty (s : string) : list_ascii_of_string s = [] <-> s = "".
Proof. destruct s; simpl; split; (reflexivity || discriminate). Qed.

Lemma plain_chars (s : string) :
  plain s <->
  list_ascii_of_string s <> []
  /\ Forall (fun c => notSpaceNorAt c = true) (list_ascii_of_string s).
Proof.
  unfold plain. rewrite chars_empty, Forall_forall.
  assert (forall c, notSpaceNorAt c = true <-> isWhiteSpace c = false /\ c <> "@"%char) as Hc.
  { intros c. unfold notSpaceNorAt, only.
    rewrite negb_true_iff, orb_false_iff, Ascii.eqb_neq. intuition congruence. }
  split; intros [Hne Hall]; (split; [assumption|]); intros c Hin; apply Hc; auto.
Qed.

Lemma emailRegex_Matches (w : list ascii) :
  Matches emailRegex w <->
  exists a b c,
    w = (a ++ "@"%char :: b ++ "."%char :: c)%list
    /\ Matches (Plus (Class notSpaceNorAt)) a
    /\ Matches (Plus (Class notSpaceNorAt)) b
    /\ Matches (Plus (Class notSpaceNorAt)) c.
Proof.
  unfold emailRegex. split.
  - intros H.
    apply Matches_Seq in H. destruct H as (a & w1 & -> & Ha & H).
    apply Matches_Seq in H. destruct H as (x & w2 & -> & Hx & H).
    apply Matches_Seq in H. destruct H as (b & w3 & -> & Hb & H).
    apply Matches_Seq in H. destruct H as (y & c & -> & Hy & Hc).
    apply Matches_Class in Hx. destruct Hx as (x' & -> & Ex).
    apply Matches_Class in Hy. destruct Hy as (y' & -> & Ey).
    apply Ascii.eqb_eq in Ex, Ey. subst x' y'.
    now exists a, b, c.
  - intros (a & b & c & -> & Ha & Hb & Hc).
    apply Matches_Seq. exists a, ("@"%char :: b ++ "."%char :: c)%list.
    split; [reflexivity|]. split; [assumption|].
    apply Matches_Seq. exists ["@"%char], (b ++ "."%char :: c)%list.
    split; [reflexivity|]. split; [now constructor|].
    apply Matches_Seq. exists b, ("."%char :: c)%list.
    split; [reflexivity|]. split; [assumption|].
    apply Matches_Seq. exists ["."%char], c.
    split; [reflexivity|]. split; [now constructor | assumption].
Qed.

(** X18.  An email passes exactly when it reads [local@domain.tld] with the
    three parts not empty and free of white space and of [@].  The parts
    may hold dots themselves. *)
Theorem isValidEmail_shape (email : string) :
  isValidEmail email = true <->
  exists local domain tld,
    email = local ++ "@" ++ domain ++ "." ++ tld
    /\ plain local /\ plain domain /\ plain tld.
Proof.
  unfold isValidEmail, test. rewrite accepts_Matches, emailRegex_Matches.
  setoid_rewrite Matches_Plus_Class. setoid_rewrite plain_chars. split.
  - intros (a & b & c & E & Ha & Hb & Hc).
    exists (string_of_list_ascii a), (string_of_list_ascii b), (string_of_list_ascii c).
    rewrite !list_ascii_of_string_of_list_ascii. split; [|now repeat split].
    rewrite <- (string_of_list_ascii_of_string email), E.
    rewrite <- (list_ascii_of_string_of_list_ascii a) at 1.
    rewrite <- (list_ascii_of_string_of_list_ascii b) at 1.
    rewrite <- (list_ascii_of_string_of_list_ascii c) at 1.
    change ("@"%char :: list_ascii_of_string (string_of_list_ascii b)
            ++ "."%char :: list_ascii_of_string (string_of_list_ascii c))%list
      with (list_ascii_of_string "@"
            ++ list_ascii_of_string (string_of_list_ascii b)
            ++ list_ascii_of_string "."
            ++ list_ascii_of_string (string_of_list_ascii c))%list.
    rewrite <- !chars_append. apply string_of_list_ascii_of_string.
  - intros (local & domain & tld & -> & Hl & Hd & Ht).
    exists (list_ascii_of_string local), (list_ascii_of_string domain),
           (list_ascii_of_string tld).
    split; [|now repeat split]. now rewrite !chars_append.
Qed.

Lemma isValidEmail_shape_witness :
  exists local domain tld,
    "test@example.com" = local ++ "@" ++ domain ++ "." ++ tld
    /\ plain local /\ plain domain /\ plain tld.
Proof. exact (proj1 (isValidEmail_shape "test@example.com") eq_refl). Defined.

Lemma phoneRegex_Matches (w : list ascii) :
  Matches phoneRegex w <->
  exists body,
    (w = body \/ w = "+"%char :: body)
    /\ body <> [] /\ Forall (fun c => phoneChar c = true) body.
Proof.
  unfold phoneRegex. rewrite Matches_Seq. setoid_rewrite Matches_Opt.
  setoid_rewrite Matches_Plus_Class. setoid_rewrite Matches_Class. split.
  - intros (u & body & -> & [->|(c & -> & Hc)] & Hb).
    + exists body. split; [now left | assumption].
    + apply Ascii.eqb_eq in Hc. subst c. exists body. split; [now right | assumption].
  - intros (body & [->| ->] & Hb).
    + exists [], body. split; [reflexivity|]. split; [now left | assumption].
    + exists ["+"%char], body. split; [reflexivity|]. split; [|assumption].
      right. exists "+"%char. split; [reflexivity | apply Ascii.eqb_refl].
Qed.

(** X19.  A phone number passes exactly when it is an optional [+] followed by
    at least one more code unit, all of them digits, white space, hyphens
    or round brackets, and it holds at least ten digits. *)
Theorem isValidPhone_shape (phone : string) :
  isValidPhone phone = true <->
  (exists body,
     (phone = body \/ phone = "+" ++ body)
     /\ body <> ""
     /\ forall c, In c (list_ascii_of_string body) -> phoneChar c = true)
  /\ (10 <= List.length (filter isDigit (list_ascii_of_string phone)))%nat.
Proof.
  unfold isValidPhone, test, digitsOnly.
  rewrite andb_true_iff, Nat.leb_le, accepts_Matches, phoneRegex_Matches.
  apply and_iff_compat_r. split.
  - intros (body & Hw & Hne & Hall). exists (string_of_list_ascii body).
    rewrite list_ascii_of_string_of_list_ascii. split; [|split].
    + destruct Hw as [E|E]; [left | right];
        rewrite <- (string_of_list_ascii_of_string phone), E; reflexivity.
    + intros E. apply Hne. rewrite <- (list_ascii_of_string_of_list_ascii body), E.
      reflexivity.
    + now apply Forall_forall.
  - intros (body & Hw & Hne & Hall). exists (list_ascii_of_string body).
    split; [|split].
    + destruct Hw as [-> | ->]; [now left | now right].
    + now rewrite chars_empty.
    + now apply Forall_forall.
Qed.

Lemma isValidPhone_shape_witness :
  (exists body,
     ("+1 (234) 567-8900" = body \/ "+1 (234) 567-8900" = "+" ++ body)
     /\ body <> ""
     /\ forall c, In c (list_ascii_of_string body) -> phoneChar c = true)
  /\ (10 <= List.length (filter isDigit (list_ascii_of_string "+1 (234) 567-8900")))%nat.
Proof. exact (proj1 (isValidPhone_shape "+1 (234) 567-8900") eq_refl). Defined.

Lemma blank_hasText (s : string) :
  negb (nonEmpty s) || (String.length (trim s) =? 0)%nat = false <-> hasText s.
Proof.
  rewrite orb_false_iff, negb_false_iff, trim_blank, nonEmpty_true. split.
  - now intros [_ Ht].
  - intros Ht. split; [|assumption]. intros ->. now destruct Ht as (c & [] & _).
Qed.

(** X20.  A registration is accepted exactly when the email has the shape
    [isValidEmail] asks for, the password has at least 8 code units, the
    first and the last name each hold more than white space, and the phone
    number, when one is given and not empty, passes [isValidPhone]. *)
Theorem validateUserData_accepts (userData : CreateUserRequest.t) :
  isValid (validateUserData userData) = true <->
  isValidEmail (CreateUserRequest.email userData) = true
  /\ (8 <= String.length (CreateUserRequest.password userData))%nat
  /\ hasText (CreateUserRequest.firstName userData)
  /\ hasText (CreateUserRequest.lastName userData)
  /\ (forall phone, CreateUserRequest.phone userData = Some phone -> phone <> "" ->
                    isValidPhone phone = true).
Proof.
  unfold validateUserData. cbv zeta.
  rewrite <- !blank_hasText.
  destruct (nonEmpty (CreateUserRequest.email userData)) eqn:Ee; cbn [negb].
  2:{ apply nonEmpty_false in Ee. rewrite Ee.
      split; [discriminate | intros [H _]; discriminate]. }
  destruct (isValidEmail (CreateUserRequest.email userData)); cbn [negb];
    [|split; [discriminate | intros [H _]; discriminate]].
  destruct (nonEmpty (CreateUserRequest.password userData)) eqn:Ep; cbn [negb].
  2:{ apply nonEmpty_false in Ep. rewrite Ep. simpl.
      split; [discriminate | intros (_ & H & _); lia]. }
  destruct (Nat.ltb_spec (String.length (CreateUserRequest.password userData)) 8)
    as [Hshort|Hlong]; [split; [discriminate | intros (_ & H & _); lia]|].
  repeat
    match goal with
    | |- context [if (negb ?a || ?b)%bool then invalid _ else _] =>
        destruct (negb a || b)%bool;
        [split; [discriminate | intros ?; intuition discriminate]|]
    end.
  destruct (CreateUserRequest.phone userData) as [phone|]; simpl.
  - destruct (String.eqb_spec phone "") as [->|Hne]; simpl.
    + split; [intros _ | reflexivity]. repeat split; try assumption.
      intros ? [= <-] Hn. now elim Hn.
    + destruct (isValidPhone phone) eqn:Ev; simpl.
      * split; [intros _ | reflexivity]. repeat split; try assumption.
        now intros ? [= <-] _.
      * split; [discriminate|]. intros (_ & _ & _ & _ & Hp).
        rewrite (Hp phone eq_refl Hne) in Ev. discriminate.
  - split; [intros _ | reflexivity]. repeat split; try assumption. intros ? [=].
Qed.

Lemma validateUserData_accepts_witness :
  isValidEmail "test@example.com" = true
  /\ (8 <= String.length "password123")%nat
  /\ hasText "John"
  /\ hasText "Doe"
  /\ (forall phone, Some "+1234567890" = Some phone -> phone <> "" ->
                    isValidPhone phone = true).
Proof.
  exact (proj1 (validateUserData_accepts
                  (CreateUserRequest.mk "test@example.com" "password123" "John" "Doe"
                     (Some "+1234567890") None)) eq_refl).
Defined.

Example test_register_fields :
  isValid (validateUserData
             (CreateUserRequest.mk "test@example.com" "password123" "John" "Doe"
                (Some "+1234567890") None)) = true.
Proof. reflexivity. Qed.

Example test_email_required :
  validateUserData (CreateUserRequest.mk "" "password123" "John" "Doe" None None)
  = invalid "Email is required".
Proof. reflexivity. Qed.

Example test_email_format :
  validateUserData (CreateUserRequest.mk "invalid-email" "password123" "John" "Doe" None None)
  = invalid "Invalid email format".
Proof. reflexivity. Qed.

Example test_password_strength :
  validateUserData (CreateUserRequest.mk "test@example.com" "123" "John" "Doe" None None)
  = invalid "Password must be at least 8 characters".
Proof. reflexivity. Qed.

End UserServiceFacts.

(** ** The payment service *)

Module PaymentServiceFacts.
Import PaymentService.

Lemma amount_positive (amount : number) :
  negb (num_truthy (Some amount)) || num_le amount 0%Q = false <-> (0 < amount)%Q.
Proof.
  rewrite orb_false_iff, num_le_false. split; [now intros [_ Hp]|].
  intros Hp. split; [|assumption]. simpl. rewrite negb_involutive.
  destruct (Qeq_bool amount 0) eqn:E; [|reflexivity].
  apply Qeq_bool_iff in E. rewrite E in Hp. now apply Qlt_irrefl in Hp.
Qed.

(** X21.  A payment request is accepted exactly when the booking id, the
    customer id and the payment method id are not empty, the amount is
    positive, and the currency, once upper-cased, is one of the ten known
    codes.  The case of the currency does not matter: a request that differs
    from an accepted one only in a non-empty currency with the same
    upper-casing is accepted too. *)
Theorem validatePaymentData_accepts `{CaseMapping} (paymentData : CreatePaymentRequest.t) :
  (isValid (validatePaymentData paymentData) = true <->
   CreatePaymentRequest.bookingId paymentData <> ""
   /\ (0 < CreatePaymentRequest.amount paymentData)%Q
   /\ CreatePaymentRequest.currency paymentData <> ""
   /\ In (toUpperCase (CreatePaymentRequest.currency paymentData)) validCurrencies
   /\ CreatePaymentRequest.customerId paymentData <> ""
   /\ CreatePaymentRequest.paymentMethodId paymentData <> "")
  /\ (forall other,
        toUpperCase (CreatePaymentRequest.currency other)
        = toUpperCase (CreatePaymentRequest.currency paymentData) ->
        CreatePaymentRequest.currency other <> "" ->
        CreatePaymentRequest.bookingId other = CreatePaymentRequest.bookingId paymentData ->
        CreatePaymentRequest.amount other = CreatePaymentRequest.amount paymentData ->
        CreatePaymentRequest.customerId other = CreatePaymentRequest.customerId paymentData ->
        CreatePaymentRequest.paymentMethodId other
        = CreatePaymentRequest.paymentMethodId paymentData ->
        isValid (validatePaymentData paymentData) = true ->
        isValid (validatePaymentData other) = true).
Proof.
  assert (forall p : CreatePaymentRequest.t,
            isValid (validatePaymentData p) = true <->
            CreatePaymentRequest.bookingId p <> ""
            /\ (0 < CreatePaymentRequest.amount p)%Q
            /\ CreatePaymentRequest.currency p <> ""
            /\ In (toUpperCase (CreatePaymentRequest.currency p)) validCurrencies
            /\ CreatePaymentRequest.customerId p <> ""
            /\ CreatePaymentRequest.paymentMethodId p <> "") as Hiff.
  { intros p. unfold validatePaymentData, isValidCurrency.
    rewrite <- !nonEmpty_true, <- amount_positive, <- includes_In.
    generalize (includes validCurrencies (toUpperCase (CreatePaymentRequest.currency p))).
    intros known.
    repeat
      match goal with
      | |- context [if negb ?b then invalid _ else _] =>
          destruct b; cbn [negb];
          [|split; [discriminate | intros ?; intuition discriminate]]
      | |- context [if ?b then invalid _ else _] =>
          destruct b; [split; [discriminate | intros ?; intuition discriminate]|]
      end.
    split; [intros _; repeat split | reflexivity]. }
  split; [apply Hiff|].
  intros other Hc Hne Hb Ha Hcu Hpm Hv.
  apply Hiff in Hv. apply Hiff. rewrite Hc, Hb, Ha, Hcu, Hpm. tauto.
Qed.

Lemma validatePaymentData_accepts_witness :
  isValid (validatePaymentData (H := AsciiCase)
             (CreatePaymentRequest.mk "booking-123" 1000%Q "usd" "customer-123" "pm_1234567890")) = true.
Proof.
  apply (proj2 (validatePaymentData_accepts (H := AsciiCase)
                  (CreatePaymentRequest.mk "booking-123" 1000%Q "USD" "customer-123" "pm_1234567890"))
           (CreatePaymentRequest.mk "booking-123" 1000%Q "usd" "customer-123" "pm_1234567890"));
    try reflexivity.
  discriminate.
Defined.

Example test_payment_amount :
  validatePaymentData (H := AsciiCase)
    (CreatePaymentRequest.mk "booking-123" (-100)%Q "USD" "customer-123" "pm_1234567890")
  = invalid "Amount must be positive".
Proof. reflexivity. Qed.

Example test_payment_currency :
  validatePaymentData (H := AsciiCase)
    (CreatePaymentRequest.mk "booking-123" 1000%Q "INVALID" "customer-123" "pm_1234567890")
  = invalid "Invalid currency".
Proof. reflexivity. Qed.

End PaymentServiceFacts.
